(** * Crime-AI: the scoring and fusion core

    A shallow embedding of the rule engine of [backend/crime_analyzer.py],
    [backend/motion_analyzer.py] and the detection post-processing of
    [backend/models.py], with the properties the specification states about
    them.

    Conventions of the embedding.
    - A Python [float] is an exact rational ([Q]); a decimal literal of the
      source denotes the rational it spells.  Numeric results are compared
      with [==] ([Qeq]).  Rounding, [nan] and infinities are outside the
      model, except where a division by zero decides a branch
      ([Models.iou]).  Where a result is needed to the last bit (the theft
      probability of the backpack scene) the source's expression is
      evaluated on IEEE 754 doubles instead ([Binary64]).
    - A Python [int] is a [Z]; [len] of a list is its length as a [Z].
      Positions produced by [enumerate] over a list that is sliced by them
      are [nat].
    - [str] is [string]; labels are ASCII, so [str.lower] maps [A-Z] to
      [a-z] and leaves every other character alone.
    - A dictionary with a fixed set of keys is a record.  A key read with
      [.get(k, default)] is an [option] field.
    - A loop that only appends to a list is the [flat_map] of what one
      iteration appends; a loop with other local variables is a recursion
      over a record of them.
    - [np.sqrt] is not taken: distances are kept squared and compared with
      squared bounds ([CrimePatternAnalyzer._calculate_bbox_distance_sq]).
    - The texts of the reports that render numbers or carry symbols outside
      ASCII (the assessments of violence, theft and suspicion, [details],
      [recommendation]) are kept as a template tag with its arguments, not
      as text.

    The file has three parts: the embedding; the vocabulary of the
    properties and sample inputs; the proofs. *)

From Stdlib Require Import ZArith QArith Qminmax Lqa Lia.
From Stdlib Require Import List Bool String Ascii.
From Stdlib Require Import Permutation Sorted.
From Stdlib Require Floats Uint63.
From Equations Require Import Equations.
Import ListNotations.

Local Open Scope Q_scope.
Local Open Scope string_scope.
Local Open Scope list_scope.

(* ================================================================== *)
(** * Numbers *)

Module Num.

(** [x < y] on floats, as a boolean. *)
Definition Qltb (x y : Q) : bool :=
  (Qnum x * QDen y <? Qnum y * QDen x)%Z.

(** [x <= y] on floats, as a boolean. *)
Definition Qleb (x y : Q) : bool := Qle_bool x y.

(** Python's [min(a, b)]: the first argument unless the second is smaller. *)
Definition py_min (a b : Q) : Q := if Qltb b a then b else a.

(** Python's [max(a, b)]: the first argument unless the second is larger. *)
Definition py_max (a b : Q) : Q := if Qltb a b then b else a.

(** [sum(xs)] over floats. *)
Definition Qsum (xs : list Q) : Q := fold_left Qplus xs 0.

(** [len(xs)] as a float. *)
Definition Qlen {A} (xs : list A) : Q := inject_Z (Z.of_nat (List.length xs)).

(** [np.mean(xs)]. *)
Definition mean (xs : list Q) : Q := Qsum xs / Qlen xs.

(** [max(xs)] of a non-empty sequence whose first element is [x]. *)
Definition max_list (x : Q) (xs : list Q) : Q := fold_left py_max xs x.

(** [min(xs)] and [max(xs)] over a non-empty sequence of integers. *)
Definition Zmin_list (x : Z) (xs : list Z) : Z := fold_left Z.min xs x.
Definition Zmax_list (x : Z) (xs : list Z) : Z := fold_left Z.max xs x.

End Num.
Import Num.

(* ================================================================== *)
(** * Strings *)

Module Str.

(** [c.lower()] on one ASCII character. *)
Definition lower_ascii (c : ascii) : ascii :=
  let n := nat_of_ascii c in
  if ((65 <=? n) && (n <=? 90))%nat then ascii_of_nat (n + 32) else c.

(** [s.lower()]. *)
Fixpoint lower (s : string) : string :=
  match s with
  | EmptyString => EmptyString
  | String c s' => String (lower_ascii c) (lower s')
  end.

(** [kw in s]: [kw] occurs in [s] as a contiguous substring. *)
Fixpoint contains (kw s : string) : bool :=
  String.prefix kw s ||
  match s with
  | EmptyString => false
  | String _ s' => contains kw s'
  end.

(** [any(kw in s for kw in kws)]. *)
Definition any_in (kws : list string) (s : string) : bool :=
  existsb (fun kw => contains kw s) kws.

(** [s in labels] for a set of strings. *)
Definition mem (s : string) (labels : list string) : bool :=
  existsb (String.eqb s) labels.

End Str.
Import Str.

(* ================================================================== *)
(** * Data model: the two input streams *)

(** [len(xs)]. *)
Definition len {A} (xs : list A) : Z := Z.of_nat (List.length xs).

(** The truth value of a list: [if xs:]. *)
Definition nonempty {A} (xs : list A) : bool :=
  match xs with [] => false | _ :: _ => true end.

(** An int used where a float is expected. *)
Definition float (n : Z) : Q := inject_Z n.

(** Bounding box [[x1, y1, x2, y2]] ([bbox[0]] .. [bbox[3]]). *)
Record BBox := mkBBox { bx1 : Q; by1 : Q; bx2 : Q; by2 : Q }.

(** One detected object: keys ["label"], ["conf"], ["bbox"]. *)
Record Detection := mkDetection {
  label : string;
  conf : Q;
  bbox : BBox
}.

(** One entry of [detections]: keys ["frame"], ["frame_index"] (both read
    with [.get]) and ["objects"] (absent reads as [[]]). *)
Record FrameInfo := mkFrame {
  frame : option string;
  frame_index : option Z;
  objects : list Detection
}.

(** One action prediction: keys ["label"], ["prob"]. *)
Record Action := mkAction {
  act_label : string;
  prob : Q
}.

(** One entry of [actions]: keys ["clip_index"], ["clip_type"] (read with
    [.get]) and ["top_actions"] (absent reads as [[]]). *)
Record Clip := mkClip {
  clip_index : option Z;
  clip_type : option string;
  top_actions : list Action
}.

(** [frame_info.get("frame_index", 0)]. *)
Definition frame_idx_of (f : FrameInfo) : Z :=
  match frame_index f with Some i => i | None => 0%Z end.

(** [obj["label"].lower() == "person"]. *)
Definition is_person (o : Detection) : bool := String.eqb (lower (label o)) "person".

(** [sum(1 for obj in objects if obj["label"].lower() == "person")]. *)
Definition person_count_of (objs : list Detection) : Z := len (filter is_person objs).

(** The action predictions of all clips, clip by clip, each with its clip:
    the iteration [for clip in actions: for action in clip.get("top_actions", [])]. *)
Definition clip_actions (actions : list Clip) : list (Clip * Action) :=
  flat_map (fun c => map (fun a => (c, a)) (top_actions c)) actions.

(* ================================================================== *)
(** * [CrimePatternAnalyzer] *)

Module CrimePatternAnalyzer.

(** ** Tables of [__init__] *)

Definition severity_weights : list (string * Q) :=
  [ ("weapon_threat", 1.0);
    ("violent_assault", 0.95);
    ("armed_robbery", 0.90);
    ("physical_fight", 0.85);
    ("theft_in_progress", 0.80);
    ("vandalism", 0.70);
    ("suspicious_activity", 0.60);
    ("trespassing", 0.50) ].

Definition violence_keywords : list string :=
  [ "punch"; "hit"; "kick"; "beat"; "attack"; "assault"; "fight";
    "slap"; "strangle"; "choke"; "tackle"; "headbutt"; "combat" ].

Definition weapon_keywords : list string :=
  [ "shoot"; "stab"; "aim"; "point"; "wield"; "brandish";
    "threaten"; "fire"; "swing"; "strike with" ].

Definition theft_keywords : list string :=
  [ "steal"; "snatch"; "grab"; "rob"; "shoplift"; "pickpocket";
    "burglar"; "loot"; "pilfer"; "take"; "swipe" ].

Definition vandalism_keywords : list string :=
  [ "smash"; "break"; "destroy"; "damage"; "vandal"; "graffiti";
    "spray paint"; "shatter"; "demolish" ].

(** [self.severity_weights.get(t, default)]. *)
Fixpoint weights_get (tbl : list (string * Q)) (t : string) (default : Q) : Q :=
  match tbl with
  | [] => default
  | (k, w) :: rest => if String.eqb k t then w else weights_get rest t default
  end.

(** ** Helper methods used by the weapon analysis *)

Definition weapon_labels : list string :=
  [ "knife"; "gun"; "pistol"; "rifle"; "weapon"; "firearm";
    "baseball bat"; "bat"; "hammer"; "axe"; "crowbar"; "stick";
    "scissors"; "sword"; "machete"; "blade"; "razor";
    "bottle"; "chain"; "pipe"; "wrench"; "club"; "baton" ].

Definition _is_weapon (l : string) : bool := any_in weapon_labels (lower l).

(** [_calculate_bbox_distance] returns [np.sqrt(d2)] for the sum of squares
    [d2] below.  The embedding keeps [d2] itself: the code only takes minima
    of distances and compares them with positive constants, and for
    [d2 >= 0] and [t > 0], [sqrt d2 < t] exactly when [d2 < t * t]. *)
Definition _calculate_bbox_distance_sq (bbox1 bbox2 : BBox) : Q :=
  let center1 := ((bx1 bbox1 + bx2 bbox1) / 2, (by1 bbox1 + by2 bbox1) / 2) in
  let center2 := ((bx1 bbox2 + bx2 bbox2) / 2, (by1 bbox2 + by2 bbox2) / 2) in
  (fst center1 - fst center2) * (fst center1 - fst center2)
  + (snd center1 - snd center2) * (snd center1 - snd center2).

(** [distance < t] on a stored squared distance. *)
Definition distance_lt (d2 : Q) (t : Q) : bool := Qltb d2 (t * t).

(** Entry of [weapon_frames]. *)
Record WeaponFrame := mkWeaponFrame {
  wf_frame_index : Z;
  wf_frame_name : option string;
  wf_weapon_count : Z;
  wf_person_count : Z;
  wf_weapons : list (string * Q)        (* type, confidence *)
}.

(** Entry of [person_weapon_proximity]; ["distance"] is kept squared. *)
Record Proximity := mkProximity {
  px_frame_index : Z;
  px_distance_sq : Q;
  px_weapon_type : string
}.

(** Entry of [weapon_actions]. *)
Record WeaponAction := mkWeaponAction {
  wa_action : string;
  wa_confidence : Q;
  wa_clip_index : option Z;
  wa_clip_type : option string
}.

Record WeaponReport := mkWeaponReport {
  wr_detected : bool;
  threat_level : string;
  weapon_frames : list WeaponFrame;
  proximity_alerts : list Proximity;
  weapon_actions : list WeaponAction;
  wr_assessment : string
}.

Definition _calculate_threat_level
    (weapon_frame_count : Z) (proximity_data : list Proximity)
    (weapon_actions : list WeaponAction) : string :=
  if (weapon_frame_count =? 0)%Z then "none"
  else
    let close_proximity :=
      len (filter (fun p => distance_lt (px_distance_sq p) 300) proximity_data) in
    let moderate_proximity :=
      len (filter (fun p => distance_lt (px_distance_sq p) 500) proximity_data) in
    if ((close_proximity >? 0) || (len weapon_actions >? 0))%Z then "critical"
    else if ((moderate_proximity >? 0) || (weapon_frame_count >? 2))%Z then "high"
    else "medium".

Definition _generate_weapon_assessment (threat_level : string) : string :=
  if String.eqb threat_level "critical" then
    "CRITICAL: Weapon detected in close proximity to persons. Immediate threat to safety."
  else if String.eqb threat_level "high" then
    "HIGH: Weapon detected in multiple frames. Potential threat situation."
  else if String.eqb threat_level "medium" then
    "MEDIUM: Weapon-like object detected. Monitor situation."
  else "No significant weapon threat detected.".

(** The inner loop over [persons]: [min_distance] starts at infinity, so
    after the first person it is that person's distance. *)
Definition min_distance_sq (weapon : Detection) (persons : list Detection) : option Q :=
  match persons with
  | [] => None
  | p :: ps =>
      Some (fold_left
              (fun m q => py_min m (_calculate_bbox_distance_sq (bbox weapon) (bbox q)))
              ps (_calculate_bbox_distance_sq (bbox weapon) (bbox p)))
  end.

Definition frame_weapons (f : FrameInfo) : list Detection :=
  filter (fun o => _is_weapon (label o)) (objects f).

Definition frame_persons (f : FrameInfo) : list Detection :=
  filter is_person (objects f).

(** What one iteration of the frame loop appends to [weapon_frames]. *)
Definition frame_weapon_entry (f : FrameInfo) : list WeaponFrame :=
  let weapons := frame_weapons f in
  let persons := frame_persons f in
  match weapons with
  | [] => []
  | _ :: _ =>
      [ {| wf_frame_index := frame_idx_of f;
           wf_frame_name := frame f;
           wf_weapon_count := len weapons;
           wf_person_count := len persons;
           wf_weapons := map (fun w => (label w, conf w)) weapons |} ]
  end.

(** What one iteration of the frame loop appends to
    [person_weapon_proximity]. *)
Definition frame_proximity (f : FrameInfo) : list Proximity :=
  let weapons := frame_weapons f in
  let persons := frame_persons f in
  flat_map
    (fun weapon =>
       match min_distance_sq weapon persons with
       | None => []
       | Some d =>
           [ {| px_frame_index := frame_idx_of f;
                px_distance_sq := d;
                px_weapon_type := label weapon |} ]
       end)
    weapons.

Definition analyze_weapon_threat (detections : list FrameInfo) (actions : list Clip)
    : WeaponReport :=
  let weapon_frames := flat_map frame_weapon_entry detections in
  let person_weapon_proximity := flat_map frame_proximity detections in
  let weapon_actions :=
    flat_map
      (fun ca : Clip * Action =>
         let (clip, action) := ca in
         if any_in weapon_keywords (lower (act_label action)) then
           [ {| wa_action := act_label action;
                wa_confidence := prob action;
                wa_clip_index := clip_index clip;
                wa_clip_type := clip_type clip |} ]
         else [])
      (clip_actions actions) in
  let threat_level :=
    _calculate_threat_level (len weapon_frames) person_weapon_proximity weapon_actions in
  {| wr_detected := (len weapon_frames >? 0)%Z;
     threat_level := threat_level;
     weapon_frames := weapon_frames;
     proximity_alerts :=
       filter (fun p => distance_lt (px_distance_sq p) 200) person_weapon_proximity;
     weapon_actions := weapon_actions;
     wr_assessment := _generate_weapon_assessment threat_level |}.

(** ** Violence intensity *)

Definition extreme_violence : list string :=
  [ "shoot"; "stab"; "strangle"; "choke"; "murder"; "kill" ].
Definition high_violence : list string :=
  [ "punch"; "kick"; "beat"; "hit"; "slap"; "headbutt"; "attack"; "assault" ].
Definition medium_violence : list string :=
  [ "fight"; "wrestle"; "tackle"; "shove"; "push"; "grab" ].

Definition _calculate_violence_intensity (action_label : string) (probability : Q) : Q :=
  let action_lower := lower action_label in
  let base_score := probability in
  if any_in extreme_violence action_lower then py_min 1.0 (base_score * 2.0)
  else if any_in high_violence action_lower then py_min 1.0 (base_score * 1.5)
  else if any_in medium_violence action_lower then py_min 1.0 (base_score * 1.2)
  else base_score * 0.8.

(** Entry of [violent_actions]. *)
Record ViolentAction := mkViolentAction {
  va_action : string;
  va_confidence : Q;
  va_intensity : Q;
  va_clip_index : option Z;
  va_clip_type : option string
}.

Definition _calculate_violence_score
    (violent_actions : list ViolentAction) (multi_person_frames total_frames : Z) : Q :=
  if negb (nonempty violent_actions) then 0.0
  else
    let avg_intensity := mean (map va_intensity violent_actions) in
    let action_count_factor := py_min 1.0 (float (len violent_actions) * 0.2) in
    let multi_person_factor := float multi_person_frames / float (Z.max 1 total_frames) in
    py_min 1.0 (avg_intensity * 0.5 + action_count_factor * 0.3 + multi_person_factor * 0.2).

Definition _get_intensity_level (score : Q) : string :=
  if Qltb 0.6 score then "extreme"
  else if Qltb 0.35 score then "high"
  else if Qltb 0.15 score then "moderate"
  else "low".

(** The texts of [_generate_violence_assessment], by template; the argument
    is [len(actions)]. *)
Inductive ViolenceAssessment :=
  | ExtremeViolence (n : Z)
  | HighViolence (n : Z)
  | ModerateViolence (n : Z)
  | LowOrNoViolence.

Definition _generate_violence_assessment (score : Q) (actions : list ViolentAction)
    : ViolenceAssessment :=
  if Qltb 0.75 score then ExtremeViolence (len actions)
  else if Qltb 0.5 score then HighViolence (len actions)
  else if Qltb 0.25 score then ModerateViolence (len actions)
  else LowOrNoViolence.

(** [sorted(violent_actions, key=lambda x: x["intensity"], reverse=True)]:
    descending, and stable (equal intensities keep their original order). *)
Fixpoint insert_by_intensity (x : ViolentAction) (l : list ViolentAction)
    : list ViolentAction :=
  match l with
  | [] => [x]
  | y :: l' =>
      if Qltb (va_intensity x) (va_intensity y) then y :: insert_by_intensity x l'
      else x :: y :: l'
  end.

Definition sorted_by_intensity (l : list ViolentAction) : list ViolentAction :=
  fold_right insert_by_intensity [] l.

Record ViolenceReport := mkViolenceReport {
  vr_detected : bool;
  violence_score : Q;
  intensity_level : string;
  violent_actions : list ViolentAction;
  multi_person_frame_ratio : Q;
  vr_assessment : ViolenceAssessment
}.

Definition analyze_violence_intensity (actions : list Clip) (detections : list FrameInfo)
    : ViolenceReport :=
  let violent_actions :=
    flat_map
      (fun ca : Clip * Action =>
         let (clip, action) := ca in
         let label := lower (act_label action) in
         let prob := prob action in
         if any_in violence_keywords label then
           [ {| va_action := act_label action;
                va_confidence := prob;
                va_intensity := _calculate_violence_intensity label prob;
                va_clip_index := clip_index clip;
                va_clip_type := clip_type clip |} ]
         else [])
      (clip_actions actions) in
  let multi_person_frames :=
    len (filter (fun f => (person_count_of (objects f) >=? 2)%Z) detections) in
  let violence_score :=
    _calculate_violence_score violent_actions multi_person_frames (len detections) in
  {| vr_detected := (len violent_actions >? 0)%Z;
     violence_score := violence_score;
     intensity_level := _get_intensity_level violence_score;
     violent_actions := sorted_by_intensity violent_actions;
     multi_person_frame_ratio :=
       float multi_person_frames / float (Z.max 1 (len detections));
     vr_assessment := _generate_violence_assessment violence_score violent_actions |}.

(** ** Theft patterns *)

Definition valuable_labels : list string :=
  [ "handbag"; "backpack"; "suitcase"; "cell phone"; "laptop";
    "wallet"; "purse"; "briefcase"; "watch"; "bag" ].

(** [valuable_timeline]: a dictionary from label to the list of frame indices
    in which it was seen; iteration follows insertion order, so it is kept as
    an association list. *)
Definition Timeline := list (string * list Z).

(** [if label not in tl: tl[label] = []] followed by [tl[label].append(idx)]. *)
Fixpoint timeline_append (tl : Timeline) (l : string) (idx : Z) : Timeline :=
  match tl with
  | [] => [(l, [idx])]
  | (k, frames) :: rest =>
      if String.eqb k l then (k, frames ++ [idx]) :: rest
      else (k, frames) :: timeline_append rest l idx
  end.

Definition track_frame (tl : Timeline) (f : FrameInfo) : Timeline :=
  fold_left
    (fun tl obj =>
       let l := lower (label obj) in
       if mem l valuable_labels then timeline_append tl l (frame_idx_of f) else tl)
    (objects f) tl.

Definition valuable_timeline (detections : list FrameInfo) : Timeline :=
  fold_left track_frame detections [].

(** Entry of [valuable_disappearance]. *)
Record Disappearance := mkDisappearance {
  item : string;
  first_seen : Z;
  last_seen : Z;
  duration_ratio : Q;
  suspicion_score : Q
}.

(** What one iteration over [valuable_timeline.items()] appends. *)
Definition disappearance_of (total_frames : Z) (entry : string * list Z)
    : list Disappearance :=
  let (l, frames) := entry in
  if Qltb (float (len frames)) (float total_frames * 0.3) && (len frames >=? 2)%Z then
    match frames with
    | [] => []
    | f0 :: fs =>
        let first_seen := Zmin_list f0 fs in
        let last_seen := Zmax_list f0 fs in
        let duration := (last_seen - first_seen)%Z in
        if Qltb (float duration) (float total_frames * 0.5) then
          [ {| item := l;
               first_seen := first_seen;
               last_seen := last_seen;
               duration_ratio := float duration / float total_frames;
               suspicion_score :=
                 if Qltb (float duration) (float total_frames * 0.2) then 0.8 else 0.6 |} ]
        else []
    end
  else [].

(** Entry of [theft_actions]. *)
Record TheftAction := mkTheftAction {
  ta_action : string;
  ta_confidence : Q;
  ta_clip_index : option Z
}.

(** [max(1, len(xs) or 1)]. *)
Definition len_or_1 {A} (xs : list A) : Z :=
  Z.max 1 (if (len xs =? 0)%Z then 1 else len xs).

Definition _calculate_theft_probability
    (disappearances : list Disappearance) (theft_actions : list TheftAction) : Q :=
  if negb (nonempty disappearances) && negb (nonempty theft_actions) then 0.0
  else
    let disappearance_score :=
      Qsum (map suspicion_score disappearances) / float (len_or_1 disappearances) in
    let action_score :=
      Qsum (map ta_confidence theft_actions) / float (len_or_1 theft_actions) in
    if nonempty disappearances && nonempty theft_actions then
      py_min 1.0 ((disappearance_score + action_score) / 2 * 1.2)
    else if nonempty disappearances then disappearance_score * 0.8
    else action_score * 0.7.

(** The texts of [_generate_theft_assessment], by template; the arguments
    are [len(disappearances)] and [len(actions)]. *)
Inductive TheftAssessment :=
  | HighTheftProbability (n_items n_actions : Z)
  | ModerateTheftRisk
  | LowTheftRisk.

Definition _generate_theft_assessment
    (probability : Q) (disappearances : list Disappearance) (actions : list TheftAction)
    : TheftAssessment :=
  if Qltb 0.7 probability then HighTheftProbability (len disappearances) (len actions)
  else if Qltb 0.4 probability then ModerateTheftRisk
  else LowTheftRisk.

Record TheftReport := mkTheftReport {
  tr_detected : bool;
  theft_probability : Q;
  valuable_disappearances : list Disappearance;
  theft_actions : list TheftAction;
  tr_assessment : TheftAssessment
}.

Definition analyze_theft_patterns (detections : list FrameInfo) (actions : list Clip)
    : TheftReport :=
  let total_frames := len detections in
  let valuable_disappearance :=
    flat_map (disappearance_of total_frames) (valuable_timeline detections) in
  let theft_actions :=
    flat_map
      (fun ca : Clip * Action =>
         let (clip, action) := ca in
         if any_in theft_keywords (lower (act_label action)) then
           [ {| ta_action := act_label action;
                ta_confidence := prob action;
                ta_clip_index := clip_index clip |} ]
         else [])
      (clip_actions actions) in
  let theft_probability :=
    _calculate_theft_probability valuable_disappearance theft_actions in
  {| tr_detected := (len valuable_disappearance >? 0)%Z || (len theft_actions >? 0)%Z;
     theft_probability := theft_probability;
     valuable_disappearances := valuable_disappearance;
     theft_actions := theft_actions;
     tr_assessment :=
       _generate_theft_assessment theft_probability valuable_disappearance theft_actions |}.

(** ** Suspicious behaviour *)

Definition suspicious_keywords : list string :=
  [ "lurk"; "sneak"; "hide"; "creep"; "stalk"; "prowl"; "loiter" ].

(** Entry of [suspicious_patterns]: the three shapes the analysis appends.
    The ["details"] text of the two loitering shapes is a rendering of
    [person_ratio], respectively of the frame count, kept as that number. *)
Inductive SuspiciousPattern :=
  | PossibleLoitering (confidence : Q) (person_ratio : Q)
  | SuspiciousAction (action : string) (confidence : Q) (clip_index : option Z)
  | GroupLoitering (confidence : Q) (multi_person_static_frames : Z).

(** The ["type"] key. *)
Definition pattern_type (p : SuspiciousPattern) : string :=
  match p with
  | PossibleLoitering _ _ => "possible_loitering"
  | SuspiciousAction _ _ _ => "suspicious_action"
  | GroupLoitering _ _ => "group_loitering"
  end.

(** The texts of [_generate_suspicion_assessment], by template. *)
Inductive SuspicionAssessment :=
  | HighlySuspicious (n : Z)
  | SuspiciousActivityDetected (first_type : string)
  | NoSuspiciousBehavior.

Definition _generate_suspicion_assessment (patterns : list SuspiciousPattern)
    : SuspicionAssessment :=
  if (len patterns >=? 3)%Z then HighlySuspicious (len patterns)
  else
    match patterns with
    | p0 :: _ => SuspiciousActivityDetected (pattern_type p0)
    | [] => NoSuspiciousBehavior
    end.

Record SuspicionReport := mkSuspicionReport {
  sr_detected : bool;
  sr_suspicion_score : Q;
  patterns : list SuspiciousPattern;
  sr_assessment : SuspicionAssessment
}.

Definition analyze_suspicious_behavior (detections : list FrameInfo) (actions : list Clip)
    : SuspicionReport :=
  let total_frames := len detections in
  let person_presence :=
    len (filter (fun f => existsb is_person (objects f)) detections) in
  let person_ratio := float person_presence / float (Z.max 1 total_frames) in
  let pattern1 :=
    if Qltb 0.8 person_ratio then
      [ PossibleLoitering (py_min 0.7 (person_ratio * 0.8)) person_ratio ]
    else [] in
  let pattern2 :=
    flat_map
      (fun ca : Clip * Action =>
         let (clip, action) := ca in
         if any_in suspicious_keywords (lower (act_label action)) then
           [ SuspiciousAction (act_label action) (prob action) (clip_index clip) ]
         else [])
      (clip_actions actions) in
  let multi_person_static_frames :=
    len (filter (fun f => (person_count_of (objects f) >=? 3)%Z) detections) in
  let pattern3 :=
    if Qltb (float total_frames * 0.5) (float multi_person_static_frames) then
      [ GroupLoitering 0.65 multi_person_static_frames ]
    else [] in
  let suspicious_patterns := pattern1 ++ pattern2 ++ pattern3 in
  let suspicion_score := float (len suspicious_patterns) * 0.25 in
  {| sr_detected := (len suspicious_patterns >? 0)%Z;
     sr_suspicion_score := py_min 1.0 suspicion_score;
     patterns := suspicious_patterns;
     sr_assessment := _generate_suspicion_assessment suspicious_patterns |}.

(** ** The aggregate report *)

(** Entry of [crime_indicators]. *)
Record CrimeIndicator := mkIndicator {
  ind_type : string;
  ind_severity : string;
  ind_confidence : Q
}.

(** [ind.get("confidence", 0) * self.severity_weights.get(ind["type"], 0.5)]. *)
Definition weighted_confidence (ind : CrimeIndicator) : Q :=
  ind_confidence ind * weights_get severity_weights (ind_type ind) 0.5.

(** The block "Determine overall severity" of [generate_crime_report]:
    [overall_severity] as it stands after the block, from the indicator
    list. *)
Definition determine_overall_severity (crime_indicators : list CrimeIndicator) : string :=
  match crime_indicators with
  | [] => "safe"
  | ind0 :: inds =>
      let max_severity :=
        max_list (weighted_confidence ind0) (map weighted_confidence inds) in
      if Qltb 0.8 max_severity then "critical"
      else if Qltb 0.6 max_severity then "high"
      else if Qltb 0.4 max_severity then "medium"
      else "low"
  end.

(** The five texts of [_generate_recommendation], by template. *)
Inductive Recommendation :=
  | CriticalAlert
  | HighAlert
  | Caution
  | LowRisk
  | Safe.

Definition _generate_recommendation (severity : string) : Recommendation :=
  if String.eqb severity "critical" then CriticalAlert
  else if String.eqb severity "high" then HighAlert
  else if String.eqb severity "medium" then Caution
  else if String.eqb severity "low" then LowRisk
  else Safe.

Record CrimeReport := mkCrimeReport {
  overall_severity : string;
  crime_detected : bool;
  crime_indicators : list CrimeIndicator;
  weapon_threat_analysis : WeaponReport;
  violence_analysis : ViolenceReport;
  theft_analysis : TheftReport;
  suspicious_behavior_analysis : SuspicionReport;
  recommendation : Recommendation
}.

(** The indicator list, from the four analyses, in the order the source
    appends to it. *)
Definition indicators_of
    (weapon_threat : WeaponReport) (violence : ViolenceReport)
    (theft : TheftReport) (suspicious : SuspicionReport) : list CrimeIndicator :=
  (if wr_detected weapon_threat then
     [ {| ind_type := "weapon_threat";
          ind_severity := threat_level weapon_threat;
          ind_confidence := 0.9 |} ]
   else [])
  ++
  (if vr_detected violence && Qltb 0.5 (violence_score violence) then
     [ {| ind_type := "violent_assault";
          ind_severity := intensity_level violence;
          ind_confidence := violence_score violence |} ]
   else [])
  ++
  (if tr_detected theft && Qltb 0.4 (theft_probability theft) then
     [ {| ind_type := "theft_or_robbery";
          ind_severity := if Qltb 0.7 (theft_probability theft) then "high" else "medium";
          ind_confidence := theft_probability theft |} ]
   else [])
  ++
  (if sr_detected suspicious && Qltb 0.5 (sr_suspicion_score suspicious) then
     [ {| ind_type := "suspicious_activity";
          ind_severity := "medium";
          ind_confidence := sr_suspicion_score suspicious |} ]
   else []).

Definition generate_crime_report (detections : list FrameInfo) (actions : list Clip)
    : CrimeReport :=
  let weapon_threat := analyze_weapon_threat detections actions in
  let violence := analyze_violence_intensity actions detections in
  let theft := analyze_theft_patterns detections actions in
  let suspicious := analyze_suspicious_behavior detections actions in
  let crime_indicators := indicators_of weapon_threat violence theft suspicious in
  let overall_severity := determine_overall_severity crime_indicators in
  {| overall_severity := overall_severity;
     crime_detected := (len crime_indicators >? 0)%Z;
     crime_indicators := crime_indicators;
     weapon_threat_analysis := weapon_threat;
     violence_analysis := violence;
     theft_analysis := theft;
     suspicious_behavior_analysis := suspicious;
     recommendation := _generate_recommendation overall_severity |}.

End CrimePatternAnalyzer.

(* ================================================================== *)
(** * The theft probability in double precision
      ([backend/crime_analyzer.py]) *)

(** Python's [float] is the IEEE 754 binary64 format, and its [+], [*] and
    [/] round to nearest, as the operations of [PrimFloat] do.  The embedding
    above keeps every number as the rational it is written as; this module
    evaluates [_calculate_theft_probability] on the doubles those rationals
    denote, where the value is needed to the last bit. *)
Module Binary64.
Import CrimePatternAnalyzer.

(** [float(n)] for an int [n] (of absolute value below 2^63). *)
Definition of_int (n : Z) : PrimFloat.float :=
  if (n <? 0)%Z then PrimFloat.opp (PrimFloat.of_uint63 (Uint63.of_Z (- n)))
  else PrimFloat.of_uint63 (Uint63.of_Z n).

(** The double a decimal literal denotes: the double nearest to the
    rational, obtained as the correctly rounded quotient of numerator and
    denominator (both exact as doubles for the literals met here). *)
Definition of_Q (q : Q) : PrimFloat.float :=
  PrimFloat.div (of_int (Qnum q)) (of_int (Z.pos (Qden q))).

(** [sum(...)] of floats: from the int [0], adding left to right.  (From
    CPython 3.12 on [sum] also carries a compensation term; it is zero for
    a list of at most one number.) *)
Definition sum (xs : list PrimFloat.float) : PrimFloat.float :=
  fold_left PrimFloat.add xs (of_int 0).

(** [min(a, b)] on floats. *)
Definition py_min (a b : PrimFloat.float) : PrimFloat.float :=
  if PrimFloat.ltb b a then b else a.

Definition _calculate_theft_probability
    (disappearances : list Disappearance) (theft_actions : list TheftAction)
    : PrimFloat.float :=
  if negb (nonempty disappearances) && negb (nonempty theft_actions) then of_Q 0.0
  else
    let disappearance_score :=
      PrimFloat.div
        (sum (map (fun d => of_Q (suspicion_score d)) disappearances))
        (of_int (len_or_1 disappearances)) in
    let action_score :=
      PrimFloat.div
        (sum (map (fun a => of_Q (ta_confidence a)) theft_actions))
        (of_int (len_or_1 theft_actions)) in
    if nonempty disappearances && nonempty theft_actions then
      py_min (of_Q 1.0)
        (PrimFloat.mul
           (PrimFloat.div (PrimFloat.add disappearance_score action_score) (of_int 2))
           (of_Q 1.2))
    else if nonempty disappearances then PrimFloat.mul disappearance_score (of_Q 0.8)
    else PrimFloat.mul action_score (of_Q 0.7).

(** The value [analyze_theft_patterns] stores under ["theft_probability"]:
    [_calculate_theft_probability] of the two lists it collected. *)
Definition theft_probability (detections : list FrameInfo) (actions : list Clip)
    : PrimFloat.float :=
  _calculate_theft_probability
    (valuable_disappearances (analyze_theft_patterns detections actions))
    (theft_actions (analyze_theft_patterns detections actions)).

End Binary64.

(* ================================================================== *)
(** * [MotionAnalyzer] *)

Module MotionAnalyzer.

(** A decoded grayscale frame after [cv2.resize(_, (320, 240))]: rows of
    pixel intensities (0..255). *)
Definition Image := list (list Z).

(** The input of [analyze_motion_patterns] is a list of paths; a path is
    represented by what reading it yields inside the loop's [try]: [Some] of
    the resized grayscale frame, or [None] when [cv2.imread] returns [None]
    or processing the frame raises (both make the loop [continue]). *)
Definition FrameFile := option Image.

Definition motion_threshold : Q := 30.0.
Definition sudden_movement_threshold : Q := 50.0.

(** [cv2.absdiff]. *)
Definition absdiff (a b : Image) : Image :=
  map (fun rows : list Z * list Z =>
         map (fun px : Z * Z => Z.abs (fst px - snd px)) (combine (fst rows) (snd rows)))
      (combine a b).

(** [cv2.threshold(img, t, maxval, cv2.THRESH_BINARY)]. *)
Definition threshold_binary (img : Image) (t maxval : Z) : Image :=
  map (map (fun v => if (v >? t)%Z then maxval else 0%Z)) img.

Definition _calculate_motion_score (prev_frame current_frame : Image) : Q :=
  let diff := absdiff prev_frame current_frame in
  let thresh := threshold_binary diff 25 255 in
  let motion_pixels :=
    fold_left Z.add (map (fun row => len (filter (fun v => (v >? 0)%Z) row)) thresh) 0%Z in
  let total_pixels := (len thresh * len (hd [] thresh))%Z in
  let motion_percentage := (float motion_pixels / float total_pixels) * 100 in
  motion_percentage.

(** Entry of [sudden_movements]; the ["timestamp"] text renders
    [frame_index]. *)
Record SuddenMovement := mkSuddenMovement {
  sm_frame_index : nat;
  motion_intensity : Q
}.

Record MotionPattern := mkMotionPattern {
  category : string;
  description : string;
  crime_relevance : string;
  mp_confidence : Q
}.

Definition _classify_motion_pattern
    (avg_motion variance : Q) (sudden_movements : list SuddenMovement) : MotionPattern :=
  if (len sudden_movements >? 3)%Z then
    if Qltb 25 avg_motion then
      {| category := "chaotic_high_motion";
         description := "High chaotic motion with multiple sudden movements (possible chase, fight, panic)";
         crime_relevance := "high";
         mp_confidence := 0.85 |}
    else
      {| category := "erratic_movement";
         description := "Erratic motion patterns (possible suspicious behavior)";
         crime_relevance := "medium";
         mp_confidence := 0.70 |}
  else if Qltb 30 avg_motion then
    {| category := "high_activity";
       description := "High overall motion (possible running, chase, or violent activity)";
       crime_relevance := "medium";
       mp_confidence := 0.75 |}
  else if Qltb 15 avg_motion then
    {| category := "moderate_activity";
       description := "Moderate motion (normal activity or walking)";
       crime_relevance := "low";
       mp_confidence := 0.50 |}
  else if Qltb 50 variance then
    {| category := "intermittent_activity";
       description := "Sporadic bursts of activity (possible lurking or waiting behavior)";
       crime_relevance := "medium";
       mp_confidence := 0.65 |}
  else
    {| category := "low_activity";
       description := "Low motion (static scene or loitering)";
       crime_relevance := "low";
       mp_confidence := 0.40 |}.

(** ** Chase sequences *)

(** [xs[a:b]] for [0 <= a <= b]. *)
Definition slice {A} (xs : list A) (a b : nat) : list A := firstn (b - a) (skipn a xs).

(** Entry of [chase_sequences]; its ["description"] is one fixed text.
    List positions (the [idx] of [enumerate]) are natural numbers. *)
Record ChaseSequence := mkChase {
  start_frame : nat;
  duration_frames : nat;
  avg_intensity : Q
}.

(** The dictionary both [append]s of [_detect_chase_sequences] build. *)
Definition chase_entry (motion_scores : list Q) (chase_start chase_duration : nat)
    : ChaseSequence :=
  {| start_frame := chase_start;
     duration_frames := chase_duration;
     avg_intensity := mean (slice motion_scores chase_start (chase_start + chase_duration)) |}.

(** The local variables of [_detect_chase_sequences]. *)
Record ChaseState := mkChaseState {
  chase_sequences : list ChaseSequence;
  in_chase : bool;
  chase_start : nat;
  chase_duration : nat
}.

(** One iteration of [for idx, score in enumerate(motion_scores)]. *)
Definition chase_step (motion_scores : list Q) (st : ChaseState) (idx : nat) (score : Q)
    : ChaseState :=
  if Qltb 35 score then
    if negb (in_chase st) then
      {| chase_sequences := chase_sequences st;
         in_chase := true; chase_start := idx; chase_duration := 1 |}
    else
      {| chase_sequences := chase_sequences st;
         in_chase := true; chase_start := chase_start st;
         chase_duration := chase_duration st + 1 |}
  else
    {| chase_sequences :=
         if in_chase st && (3 <=? chase_duration st)%nat then
           chase_sequences st
             ++ [chase_entry motion_scores (chase_start st) (chase_duration st)]
         else chase_sequences st;
       in_chase := false; chase_start := chase_start st; chase_duration := 0 |}.

(** The loop over the scores from position [idx] on. *)
Fixpoint chase_loop (motion_scores : list Q) (rest : list Q) (idx : nat) (st : ChaseState)
    : ChaseState :=
  match rest with
  | [] => st
  | score :: rest' =>
      chase_loop motion_scores rest' (S idx) (chase_step motion_scores st idx score)
  end.

Definition _detect_chase_sequences (motion_scores : list Q) : list ChaseSequence :=
  let st :=
    chase_loop motion_scores motion_scores 0
      {| chase_sequences := []; in_chase := false; chase_start := 0; chase_duration := 0 |} in
  if in_chase st && (3 <=? chase_duration st)%nat then
    chase_sequences st ++ [chase_entry motion_scores (chase_start st) (chase_duration st)]
  else chase_sequences st.

(** ** [analyze_motion_patterns] *)

(** [np.var]: the mean squared deviation from the mean. *)
Definition variance (xs : list Q) : Q :=
  let m := mean xs in mean (map (fun x => (x - m) * (x - m)) xs).

(** The local variables of the frame loop. *)
Record ScanState := mkScanState {
  motion_scores : list Q;
  sudden_movements : list SuddenMovement;
  prev_frame : option Image
}.

(** One iteration of [for idx, frame_path in enumerate(frames[:50])]. *)
Definition scan_step (st : ScanState) (idx : nat) (file : FrameFile) : ScanState :=
  match file with
  | None => st
  | Some current_frame =>
      match prev_frame st with
      | Some prev =>
          let motion_score := _calculate_motion_score prev current_frame in
          {| motion_scores := motion_scores st ++ [motion_score];
             sudden_movements :=
               if Qltb sudden_movement_threshold motion_score then
                 sudden_movements st
                   ++ [ {| sm_frame_index := idx; motion_intensity := motion_score |} ]
               else sudden_movements st;
             prev_frame := Some current_frame |}
      | None =>
          {| motion_scores := motion_scores st;
             sudden_movements := sudden_movements st;
             prev_frame := Some current_frame |}
      end
  end.

Fixpoint scan_loop (files : list FrameFile) (idx : nat) (st : ScanState) : ScanState :=
  match files with
  | [] => st
  | file :: files' => scan_loop files' (S idx) (scan_step st idx file)
  end.

(** The dictionary returned when the analysis ran. *)
Record MotionStats := mkMotionStats {
  average_motion : Q;
  max_motion : Q;
  motion_variance : Q;
  motion_pattern : MotionPattern;
  ms_sudden_movements : list SuddenMovement;
  ms_chase_sequences : list ChaseSequence;
  frames_analyzed : Z
}.

(** The result: [{"analyzed": False, "reason": r}] or
    [{"analyzed": True, ...}]. *)
Inductive MotionReport :=
  | NotAnalyzed (reason : string)
  | Analyzed (stats : MotionStats).

(** The ["analyzed"] key. *)
Definition analyzed (r : MotionReport) : bool :=
  match r with NotAnalyzed _ => false | Analyzed _ => true end.

Definition analyze_motion_patterns (frames : list FrameFile) : MotionReport :=
  if (len frames <? 2)%Z then NotAnalyzed "Insufficient frames"
  else
    let st :=
      scan_loop (firstn 50 frames) 0
        {| motion_scores := []; sudden_movements := []; prev_frame := None |} in
    match motion_scores st with
    | [] => NotAnalyzed "No motion data"
    | s0 :: ss =>
        let avg_motion := mean (motion_scores st) in
        let max_motion := max_list s0 ss in
        let motion_variance := variance (motion_scores st) in
        Analyzed
          {| average_motion := avg_motion;
             max_motion := max_motion;
             motion_variance := motion_variance;
             motion_pattern :=
               _classify_motion_pattern avg_motion motion_variance (sudden_movements st);
             ms_sudden_movements := sudden_movements st;
             ms_chase_sequences := _detect_chase_sequences (motion_scores st);
             frames_analyzed := len (motion_scores st) |}
    end.

(** [integrate_motion_analysis]. *)
Definition integrate_motion_analysis (frames : list FrameFile) : MotionReport :=
  analyze_motion_patterns frames.

End MotionAnalyzer.

(* ================================================================== *)
(** * Detection post-processing and the action-recognition guard
      ([backend/models.py]) *)

Module Models.

(** ** [_filter_detections_by_confidence] *)

Definition critical_labels : list string :=
  [ "person"; "knife"; "gun"; "pistol"; "rifle"; "weapon";
    "baseball bat"; "scissors"; "hammer"; "axe"; "sword";
    "machete"; "crowbar"; "bat"; "stick"; "club";
    "bottle"; "glass bottle"; "beer bottle" ].

Definition valuable_items : list string :=
  [ "handbag"; "backpack"; "suitcase"; "cell phone"; "laptop";
    "wallet"; "purse"; "briefcase"; "luggage"; "bag";
    "watch"; "clock"; "bottle"; "cup"; "wine glass";
    "remote"; "book"; "tie"; "umbrella"; "sports ball";
    "keyboard"; "mouse"; "tv"; "monitor"; "camera";
    "vase"; "potted plant"; "teddy bear" ].

Definition vehicle_items : list string :=
  [ "car"; "truck"; "motorcycle"; "bicycle"; "bus"; "train";
    "skateboard"; "scooter" ].

Definition damage_related : list string :=
  [ "bottle"; "baseball bat"; "sports ball"; "frisbee";
    "skateboard"; "scissors"; "fork"; "spoon"; "bowl" ].

(** The [threshold] the loop body assigns for a lower-cased label. *)
Definition category_threshold (l : string) (min_confidence : Q) : Q :=
  if mem l critical_labels then 0.10
  else if mem l valuable_items then 0.15
  else if mem l vehicle_items then 0.20
  else if mem l damage_related then 0.20
  else py_min 0.30 min_confidence.

(** [conf >= threshold] for one object. *)
Definition passes_threshold (min_confidence : Q) (obj : Detection) : bool :=
  Qleb (category_threshold (lower (label obj)) min_confidence) (conf obj).

Definition _filter_detections_by_confidence
    (frame_objects : list Detection) (min_confidence : Q) : list Detection :=
  filter (passes_threshold min_confidence) frame_objects.

(** ** [_apply_nms] *)

(** [areas[i]]: [(x2 - x1) * (y2 - y1)]. *)
Definition area (b : BBox) : Q := (bx2 b - bx1 b) * (by2 b - by1 b).

(** [np.maximum] and [np.minimum] on one pair of numbers. *)
Definition np_maximum (a b : Q) : Q := if Qltb a b then b else a.
Definition np_minimum (a b : Q) : Q := if Qltb b a then b else a.

(** [inter] of box [i] with one of the remaining boxes. *)
Definition intersection (bi bj : BBox) : Q :=
  let xx1 := np_maximum (bx1 bi) (bx1 bj) in
  let yy1 := np_maximum (by1 bi) (by1 bj) in
  let xx2 := np_minimum (bx2 bi) (bx2 bj) in
  let yy2 := np_minimum (by2 bi) (by2 bj) in
  let w := np_maximum 0.0 (xx2 - xx1) in
  let h := np_maximum 0.0 (yy2 - yy1) in
  w * h.

(** [iou = inter / (areas[i] + areas[j] - inter)].  When the divisor is zero
    numpy yields [nan] or [+inf] ([inter] is never negative); that outcome
    is [None]. *)
Definition iou (bi bj : BBox) : option Q :=
  let inter := intersection bi bj in
  let divisor := area bi + area bj - inter in
  if Qeq_bool divisor 0 then None else Some (inter / divisor).

(** [iou <= iou_threshold], which [nan] and [+inf] fail. *)
Definition iou_within (iou_threshold : Q) (bi bj : BBox) : bool :=
  match iou bi bj with
  | Some v => Qleb v iou_threshold
  | None => false
  end.

(** [confidences.argsort()[::-1]].  A position of [frame_objects] is
    represented by the object stored there, which is all the loop reads
    through it.  The ascending sort is taken stable; numpy leaves the order
    among equal confidences to its sorting routine. *)
Fixpoint insert_by_conf (x : Detection) (l : list Detection) : list Detection :=
  match l with
  | [] => [x]
  | y :: l' =>
      if Qltb (conf y) (conf x) then y :: insert_by_conf x l' else x :: y :: l'
  end.

Definition argsort_descending (frame_objects : list Detection) : list Detection :=
  rev (fold_right insert_by_conf [] frame_objects).

(** The [while len(order) > 0] loop: the result is [keep]. *)
Equations? nms_loop (iou_threshold : Q) (order : list Detection) : list Detection
    by wf (List.length order) lt :=
  nms_loop iou_threshold [] := [];
  nms_loop iou_threshold (i :: rest) :=
    i :: nms_loop iou_threshold
           (filter (fun j => iou_within iou_threshold (bbox i) (bbox j)) rest).
Proof.
  simpl. apply Nat.lt_succ_r. apply filter_length_le.
Qed.

Definition _apply_nms (frame_objects : list Detection) (iou_threshold : Q)
    : list Detection :=
  if negb (nonempty frame_objects) then []
  else nms_loop iou_threshold (argsort_descending frame_objects).

(** ** The per-frame path of [run_detection_model] *)

(** The two post-processing calls applied to the detector's boxes of one
    frame. *)
Definition postprocess_frame (frame_objects : list Detection) : list Detection :=
  let frame_objects := _filter_detections_by_confidence frame_objects 0.45 in
  let frame_objects := _apply_nms frame_objects 0.45 in
  frame_objects.

(** The detector's answer for one frame: its name, and the boxes it found,
    or [None] when processing the frame raises. *)
Definition Prediction := (string * option (list Detection))%type.

Fixpoint detection_loop (preds : list Prediction) (frame_idx : Z) : list FrameInfo :=
  match preds with
  | [] => []
  | (name, boxes) :: preds' =>
      {| frame := Some name;
         frame_index := Some frame_idx;
         objects := match boxes with
                    | Some frame_objects => postprocess_frame frame_objects
                    | None => []
                    end |}
      :: detection_loop preds' (frame_idx + 1)
  end.

(** [run_detection_model], from the detector's answers.  The keys
    ["unique_labels"] and ["object_persistence"] it also writes are not read
    by the analysis and are left out. *)
Definition run_detection_model (preds : list Prediction) : list FrameInfo :=
  detection_loop preds 0.

(** ** [run_action_recognition] *)

Section ActionRecognition.

(** Frame paths, and the clip loop that follows the two guards: it cuts
    the sorted frames into clips and runs the action model on each.  An
    exception inside it makes the function return [[]] through the
    enclosing [try]; that is part of what [clip_loop] returns. *)
Variable Path : Type.
Variable clip_loop : list Path -> list Clip.

Definition run_action_recognition (frames : list Path) : list Clip :=
  if negb (nonempty frames) then []
  else
    let num_total_frames := len frames in
    if (num_total_frames <? 8)%Z then []
    else clip_loop frames.

End ActionRecognition.

End Models.

(* ================================================================== *)
(** * The clip schedule of [run_action_recognition] ([backend/models.py]) *)

Module ClipSchedule.

(** The default arguments of [run_action_recognition]. *)
Definition max_frames : Z := 50.
Definition num_clips : Z := 5.

(** [clip_length = min(max_frames, num_total_frames)]. *)
Definition clip_length (num_total_frames : Z) : Z := Z.min max_frames num_total_frames.

(** [stride = max(1, clip_length // 2)]. *)
Definition stride (num_total_frames : Z) : Z :=
  Z.max 1 (clip_length num_total_frames / 2).

(** [actual_clips = min(num_clips, max(1, (n - clip_length) // stride + 1))]. *)
Definition actual_clips (num_total_frames : Z) : Z :=
  Z.min num_clips
    (Z.max 1 ((num_total_frames - clip_length num_total_frames)
                / stride num_total_frames + 1)).

(** The head of one iteration of [for clip_idx in range(actual_clips)]:
    [Some (start_idx, end_idx)] of the slice taken from the sorted frames,
    or [None] when the iteration hits [break]. *)
Definition clip_bounds (num_total_frames clip_idx : Z) : option (Z * Z) :=
  let start_idx := (clip_idx * stride num_total_frames)%Z in
  let end_idx := Z.min (start_idx + clip_length num_total_frames) num_total_frames in
  let start_idx :=
    if (end_idx =? num_total_frames)%Z
       && (end_idx - start_idx <? clip_length num_total_frames)%Z
    then Z.max 0 (num_total_frames - clip_length num_total_frames)
    else start_idx in
  if (start_idx >=? num_total_frames)%Z then None else Some (start_idx, end_idx).

(** The slices of the iterations [clip_idx, clip_idx + 1, ...], [count] of
    them at most, up to the first [break]. *)
Fixpoint schedule_from (num_total_frames clip_idx : Z) (count : nat) : list (Z * Z) :=
  match count with
  | O => []
  | S count' =>
      match clip_bounds num_total_frames clip_idx with
      | None => []
      | Some b => b :: schedule_from num_total_frames (clip_idx + 1) count'
      end
  end.

(** The slices the loop takes, in order. *)
Definition clip_schedule (num_total_frames : Z) : list (Z * Z) :=
  schedule_from num_total_frames 0 (Z.to_nat (actual_clips num_total_frames)).

(** [clip_position] of the clip [clip_idx] among [actual_clips] clips (the
    value before it is rounded for the report). *)
Definition clip_position (clip_idx actual_clips : Z) : Q :=
  if (actual_clips >? 1)%Z then float clip_idx / float (Z.max 1 (actual_clips - 1))
  else 0.5.

(** The [clip_type] chosen from [clip_position]. *)
Definition clip_type_of (clip_idx actual_clips : Z) : string :=
  let clip_position := clip_position clip_idx actual_clips in
  if Qltb clip_position 0.25 then "beginning"
  else if Qltb 0.75 clip_position then "end"
  else "middle".

End ClipSchedule.

(* ================================================================== *)
(** * The event evaluator and the fallback answer ([backend/utils.py]) *)

Module Utils.
Import CrimePatternAnalyzer.

Definition WEAPON_LABELS : list string :=
  [ "knife"; "gun"; "pistol"; "rifle"; "weapon";
    "baseball bat"; "bat"; "scissors"; "hammer"; "axe";
    "sword"; "machete"; "crowbar" ].

Definition VALUABLE_LABELS : list string :=
  [ "handbag"; "backpack"; "suitcase"; "cell phone"; "laptop";
    "wallet"; "purse"; "briefcase"; "luggage"; "bag";
    "watch"; "jewelry"; "tablet"; "camera" ].

Definition VEHICLE_LABELS : list string :=
  [ "car"; "truck"; "motorcycle"; "bicycle"; "bus"; "van"; "suv" ].

Definition PERSON_LABEL : string := "person".

(** The dictionary [ACTION_KEYWORDS], in its insertion order. *)
Definition ACTION_KEYWORDS : list (string * list string) :=
  [ ("possible_property_damage",
       [ "tagging graffiti"; "spray painting"; "vandalizing"; "smashing";
         "breaking"; "destroying"; "damaging"; "scratching" ]);
    ("possible_robbery_or_snatching",
       [ "stealing"; "shoplifting"; "pick pocketing"; "mugging";
         "robbery"; "snatching"; "grabbing"; "taking"; "theft" ]);
    ("possible_assault_or_fight",
       [ "fighting"; "punching"; "kicking"; "wrestling"; "slapping";
         "strangling"; "beating"; "hitting"; "attacking"; "struggling";
         "brawling"; "combat" ]);
    ("possible_weapon_incident",
       [ "shooting"; "firing gun"; "aiming gun"; "stabbing";
         "knife fighting"; "wielding"; "threatening"; "pointing" ]);
    ("possible_chase_or_escape",
       [ "running"; "chasing"; "escaping"; "fleeing"; "pursuing";
         "sprinting"; "racing" ]);
    ("possible_break_in",
       [ "breaking and entering"; "climbing"; "opening"; "forcing";
         "prying"; "jimmying" ]);
    ("suspicious_behavior",
       [ "lurking"; "sneaking"; "hiding"; "creeping"; "stalking";
         "loitering"; "prowling" ]) ].

(** ** [_count_objects_by_label] *)

(** The dictionary [counts], from label to number of objects, in insertion
    order. *)
Definition Counts := list (string * Z).

(** [counts.get(l, default)]. *)
Fixpoint counts_get (counts : Counts) (l : string) (default : Z) : Z :=
  match counts with
  | [] => default
  | (k, n) :: rest => if String.eqb k l then n else counts_get rest l default
  end.

(** [counts[l] = counts.get(l, 0) + 1]. *)
Fixpoint counts_incr (counts : Counts) (l : string) : Counts :=
  match counts with
  | [] => [(l, 1%Z)]
  | (k, n) :: rest =>
      if String.eqb k l then (k, (n + 1)%Z) :: rest else (k, n) :: counts_incr rest l
  end.

Definition _count_objects_by_label (objects : list Detection) : Counts :=
  fold_left (fun counts obj => counts_incr counts (lower (label obj))) objects [].

(** ** Events *)

(** The ["details"] of an event, by the shape the source builds. *)
Inductive Details :=
  | WeaponObjects (weapon_labels : list string) (counts : Counts) (persons_present : Z)
  | ValuablesWithPersons (valuable_labels : list string) (persons_count items_count : Z)
  | Crowd (persons_visible : Z)
  | WeaponFrames (frames_with_weapon total_frames : Z) (persistence_ratio : Q)
  | ValuableChange (first_appearance last_appearance : Z) (duration_ratio : Q)
  | ActionMatch (label : string) (prob : Q) (clip_index : Z) (clip_type : string)
      (is_crime_relevant : bool)
  | Correlation (weapon_detections fight_actions : Z).

(** One event.  Only the events of a single frame carry the keys ["frame"]
    and ["frame_index"]; [ev_frame_index] is [None] for the others. *)
Record Event := mkEvent {
  ev_type : string;
  ev_frame : option string;
  ev_frame_index : option Z;
  ev_confidence : Q;
  ev_severity : string;
  ev_source : string;
  ev_details : Details
}.

(** An action prediction as the evaluator reads it: the keys ["label"],
    ["prob"] and ["is_crime_relevant"]. *)
Record ActionEntry := mkActionEntry {
  ae_label : string;
  ae_prob : Q;
  ae_is_crime_relevant : bool
}.

(** A clip whose predictions carry ["is_crime_relevant"]. *)
Record ClipEntry := mkClipEntry {
  ce_clip_index : option Z;
  ce_clip_type : option string;
  ce_top_actions : list ActionEntry
}.

(** [[lbl for lbl in counts if lbl in labels]]. *)
Definition labels_in (counts : Counts) (labels : list string) : list string :=
  filter (fun lbl => mem lbl labels) (map fst counts).

(** What the body of [for frame_info in detections] appends to [events]. *)
Definition frame_events (frame_info : FrameInfo) : list Event :=
  let frame_name := frame frame_info in
  let frame_idx := frame_idx_of frame_info in
  let counts := _count_objects_by_label (objects frame_info) in
  let weapon_labels_in_frame := labels_in counts WEAPON_LABELS in
  let valuable_labels_in_frame := labels_in counts VALUABLE_LABELS in
  let person_count := counts_get counts PERSON_LABEL 0 in
  (if nonempty weapon_labels_in_frame then
     let has_persons := (counts_get counts PERSON_LABEL 0 >? 0)%Z in
     let severity := if has_persons then 0.9 else 0.7 in
     [ {| ev_type := "weapon_like_object_detected";
          ev_frame := frame_name;
          ev_frame_index := Some frame_idx;
          ev_confidence := severity;
          ev_severity := if has_persons then "critical" else "high";
          ev_source := "object_detection";
          ev_details :=
            WeaponObjects weapon_labels_in_frame
              (map (fun lbl => (lbl, counts_get counts lbl 0)) weapon_labels_in_frame)
              (counts_get counts PERSON_LABEL 0) |} ]
   else [])
  ++
  (if nonempty valuable_labels_in_frame && (person_count >=? 2)%Z then
     [ {| ev_type := "valuable_items_with_multiple_persons";
          ev_frame := frame_name;
          ev_frame_index := Some frame_idx;
          ev_confidence := 0.6;
          ev_severity := "medium";
          ev_source := "object_detection";
          ev_details :=
            ValuablesWithPersons valuable_labels_in_frame person_count
              (fold_left Z.add
                 (map (fun lbl => counts_get counts lbl 0) valuable_labels_in_frame) 0%Z) |} ]
   else [])
  ++
  (if (person_count >=? 3)%Z then
     [ {| ev_type := "crowd_activity";
          ev_frame := frame_name;
          ev_frame_index := Some frame_idx;
          ev_confidence := py_min 0.8 (0.4 + float person_count * 0.05);
          ev_severity := if (person_count <? 7)%Z then "low" else "medium";
          ev_source := "object_detection";
          ev_details := Crowd person_count |} ]
   else []).

(** What the frame loop appends to [weapon_frames] and to
    [valuable_frames].  ([person_frames] and [vehicle_frames] are filled too
    but never read.) *)
Definition weapon_frame_of (frame_info : FrameInfo) : list Z :=
  if nonempty (labels_in (_count_objects_by_label (objects frame_info)) WEAPON_LABELS)
  then [frame_idx_of frame_info] else [].

Definition valuable_frame_of (frame_info : FrameInfo) : list Z :=
  if nonempty (labels_in (_count_objects_by_label (objects frame_info)) VALUABLE_LABELS)
  then [frame_idx_of frame_info] else [].

(** The block "Temporal Pattern Analysis". *)
Definition temporal_events (total_frames : Z) (weapon_frames valuable_frames : list Z)
    : list Event :=
  (if (len weapon_frames >=? 1)%Z then
     [ {| ev_type := if (len weapon_frames >=? 2)%Z then "weapon_persistent_presence"
                     else "weapon_detected";
          ev_frame := None;
          ev_frame_index := None;
          ev_confidence := if (len weapon_frames >=? 2)%Z then 0.90 else 0.75;
          ev_severity := "critical";
          ev_source := "temporal_analysis";
          ev_details :=
            WeaponFrames (len weapon_frames) total_frames
              (float (len weapon_frames) / float (Z.max 1 total_frames)) |} ]
   else [])
  ++
  match valuable_frames with
  | [] => []
  | v0 :: vs =>
      let first_valuable := Zmin_list v0 vs in
      let last_valuable := Zmax_list v0 vs in
      if Qltb (float (last_valuable - first_valuable)) (float total_frames * 0.3) then
        [ {| ev_type := "valuable_items_sudden_change";
             ev_frame := None;
             ev_frame_index := None;
             ev_confidence := 0.65;
             ev_severity := "medium";
             ev_source := "temporal_analysis";
             ev_details :=
               ValuableChange first_valuable last_valuable
                 (float (last_valuable - first_valuable) / float (Z.max 1 total_frames)) |} ]
      else []
  end.

(** The severity an action event of type [event_type] gets at probability
    [prob]. *)
Definition action_severity (event_type : string) (prob : Q) : string :=
  if contains "weapon" event_type || contains "assault" event_type then
    if Qltb 0.1 prob then "critical" else "high"
  else if contains "robbery" event_type || contains "break_in" event_type then
    if Qltb 0.05 prob then "high" else "medium"
  else if contains "chase" event_type || contains "fight" event_type then
    if Qltb 0.05 prob then "high" else "medium"
  else
    if Qltb 0.05 prob then "medium" else "low".

(** What the body of [for act in top_actions] appends to [events]. *)
Definition action_events (clip : ClipEntry) (act : ActionEntry) : list Event :=
  let clip_index := match ce_clip_index clip with Some i => i | None => 0%Z end in
  let clip_type := match ce_clip_type clip with Some t => t | None => "unknown" end in
  let label := lower (ae_label act) in
  let prob := ae_prob act in
  let is_crime_relevant := ae_is_crime_relevant act in
  let min_prob := if is_crime_relevant then 0.001 else 0.08 in
  if Qltb prob min_prob then []
  else
    flat_map
      (fun entry : string * list string =>
         let (event_type, keywords) := entry in
         if any_in keywords label then
           [ {| ev_type := event_type;
                ev_frame := None;
                ev_frame_index := None;
                ev_confidence := prob;
                ev_severity := action_severity event_type prob;
                ev_source := "action_recognition";
                ev_details :=
                  ActionMatch (ae_label act) prob clip_index clip_type is_crime_relevant |} ]
         else [])
      ACTION_KEYWORDS.

(** [events] as it stands before the cross-modal correlation. *)
Definition events_before_correlation
    (detections : list FrameInfo) (actions : list ClipEntry) : list Event :=
  flat_map frame_events detections
  ++ temporal_events (len detections)
       (flat_map weapon_frame_of detections) (flat_map valuable_frame_of detections)
  ++ flat_map (fun clip => flat_map (action_events clip) (ce_top_actions clip)) actions.

Definition is_weapon_event (e : Event) : bool := contains "weapon" (ev_type e).

Definition is_fight_event (e : Event) : bool :=
  contains "assault" (ev_type e) || contains "fight" (ev_type e).

Definition evaluate_unlawful_events
    (detections : list FrameInfo) (actions : list ClipEntry) : list Event :=
  let events := events_before_correlation detections actions in
  let weapon_events := filter is_weapon_event events in
  let fight_events := filter is_fight_event events in
  if nonempty weapon_events && nonempty fight_events then
    events
    ++ [ {| ev_type := "armed_conflict_detected";
            ev_frame := None;
            ev_frame_index := None;
            ev_confidence := 0.9;
            ev_severity := "critical";
            ev_source := "cross_modal_correlation";
            ev_details := Correlation (len weapon_events) (len fight_events) |} ]
  else events.

(** ** [_get_ipc_suggestions] *)

(** A suggestion: its ["section"] and its ["reason"]. *)
Definition Suggestion := (string * string)%type.

(** What one indicator of type [crime_type] appends to [ipc_suggestions]. *)
Definition ipc_for (crime_type : string) : list Suggestion :=
  (if contains "weapon" crime_type then
     [ ("IPC 307", "Attempt to murder (if weapon used against person)");
       ("IPC 506", "Criminal intimidation with weapon") ]
   else [])
  ++
  (if contains "assault" crime_type || contains "violent" crime_type then
     [ ("IPC 323", "Voluntarily causing hurt");
       ("IPC 325", "Voluntarily causing grievous hurt") ]
   else [])
  ++
  (if contains "robbery" crime_type || contains "theft" crime_type then
     [ ("IPC 379", "Theft"); ("IPC 392", "Robbery") ]
   else [])
  ++
  (if contains "vandal" crime_type || contains "damage" crime_type then
     [ ("IPC 427", "Mischief causing damage") ]
   else []).

(** The loop "Remove duplicates": [seen] is the set of sections met so
    far. *)
Fixpoint unique_from (seen : list string) (suggestions : list Suggestion)
    : list Suggestion :=
  match suggestions with
  | [] => []
  | suggestion :: rest =>
      let key := fst suggestion in
      if mem key seen then unique_from seen rest
      else suggestion :: unique_from (key :: seen) rest
  end.

Definition _get_ipc_suggestions (indicators : list CrimeIndicator) : list Suggestion :=
  unique_from [] (flat_map (fun indicator => ipc_for (ind_type indicator)) indicators).

End Utils.

(* ================================================================== *)
(** * Vocabulary of the properties *)

Module Spec.
Import CrimePatternAnalyzer MotionAnalyzer Models.

(** ** Violence tiers *)

(** The keyword tier the if-chain of [_calculate_violence_intensity] puts a
    label in: the first list that has a keyword occurring in the lower-cased
    label. *)
Definition in_extreme_tier (l : string) : Prop :=
  any_in extreme_violence (lower l) = true.

Definition in_high_tier (l : string) : Prop :=
  any_in extreme_violence (lower l) = false /\
  any_in high_violence (lower l) = true.

Definition in_medium_tier (l : string) : Prop :=
  any_in extreme_violence (lower l) = false /\
  any_in high_violence (lower l) = false /\
  any_in medium_violence (lower l) = true.

Definition in_no_tier (l : string) : Prop :=
  any_in extreme_violence (lower l) = false /\
  any_in high_violence (lower l) = false /\
  any_in medium_violence (lower l) = false.

(** ** Aggregate severity *)

(** [m] is the maximum over the indicators of confidence times severity
    weight. *)
Definition is_max_weighted (inds : list CrimeIndicator) (m : Q) : Prop :=
  In m (map weighted_confidence inds) /\
  forall x, In x (map weighted_confidence inds) -> x <= m.

(** The per-type weights the table gives, and the default for any other
    type. *)
Definition weight_of (t : string) : Q := weights_get severity_weights t 0.5.

(** ** Action probabilities *)

(** Every action prediction has a probability in [0,1] (the data model). *)
Definition probs_in_unit (actions : list Clip) : Prop :=
  forall c a, In c actions -> In a (top_actions c) -> 0 <= prob a <= 1.

(** Every action prediction has a probability in (0,1]. *)
Definition probs_positive (actions : list Clip) : Prop :=
  forall c a, In c actions -> In a (top_actions c) -> 0 < prob a <= 1.

(** No prediction of [actions] has a theft keyword in its label. *)
Definition no_theft_action (actions : list Clip) : Prop :=
  forall c a, In c actions -> In a (top_actions c) ->
    any_in theft_keywords (lower (act_label a)) = false.

(** ** The backpack scene *)

(** The object's label is not one of the tracked valuables. *)
Definition non_valuable (o : Detection) : Prop :=
  mem (lower (label o)) valuable_labels = false.

(** Exactly one of the objects is a backpack, and none is another
    valuable. *)
Definition one_backpack (objs : list Detection) : Prop :=
  exists pre bp post,
    objs = pre ++ bp :: post /\ lower (label bp) = "backpack" /\
    Forall non_valuable pre /\ Forall non_valuable post.

(** Ten detection frames, numbered 0 to 9 in order; frames 0 and 1 each
    show one backpack, and no frame shows any other valuable. *)
Definition backpack_scene (detections : list FrameInfo) : Prop :=
  List.length detections = 10%nat /\
  forall i f,
    nth_error detections i = Some f ->
    frame_index f = Some (Z.of_nat i) /\
    if (i <? 2)%nat then one_backpack (objects f)
    else Forall non_valuable (objects f).

(** ** Weapons *)

(** Frame [f] holds a weapon object. *)
Definition has_weapon (f : FrameInfo) : Prop :=
  exists o, In o (objects f) /\ _is_weapon (label o) = true.

(** Some frame holds a weapon object. *)
Definition weapon_seen (detections : list FrameInfo) : Prop :=
  exists f, In f detections /\ has_weapon f.

(** Some frame holds a weapon and a person whose box centres are less than
    [t] apart (on squares: the squared distance is below [t * t]). *)
Definition weapon_within (detections : list FrameInfo) (t : Q) : Prop :=
  exists f w p,
    In f detections /\ In w (objects f) /\ In p (objects f) /\
    _is_weapon (label w) = true /\ is_person p = true /\
    _calculate_bbox_distance_sq (bbox w) (bbox p) < t * t.

(** Some action prediction has a weapon keyword in its label. *)
Definition weapon_action_seen (actions : list Clip) : Prop :=
  exists c a,
    In c actions /\ In a (top_actions c) /\
    any_in weapon_keywords (lower (act_label a)) = true.

(** The number of frames holding a weapon object. *)
Definition weapon_frame_count (detections : list FrameInfo) : Z :=
  len (filter (fun f => existsb (fun o => _is_weapon (label o)) (objects f)) detections).

(** ** Motion analysis *)

(** The number of frames of [files] that decode. *)
Definition decodable (files : list FrameFile) : nat :=
  List.length (filter (fun file => match file with Some _ => true | None => false end) files).

(** ** Chase sequences *)

(** The scores within the run that starts at position [s] and lasts [d]
    scores: those at positions [s], [s + 1], ..., [s + d - 1], read one by
    one. *)
Definition run_scores (scores : list Q) (s d : nat) : list Q :=
  map (fun i => nth i scores 0) (seq s d).

Section ChaseSpec.

Variable scores : list Q.

(** The score at position [i] is above, respectively not above, 35. *)
Definition above (i : nat) : Prop :=
  exists v, nth_error scores i = Some v /\ 35 < v.

Definition not_above (i : nat) : Prop :=
  exists v, nth_error scores i = Some v /\ v <= 35.

(** No score above 35 just before position [s]; none at position [e]. *)
Definition starts_run (s : nat) : Prop := s = 0%nat \/ not_above (s - 1).

Definition ends_run (e : nat) : Prop := e = List.length scores \/ not_above e.

(** Positions [s .. s + d - 1] are a maximal run of scores above 35. *)
Definition is_maximal_run (s d : nat) : Prop :=
  (1 <= d)%nat /\
  (forall i, (s <= i < s + d)%nat -> above i) /\
  starts_run s /\
  ends_run (s + d).

(** [c] records a maximal run of at least 3 scores: its start, its length,
    and the mean of its scores. *)
Definition records (c : ChaseSequence) : Prop :=
  is_maximal_run (start_frame c) (duration_frames c) /\
  (3 <= duration_frames c)%nat /\
  avg_intensity c
    = mean (slice scores (start_frame c) (start_frame c + duration_frames c)).

(** The loop invariant before position [n] is read. *)
Record chase_inv (n : nat) (st : ChaseState) : Prop := {
  inv_bound : (n <= List.length scores)%nat;
  inv_seqs : forall c,
    In c (chase_sequences st) <->
    records c /\ (start_frame c + duration_frames c < n)%nat;
  inv_nodup : NoDup (map start_frame (chase_sequences st));
  inv_in : in_chase st = true ->
    (1 <= chase_duration st)%nat /\
    (chase_start st + chase_duration st = n)%nat /\
    (forall i, (chase_start st <= i < n)%nat -> above i) /\
    starts_run (chase_start st);
  inv_out : in_chase st = false -> starts_run n
}.

(** What the loop appends when a run ends, and what the code after the loop
    appends. *)
Definition flush (st : ChaseState) : list ChaseSequence :=
  if in_chase st && (3 <=? chase_duration st)%nat then
    chase_sequences st ++ [chase_entry scores (chase_start st) (chase_duration st)]
  else chase_sequences st.

End ChaseSpec.

(** ** Further vocabulary *)

(** The violent actions in the order the predictions are read, before the
    report sorts them. *)
Definition violent_matches (actions : list Clip) : list ViolentAction :=
  flat_map
    (fun ca : Clip * Action =>
       let (clip, action) := ca in
       let label := lower (act_label action) in
       let prob := prob action in
       if any_in violence_keywords label then
         [ {| va_action := act_label action;
              va_confidence := prob;
              va_intensity := _calculate_violence_intensity label prob;
              va_clip_index := clip_index clip;
              va_clip_type := clip_type clip |} ]
       else [])
    (clip_actions actions).

(** The order of the threat levels. *)
Definition threat_rank (level : string) : nat :=
  if String.eqb level "critical" then 3
  else if String.eqb level "high" then 2
  else if String.eqb level "medium" then 1
  else 0.

(** No frame shows any object; no clip holds any prediction. *)
Definition nothing_detected (detections : list FrameInfo) : Prop :=
  forall f, In f detections -> objects f = [].

Definition nothing_predicted (actions : list Clip) : Prop :=
  forall c, In c actions -> top_actions c = [].

(** The timeline has one entry per label, and only labels of valuables. *)
Definition timeline_ok (tl : Timeline) : Prop :=
  NoDup (map fst tl) /\
  forall k, In k (map fst tl) -> mem k valuable_labels = true.

(** ** Frame shapes *)

(** An image of [h] rows of [w] pixels each. *)
Definition shaped (h w : nat) (img : Image) : Prop :=
  List.length img = h /\ Forall (fun row => List.length row = w) img.

(** Every frame that decodes has [h] rows of [w] pixels. *)
Definition frames_shaped (h w : nat) (frames : list FrameFile) : Prop :=
  Forall (fun file => match file with Some img => shaped h w img | None => True end) frames.

(** ** Detections *)

(** The object [o] with its label replaced through [f]. *)
Definition relabel (f : string -> string) (o : Detection) : Detection :=
  {| label := f (label o); conf := conf o; bbox := bbox o |}.

(** The boxes of [k] and [o] overlap beyond [iou_threshold]: the test
    [iou <= iou_threshold] fails, on a number above the threshold or on an
    undefined quotient. *)
Definition overlap_beyond (iou_threshold : Q) (k o : Detection) : Prop :=
  match iou (bbox k) (bbox o) with
  | Some v => iou_threshold < v
  | None => True
  end.

(** ** Events *)

(** Some frame holds an object whose lower-cased label is one of
    [WEAPON_LABELS]. *)
Definition weapon_object_seen (detections : list FrameInfo) : Prop :=
  exists f o,
    In f detections /\ In o (objects f) /\
    mem (lower (label o)) Utils.WEAPON_LABELS = true.

(** Some prediction reaches its probability cut and has a keyword of
    [event_type] in its lower-cased label. *)
Definition action_reported (event_type : string) (actions : list Utils.ClipEntry) : Prop :=
  exists clip act keywords,
    In clip actions /\ In act (Utils.ce_top_actions clip) /\
    (if Utils.ae_is_crime_relevant act then 0.001 else 0.08) <= Utils.ae_prob act /\
    In (event_type, keywords) Utils.ACTION_KEYWORDS /\
    any_in keywords (lower (Utils.ae_label act)) = true.

(** No prediction has a probability above 1. *)
Definition probs_at_most_1 (actions : list Utils.ClipEntry) : Prop :=
  forall clip act,
    In clip actions -> In act (Utils.ce_top_actions clip) -> Utils.ae_prob act <= 1.

(** ** The threshold table and the intersection over union *)







End Spec.

(* ================================================================== *)
(** * Sample inputs *)

Module Samples.
Import CrimePatternAnalyzer MotionAnalyzer Models.

(** Two persons far apart. *)
Definition two_persons : list Detection :=
  [ mkDetection "person" 0.9 (mkBBox 0 0 10 10);
    mkDetection "person" 0.9 (mkBBox 500 500 510 510) ].

(** 19 frames, numbered from 0; the first 9 hold [two_persons], the others
    nothing. *)
Definition frames_9_of_19 : list FrameInfo :=
  map (fun i => mkFrame None (Some (Z.of_nat i)) (if (i <? 9)%nat then two_persons else []))
      (seq 0 19).

(** One clip with five "choke hold" predictions of probability 0.5. *)
Definition five_chokes : list Clip :=
  [ mkClip (Some 0%Z) (Some "middle") (repeat (mkAction "choke hold" 0.5) 5) ].

(** One frame with a knife and a person whose centres are 50 apart. *)
Definition knife_and_person : list FrameInfo :=
  [ mkFrame (Some "frame_0001.jpg") (Some 0%Z)
      [ mkDetection "knife" 0.5 (mkBBox 0 0 10 10);
        mkDetection "person" 0.9 (mkBBox 50 0 60 10) ] ].

(** One frame with a person and no weapon. *)
Definition person_only : list FrameInfo :=
  [ mkFrame (Some "frame_0001.jpg") (Some 0%Z)
      [ mkDetection "person" 0.9 (mkBBox 10 10 60 200) ] ].

(** One clip predicting "shooting goal (soccer)". *)
Definition shooting_clip : list Clip :=
  [ mkClip (Some 0%Z) (Some "middle") [ mkAction "shooting goal (soccer)" 0.5 ] ].

(** One clip predicting "stealing" with probability 0, respectively 0.5. *)
Definition steal_with_prob_0 : list Clip :=
  [ mkClip (Some 0%Z) (Some "middle") [ mkAction "stealing" 0 ] ].

Definition steal_with_prob_half : list Clip :=
  [ mkClip (Some 0%Z) (Some "middle") [ mkAction "stealing" 0.5 ] ].

(** Ten detection frames, numbered 0 to 9: a person with a "Backpack" in
    frame 0, a "backpack" in frame 1, the person alone in frame 5, nothing
    else. *)
Definition backpack_in_frames_0_1 : list FrameInfo :=
  [ mkFrame None (Some 0%Z)
      [ mkDetection "person" 0.9 (mkBBox 0 0 40 120);
        mkDetection "Backpack" 0.9 (mkBBox 0 0 40 60) ];
    mkFrame None (Some 1%Z) [ mkDetection "backpack" 0.7 (mkBBox 5 0 45 60) ];
    mkFrame None (Some 2%Z) []; mkFrame None (Some 3%Z) [];
    mkFrame None (Some 4%Z) [];
    mkFrame None (Some 5%Z) [ mkDetection "person" 0.8 (mkBBox 90 0 130 120) ];
    mkFrame None (Some 6%Z) []; mkFrame None (Some 7%Z) [];
    mkFrame None (Some 8%Z) []; mkFrame None (Some 9%Z) [] ].

(** A readable frame, 320 x 240, all black. *)
Definition black_frame : Image := repeat (repeat 0%Z 320) 240.

(** One clip predicting "sneaking", "stalking" and "lurking". *)
Definition three_suspicious_actions : list Clip :=
  [ mkClip (Some 0%Z) (Some "middle")
      [ mkAction "sneaking" 0.5; mkAction "stalking" 0.5; mkAction "lurking" 0.5 ] ].

(** Two frames without objects. *)
Definition two_empty_frames : list FrameInfo :=
  [ mkFrame (Some "frame_00000.jpg") (Some 0%Z) [];
    mkFrame (Some "frame_00001.jpg") (Some 1%Z) [] ].

(** Six boxes of one frame: the first overlaps the second too much, the
    fourth is below its threshold, the last two are degenerate. *)
Definition six_boxes : list Detection :=
  [ mkDetection "person" 0.5 (mkBBox 0 0 10 10);
    mkDetection "person" 0.9 (mkBBox 1 1 11 11);
    mkDetection "dog" 0.3 (mkBBox 20 20 30 30);
    mkDetection "dog" 0.29 (mkBBox 40 40 50 50);
    mkDetection "person" 0.2 (mkBBox 0 0 0 0);
    mkDetection "person" 0.1 (mkBBox 5 5 5 5) ].

(** Two 2 x 2 frames that differ in three of their four pixels. *)
Definition dark_2x2 : Image := [[0; 0]; [0; 0]]%Z.
Definition bright_2x2 : Image := [[255; 255]; [255; 0]]%Z.

(** One clip predicting "punching person (boxing)", marked crime-relevant. *)
Definition punching_entry : list Utils.ClipEntry :=
  [ Utils.mkClipEntry (Some 0%Z) (Some "middle")
      [ Utils.mkActionEntry "punching person (boxing)" 0.5 true ] ].

End Samples.

(* ================================================================== *)
(** * Facts about the numeric helpers *)

Module NumFacts.

Lemma Qltb_lt x y : Qltb x y = true <-> x < y.
Proof. unfold Qltb, Qlt. apply Z.ltb_lt. Qed.

Lemma Qltb_ge x y : Qltb x y = false <-> y <= x.
Proof. unfold Qltb, Qle. apply Z.ltb_ge. Qed.

Lemma Qleb_le x y : Qleb x y = true <-> x <= y.
Proof. apply Qle_bool_iff. Qed.

Lemma Qleb_gt x y : Qleb x y = false <-> y < x.
Proof.
  unfold Qleb. split; intro H.
  - destruct (Qlt_le_dec y x) as [L | L]; [exact L|].
    apply Qle_bool_iff in L. congruence.
  - destruct (Qle_bool x y) eqn:E; [|reflexivity].
    apply Qle_bool_iff in E. lra.
Qed.

Lemma py_min_le_l a b : py_min a b <= a.
Proof.
  unfold py_min. destruct (Qltb b a) eqn:E.
  - apply Qltb_lt in E. lra.
  - lra.
Qed.

Lemma py_min_le_r a b : py_min a b <= b.
Proof.
  unfold py_min. destruct (Qltb b a) eqn:E.
  - lra.
  - apply Qltb_ge in E. exact E.
Qed.

Lemma py_min_cases a b :
  (py_min a b = a /\ a <= b) \/ (py_min a b = b /\ b < a).
Proof.
  unfold py_min. destruct (Qltb b a) eqn:E.
  - right. apply Qltb_lt in E. auto.
  - left. apply Qltb_ge in E. auto.
Qed.

Lemma py_max_cases a b :
  (py_max a b = a /\ b <= a) \/ (py_max a b = b /\ a < b).
Proof.
  unfold py_max. destruct (Qltb a b) eqn:E.
  - right. apply Qltb_lt in E. auto.
  - left. apply Qltb_ge in E. auto.
Qed.

(** The running maximum dominates its seed and every element, and is one
    of them. *)
Lemma max_list_ge_seed xs : forall x, x <= max_list x xs.
Proof.
  unfold max_list. induction xs as [|y ys IH]; intro x; simpl.
  - lra.
  - specialize (IH (py_max x y)).
    destruct (py_max_cases x y) as [[E L] | [E L]]; rewrite E in *; lra.
Qed.

Lemma max_list_ge xs : forall x y, In y xs -> y <= max_list x xs.
Proof.
  unfold max_list. induction xs as [|z zs IH]; intros x y Hin; simpl.
  - destruct Hin.
  - destruct Hin as [-> | Hin].
    + pose proof (max_list_ge_seed zs (py_max x y)) as G. unfold max_list in G.
      destruct (py_max_cases x y) as [[E L] | [E L]]; rewrite E in *; lra.
    + apply IH. exact Hin.
Qed.

Lemma max_list_in xs : forall x, In (max_list x xs) (x :: xs).
Proof.
  unfold max_list. induction xs as [|z zs IH]; intro x; simpl.
  - left. reflexivity.
  - destruct (IH (py_max x z)) as [E | Hin].
    + rewrite <- E.
      destruct (py_max_cases x z) as [[E' _] | [E' _]]; rewrite E'; auto.
    + right. right. exact Hin.
Qed.

Lemma Qsum_shift xs : forall a, fold_left Qplus xs a == a + Qsum xs.
Proof.
  unfold Qsum. induction xs as [|x xs IH]; intro a; simpl.
  - lra.
  - rewrite (IH (a + x)), (IH (0 + x)). lra.
Qed.

Lemma Qsum_cons x xs : Qsum (x :: xs) == x + Qsum xs.
Proof. unfold Qsum at 1. simpl. rewrite Qsum_shift. lra. Qed.

Lemma Qlen_cons {A} (x : A) xs : Qlen (x :: xs) == 1 + Qlen xs.
Proof.
  unfold Qlen. cbn [List.length]. rewrite Nat2Z.inj_succ, <- Z.add_1_l.
  rewrite inject_Z_plus. reflexivity.
Qed.

Lemma Qlen_nonneg {A} (xs : list A) : 0 <= Qlen xs.
Proof.
  unfold Qlen. change 0 with (inject_Z 0). rewrite <- Zle_Qle. lia.
Qed.

Lemma Qlen_pos {A} (xs : list A) : xs <> [] -> 1 <= Qlen xs.
Proof.
  destruct xs as [|x xs]; [congruence|]. intros _.
  rewrite Qlen_cons. pose proof (Qlen_nonneg xs). lra.
Qed.

(** Bounds on every element carry over to the sum. *)
Lemma Qsum_bounds lo hi xs :
  (forall x, In x xs -> lo <= x <= hi) ->
  lo * Qlen xs <= Qsum xs <= hi * Qlen xs.
Proof.
  induction xs as [|x xs IH]; intro H.
  - change (Qlen (@nil Q)) with 0. change (Qsum []) with 0. lra.
  - rewrite Qsum_cons, Qlen_cons.
    assert (lo <= x <= hi) by (apply H; left; reflexivity).
    assert (lo * Qlen xs <= Qsum xs <= hi * Qlen xs)
      by (apply IH; intros y Hy; apply H; right; exact Hy).
    lra.
Qed.

Lemma Qsum_pos xs : xs <> [] -> (forall x, In x xs -> 0 < x) -> 0 < Qsum xs.
Proof.
  induction xs as [|x xs IH]; [congruence|]. intros _ H.
  rewrite Qsum_cons.
  assert (0 < x) by (apply H; left; reflexivity).
  destruct xs as [|y ys].
  - change (Qsum []) with 0. lra.
  - assert (0 < Qsum (y :: ys)).
    { apply IH; [discriminate|]. intros z Hz. apply H. right. exact Hz. }
    lra.
Qed.

(** Halving, in the form linear arithmetic reads. *)
Lemma Qhalf x : x / 2 == x * 0.5.
Proof. unfold Qdiv. change (/ 2) with (1 # 2). lra. Qed.

(** [len] and [nonempty]. *)
Lemma len_nonneg {A} (xs : list A) : (0 <= len xs)%Z.
Proof. unfold len. lia. Qed.

Lemma len_pos_iff {A} (xs : list A) : (len xs >? 0)%Z = nonempty xs.
Proof. destruct xs; reflexivity. Qed.

Lemma len_zero_iff {A} (xs : list A) : (len xs =? 0)%Z = negb (nonempty xs).
Proof. destruct xs; reflexivity. Qed.

Lemma nonempty_true {A} (xs : list A) : nonempty xs = true <-> xs <> [].
Proof. destruct xs; simpl; split; congruence. Qed.

Lemma nonempty_false {A} (xs : list A) : nonempty xs = false <-> xs = [].
Proof. destruct xs; simpl; split; congruence. Qed.

(** The mean of a non-empty list lies between bounds on its elements. *)
Lemma mean_or_1_bounds lo hi xs :
  xs <> [] -> (forall x, In x xs -> lo <= x <= hi) ->
  lo <= Qsum xs / float (Z.max 1 (if (len xs =? 0)%Z then 1 else len xs)) <= hi.
Proof.
  intros Hne H.
  assert (E : float (Z.max 1 (if (len xs =? 0)%Z then 1 else len xs)) = Qlen xs).
  { rewrite len_zero_iff. apply nonempty_true in Hne. rewrite Hne. simpl.
    unfold float, Qlen, len. f_equal. destruct xs; [discriminate|].
    simpl List.length. lia. }
  rewrite E.
  pose proof (Qlen_pos xs Hne) as P.
  pose proof (Qsum_bounds lo hi xs H) as [B1 B2].
  split.
  - apply Qle_shift_div_l; lra.
  - apply Qle_shift_div_r; lra.
Qed.

End NumFacts.
Import NumFacts.

(* ================================================================== *)
(** * Violence intensity *)

Module ViolenceProps.
Import CrimePatternAnalyzer Spec.

Lemma py_min_Qmin a b : py_min a b == Qmin a b.
Proof.
  destruct (py_min_cases a b) as [[E L] | [E L]]; rewrite E.
  - symmetry. apply Q.min_l. exact L.
  - symmetry. apply Q.min_r. lra.
Qed.

Lemma intensity_extreme l p :
  in_extreme_tier l -> _calculate_violence_intensity l p == Qmin 1 (2.0 * p).
Proof.
  unfold in_extreme_tier, _calculate_violence_intensity. intros ->.
  rewrite py_min_Qmin. apply Q.min_compat; lra.
Qed.

Lemma intensity_high l p :
  in_high_tier l -> _calculate_violence_intensity l p == Qmin 1 (1.5 * p).
Proof.
  unfold in_high_tier, _calculate_violence_intensity. intros [-> ->].
  rewrite py_min_Qmin. apply Q.min_compat; lra.
Qed.

Lemma intensity_medium l p :
  in_medium_tier l -> _calculate_violence_intensity l p == Qmin 1 (1.2 * p).
Proof.
  unfold in_medium_tier, _calculate_violence_intensity. intros (-> & -> & ->).
  rewrite py_min_Qmin. apply Q.min_compat; lra.
Qed.

Lemma intensity_other l p :
  in_no_tier l -> _calculate_violence_intensity l p == 0.8 * p.
Proof.
  unfold in_no_tier, _calculate_violence_intensity. intros (-> & -> & ->). lra.
Qed.

(** C7.  For a probability [p] in [0,1] the intensity is monotone in the
    keyword tier: a label of the extreme tier gets [min(1, 2.0 p)], one of
    the high tier [min(1, 1.5 p)], one of the medium tier [min(1, 1.2 p)],
    any other label [0.8 p], and these four values are in descending
    order. *)
Theorem violence_intensity_monotone_in_tier :
  forall (p : Q) (l_extreme l_high l_medium l_other : string),
    0 <= p <= 1 ->
    in_extreme_tier l_extreme ->
    in_high_tier l_high ->
    in_medium_tier l_medium ->
    in_no_tier l_other ->
    (_calculate_violence_intensity l_extreme p == Qmin 1 (2.0 * p) /\
     _calculate_violence_intensity l_high p == Qmin 1 (1.5 * p) /\
     _calculate_violence_intensity l_medium p == Qmin 1 (1.2 * p) /\
     _calculate_violence_intensity l_other p == 0.8 * p) /\
    _calculate_violence_intensity l_other p <= _calculate_violence_intensity l_medium p /\
    _calculate_violence_intensity l_medium p <= _calculate_violence_intensity l_high p /\
    _calculate_violence_intensity l_high p <= _calculate_violence_intensity l_extreme p.
Proof.
  intros p le lh lm lo Hp He Hh Hm Ho.
  pose proof (intensity_extreme le p He) as Ee.
  pose proof (intensity_high lh p Hh) as Eh.
  pose proof (intensity_medium lm p Hm) as Em.
  pose proof (intensity_other lo p Ho) as Eo.
  split; [auto|].
  rewrite Ee, Eh, Em, Eo.
  repeat split.
  - apply Q.min_glb; lra.
  - apply Q.min_le_compat_l. lra.
  - apply Q.min_le_compat_l. lra.
Qed.

Lemma violence_intensity_monotone_in_tier_witness :
  (0 <= 1 # 2 <= 1) /\
  _calculate_violence_intensity "walking the dog" (1 # 2)
    <= _calculate_violence_intensity "pushing cart" (1 # 2) /\
  _calculate_violence_intensity "pushing cart" (1 # 2)
    <= _calculate_violence_intensity "punching bag" (1 # 2) /\
  _calculate_violence_intensity "punching bag" (1 # 2)
    <= _calculate_violence_intensity "Stabbing" (1 # 2).
Proof.
  assert (Hp : 0 <= 1 # 2 <= 1) by (split; discriminate).
  split; [exact Hp|].
  exact (proj2 (violence_intensity_monotone_in_tier
                  (1 # 2) "Stabbing" "punching bag" "pushing cart" "walking the dog" Hp
                  eq_refl (conj eq_refl eq_refl)
                  (conj eq_refl (conj eq_refl eq_refl))
                  (conj eq_refl (conj eq_refl eq_refl)))).
Defined.

End ViolenceProps.

(* ================================================================== *)
(** * The aggregate severity *)

Module AggregatorProps.
Import CrimePatternAnalyzer Spec Samples.

Lemma max_weighted_exists ind0 inds :
  is_max_weighted (ind0 :: inds)
    (max_list (weighted_confidence ind0) (map weighted_confidence inds)).
Proof.
  split.
  - apply (max_list_in (map weighted_confidence inds) (weighted_confidence ind0)).
  - intros x [<- | Hin].
    + apply max_list_ge_seed.
    + apply max_list_ge. exact Hin.
Qed.

Lemma max_weighted_unique inds m m' :
  is_max_weighted inds m -> is_max_weighted inds m' -> m == m'.
Proof.
  intros [I1 U1] [I2 U2]. apply Qle_antisym; auto.
Qed.

(** The four buckets of a non-empty indicator list. *)
Lemma severity_of_max inds m :
  is_max_weighted inds m ->
  determine_overall_severity inds =
    if Qltb 0.8 m then "critical"
    else if Qltb 0.6 m then "high"
    else if Qltb 0.4 m then "medium"
    else "low".
Proof.
  intro Hm. destruct inds as [|ind0 inds].
  - destruct Hm as [[] _].
  - pose proof (max_weighted_unique _ _ _ Hm (max_weighted_exists ind0 inds)) as E.
    unfold determine_overall_severity.
    set (mx := max_list _ _) in *.
    assert (R : forall c, Qltb c mx = Qltb c m).
    { intro c. destruct (Qltb c m) eqn:Em.
      - apply Qltb_lt. apply Qltb_lt in Em. lra.
      - apply Qltb_ge. apply Qltb_ge in Em. lra. }
    rewrite !R. reflexivity.
Qed.

(** Every indicator a report carries has a positive weighted confidence. *)
Lemma report_indicators_positive detections actions ind :
  In ind (crime_indicators (generate_crime_report detections actions)) ->
  0 < weighted_confidence ind.
Proof.
  unfold generate_crime_report, crime_indicators, indicators_of.
  set (w := analyze_weapon_threat _ _). set (v := analyze_violence_intensity _ _).
  set (t := analyze_theft_patterns _ _). set (s := analyze_suspicious_behavior _ _).
  rewrite !in_app_iff.
  intros [H | [H | [H | H]]].
  - destruct (wr_detected w); [|destruct H].
    destruct H as [<- | []]. vm_compute. reflexivity.
  - destruct (vr_detected v && Qltb 0.5 (violence_score v)) eqn:E; [|destruct H].
    destruct H as [<- | []]. apply andb_true_iff in E. destruct E as [_ E].
    apply Qltb_lt in E. unfold weighted_confidence. cbn [ind_confidence ind_type].
    change (weights_get severity_weights "violent_assault" 0.5) with 0.95. lra.
  - destruct (tr_detected t && Qltb 0.4 (theft_probability t)) eqn:E; [|destruct H].
    destruct H as [<- | []]. apply andb_true_iff in E. destruct E as [_ E].
    apply Qltb_lt in E. unfold weighted_confidence. cbn [ind_confidence ind_type].
    change (weights_get severity_weights "theft_or_robbery" 0.5) with 0.5. lra.
  - destruct (sr_detected s && Qltb 0.5 (sr_suspicion_score s)) eqn:E; [|destruct H].
    destruct H as [<- | []]. apply andb_true_iff in E. destruct E as [_ E].
    apply Qltb_lt in E. unfold weighted_confidence. cbn [ind_confidence ind_type].
    change (weights_get severity_weights "suspicious_activity" 0.5) with 0.60. lra.
Qed.

(** C1 (amended).  The severity weights are those of the table, with 0.5
    for any type outside it.  [overall_severity] of a report is computed
    from its indicator list alone: "safe" for the empty list, and for a
    non-empty list the bucket of the maximum [m] of confidence times weight:
    "critical" above 0.8, "high" above 0.6, "medium" above 0.4, "low"
    otherwise.  So a maximum of 0.85 gives "critical" and one of 0.35 gives
    "low".  Every indicator of a report has a positive weighted confidence,
    so there "low" always means a maximum above 0. *)
Theorem overall_severity_bucket :
  forall inds : list CrimeIndicator,
    (weight_of "weapon_threat" == 1.0 /\ weight_of "violent_assault" == 0.95 /\
     weight_of "armed_robbery" == 0.90 /\ weight_of "physical_fight" == 0.85 /\
     weight_of "theft_in_progress" == 0.80 /\ weight_of "vandalism" == 0.70 /\
     weight_of "suspicious_activity" == 0.60 /\ weight_of "trespassing" == 0.50 /\
     forall ind, weighted_confidence ind == ind_confidence ind * weight_of (ind_type ind)) /\
    (forall detections actions,
       overall_severity (generate_crime_report detections actions) =
         determine_overall_severity
           (crime_indicators (generate_crime_report detections actions)) /\
       forall ind,
         In ind (crime_indicators (generate_crime_report detections actions)) ->
         0 < weighted_confidence ind) /\
    (inds = [] -> determine_overall_severity inds = "safe") /\
    (inds <> [] -> exists m, is_max_weighted inds m) /\
    (forall m, is_max_weighted inds m ->
       (0.8 < m -> determine_overall_severity inds = "critical") /\
       (0.6 < m /\ m <= 0.8 -> determine_overall_severity inds = "high") /\
       (0.4 < m /\ m <= 0.6 -> determine_overall_severity inds = "medium") /\
       (m <= 0.4 -> determine_overall_severity inds = "low") /\
       (m == 0.85 -> determine_overall_severity inds = "critical") /\
       (m == 0.35 -> determine_overall_severity inds = "low")).
Proof.
  intro inds. split; [|split; [|split; [|split]]].
  - repeat split; try reflexivity.
  - intros detections actions. split; [reflexivity|].
    intro ind. apply report_indicators_positive.
  - intros ->. reflexivity.
  - destruct inds as [|ind0 inds]; [congruence|]. intros _.
    eexists. apply max_weighted_exists.
  - intros m Hm. rewrite (severity_of_max inds m Hm).
    assert (C : forall c, (c < m -> Qltb c m = true) /\ (m <= c -> Qltb c m = false)).
    { intro c. split; intro H; [apply Qltb_lt | apply Qltb_ge]; exact H. }
    repeat split.
    + intro H. rewrite (proj1 (C 0.8)) by exact H. reflexivity.
    + intros [H1 H2]. rewrite (proj2 (C 0.8)), (proj1 (C 0.6)) by assumption.
      reflexivity.
    + intros [H1 H2].
      rewrite (proj2 (C 0.8)), (proj2 (C 0.6)), (proj1 (C 0.4)) by lra.
      reflexivity.
    + intro H.
      rewrite (proj2 (C 0.8)), (proj2 (C 0.6)), (proj2 (C 0.4)) by lra.
      reflexivity.
    + intro H. rewrite (proj1 (C 0.8)) by lra. reflexivity.
    + intro H.
      rewrite (proj2 (C 0.8)), (proj2 (C 0.6)), (proj2 (C 0.4)) by lra.
      reflexivity.
Qed.

(** An indicator list whose maximum weighted confidence is 0.85: the
    severity is "critical", not "high". *)
Lemma severity_at_085_is_critical :
  is_max_weighted [mkIndicator "physical_fight" "high" 1] (1 * 0.85) /\
  1 * 0.85 == 0.85 /\
  determine_overall_severity [mkIndicator "physical_fight" "high" 1] = "critical" /\
  determine_overall_severity [mkIndicator "physical_fight" "high" 1] <> "high".
Proof.
  repeat split.
  - left. reflexivity.
  - intros x [<- | []]. vm_compute. discriminate.
  - vm_compute. discriminate.
Qed.

Lemma overall_severity_bucket_witness :
  is_max_weighted [mkIndicator "physical_fight" "high" 1] (1 * 0.85) /\
  determine_overall_severity [mkIndicator "physical_fight" "high" 1] = "critical".
Proof.
  assert (Hm : is_max_weighted [mkIndicator "physical_fight" "high" 1] (1 * 0.85)).
  { split; [left; reflexivity|]. intros x [<- | []]. vm_compute. discriminate. }
  split; [exact Hm|].
  apply (proj2 (proj2 (proj2 (proj2
           (overall_severity_bucket [mkIndicator "physical_fight" "high" 1])))) _ Hm).
  reflexivity.
Defined.

(** The same through [generate_crime_report]: 19 frames, 9 of them with two
    persons, and five "choke hold" predictions of probability 0.5 give a
    violence score of 17/19, hence the single indicator "violent_assault"
    with weighted confidence 17/19 * 0.95 = 0.85, and "critical". *)

Example report_with_max_085 :
  crime_indicators (generate_crime_report frames_9_of_19 five_chokes)
    = [ mkIndicator "violent_assault" "extreme"
          (violence_score (analyze_violence_intensity five_chokes frames_9_of_19)) ] /\
  violence_score (analyze_violence_intensity five_chokes frames_9_of_19) * 0.95 == 0.85 /\
  overall_severity (generate_crime_report frames_9_of_19 five_chokes) = "critical".
Proof. repeat split; vm_compute; reflexivity. Qed.

(** ** Weapon indicator *)

Lemma weapon_indicator_first w v t s :
  wr_detected w = true ->
  exists rest,
    indicators_of w v t s = mkIndicator "weapon_threat" (threat_level w) 0.9 :: rest.
Proof.
  intro H. unfold indicators_of. rewrite H. eexists. reflexivity.
Qed.

(** C9.  When the weapon analysis reports [detected], the report carries
    the indicator "weapon_threat" with confidence 0.9, whose weighted
    confidence is 0.9 * 1.0 > 0.8, and [overall_severity] is "critical". *)
Theorem weapon_detected_is_critical :
  forall (detections : list FrameInfo) (actions : list Clip),
    wr_detected (analyze_weapon_threat detections actions) = true ->
    In (mkIndicator "weapon_threat"
          (threat_level (analyze_weapon_threat detections actions)) 0.9)
       (crime_indicators (generate_crime_report detections actions)) /\
    weighted_confidence
      (mkIndicator "weapon_threat"
         (threat_level (analyze_weapon_threat detections actions)) 0.9) == 0.9 /\
    overall_severity (generate_crime_report detections actions) = "critical".
Proof.
  intros detections actions H.
  unfold generate_crime_report. cbn [overall_severity crime_indicators].
  destruct (weapon_indicator_first _
              (analyze_violence_intensity actions detections)
              (analyze_theft_patterns detections actions)
              (analyze_suspicious_behavior detections actions) H) as [rest ->].
  split; [left; reflexivity|]. split; [reflexivity|].
  unfold determine_overall_severity.
  set (w := weighted_confidence _).
  pose proof (max_list_ge_seed (map weighted_confidence rest) w) as G.
  assert (E : w == 0.9) by reflexivity.
  replace (Qltb 0.8 (max_list w (map weighted_confidence rest))) with true;
    [reflexivity|].
  symmetry. apply Qltb_lt. lra.
Qed.

Lemma weapon_detected_is_critical_witness :
  wr_detected (analyze_weapon_threat knife_and_person []) = true /\
  overall_severity (generate_crime_report knife_and_person []) = "critical".
Proof.
  split; [reflexivity|].
  exact (proj2 (proj2 (weapon_detected_is_critical knife_and_person [] eq_refl))).
Defined.

End AggregatorProps.

(* ================================================================== *)
(** * Theft patterns *)

Module TheftProps.
Import CrimePatternAnalyzer Spec Samples AggregatorProps.

(** What an element collected from the action predictions comes from. *)
Lemma in_collected {B} (g : Clip * Action -> list B) (actions : list Clip) (x : B) :
  In x (flat_map g (clip_actions actions)) <->
  exists c a, In c actions /\ In a (top_actions c) /\ In x (g (c, a)).
Proof.
  unfold clip_actions. rewrite in_flat_map. split.
  - intros [[c a] [Hca Hx]]. apply in_flat_map in Hca.
    destruct Hca as [c' [Hc Ha]]. apply in_map_iff in Ha.
    destruct Ha as [a' [E Ha]]. inversion E; subst. eauto.
  - intros (c & a & Hc & Ha & Hx). exists (c, a). split; [|exact Hx].
    apply in_flat_map. exists c. split; [exact Hc|].
    apply in_map_iff. eauto.
Qed.

(** The fields of the theft report, as the source computes them. *)
Lemma theft_report_fields detections actions :
  let r := analyze_theft_patterns detections actions in
  valuable_disappearances r
    = flat_map (disappearance_of (len detections)) (valuable_timeline detections) /\
  theft_probability r
    = _calculate_theft_probability (valuable_disappearances r) (theft_actions r) /\
  tr_detected r = nonempty (valuable_disappearances r) || nonempty (theft_actions r).
Proof.
  cbv zeta. repeat split.
  unfold analyze_theft_patterns. cbn [tr_detected valuable_disappearances theft_actions].
  rewrite !len_pos_iff. reflexivity.
Qed.

Lemma theft_action_source detections actions t :
  In t (theft_actions (analyze_theft_patterns detections actions)) ->
  exists c a,
    In c actions /\ In a (top_actions c) /\
    any_in theft_keywords (lower (act_label a)) = true /\
    ta_confidence t = prob a.
Proof.
  unfold analyze_theft_patterns. cbn [theft_actions]. intro H.
  apply in_collected in H. destruct H as (c & a & Hc & Ha & Hx).
  exists c, a. destruct (any_in theft_keywords (lower (act_label a))); [|destruct Hx].
  destruct Hx as [<- | []]. auto.
Qed.

Lemma disappearance_score_values total entry d :
  In d (disappearance_of total entry) ->
  suspicion_score d = 0.8 \/ suspicion_score d = 0.6.
Proof.
  unfold disappearance_of. destruct entry as [l frames].
  destruct (_ && _); [|intros []].
  destruct frames as [|f0 fs]; [intros []|].
  destruct (Qltb _ _); [|intros []].
  intros [<- | []]. cbn [suspicion_score].
  destruct (Qltb _ _); auto.
Qed.

Lemma disappearance_scores_bounded detections actions :
  forall x,
    In x (map suspicion_score
            (valuable_disappearances (analyze_theft_patterns detections actions))) ->
    0.6 <= x <= 0.8.
Proof.
  intros x Hx. apply in_map_iff in Hx. destruct Hx as [d [<- Hd]].
  unfold analyze_theft_patterns in Hd. cbn [valuable_disappearances] in Hd.
  apply in_flat_map in Hd. destruct Hd as [entry [_ Hd]].
  destruct (disappearance_score_values _ _ _ Hd) as [-> | ->]; lra.
Qed.

(** The four cases of [_calculate_theft_probability]. *)
Lemma theft_probability_cases ds ts :
  let dscore := Qsum (map suspicion_score ds) / float (len_or_1 ds) in
  let ascore := Qsum (map ta_confidence ts) / float (len_or_1 ts) in
  (ds = [] /\ ts = [] /\ _calculate_theft_probability ds ts = 0.0) \/
  (ds <> [] /\ ts <> [] /\
   _calculate_theft_probability ds ts = py_min 1.0 ((dscore + ascore) / 2 * 1.2)) \/
  (ds <> [] /\ ts = [] /\ _calculate_theft_probability ds ts = dscore * 0.8) \/
  (ds = [] /\ ts <> [] /\ _calculate_theft_probability ds ts = ascore * 0.7).
Proof.
  cbv zeta. destruct ds as [|d ds], ts as [|t ts].
  - left. auto.
  - right. right. right. repeat split; discriminate.
  - right. right. left. repeat split; discriminate.
  - right. left. repeat split; discriminate.
Qed.

Lemma len_or_1_map {A B} (f : A -> B) (xs : list A) : len_or_1 (map f xs) = len_or_1 xs.
Proof. unfold len_or_1, len. rewrite length_map. reflexivity. Qed.

Lemma score_bounds {A} (f : A -> Q) (xs : list A) lo hi :
  xs <> [] -> (forall x, In x (map f xs) -> lo <= x <= hi) ->
  lo <= Qsum (map f xs) / float (len_or_1 xs) <= hi.
Proof.
  intros Hne H. rewrite <- (len_or_1_map f).
  apply mean_or_1_bounds; [|exact H].
  destruct xs; [congruence | discriminate].
Qed.

Lemma len_or_1_pos {A} (xs : list A) : 1 <= float (len_or_1 xs).
Proof.
  unfold float, len_or_1. change 1 with (inject_Z 1). rewrite <- Zle_Qle. lia.
Qed.

Lemma score_pos {A} (f : A -> Q) (xs : list A) :
  xs <> [] -> (forall x, In x (map f xs) -> 0 < x) ->
  0 < Qsum (map f xs) / float (len_or_1 xs).
Proof.
  intros Hne H. pose proof (len_or_1_pos xs).
  apply Qlt_shift_div_l; [lra|].
  assert (0 < Qsum (map f xs)).
  { apply Qsum_pos; [|exact H]. destruct xs; [congruence | discriminate]. }
  lra.
Qed.

Lemma theft_probability_le_1 detections actions :
  probs_in_unit actions ->
  theft_probability (analyze_theft_patterns detections actions) <= 1.
Proof.
  intro Hp.
  destruct (theft_report_fields detections actions) as (_ & -> & _).
  pose proof (disappearance_scores_bounded detections actions) as Hd.
  assert (Ha : forall x,
             In x (map ta_confidence
                     (theft_actions (analyze_theft_patterns detections actions))) ->
             0 <= x <= 1).
  { intros x Hx. apply in_map_iff in Hx. destruct Hx as [t [<- Ht]].
    apply theft_action_source in Ht. destruct Ht as (c & a & Hc & Hin & _ & ->).
    apply (Hp c a Hc Hin). }
  set (ds := valuable_disappearances _) in *. set (ts := theft_actions _) in *.
  destruct (theft_probability_cases ds ts)
    as [(_ & _ & ->) | [(Hds & Hts & ->) | [(Hds & _ & ->) | (_ & Hts & ->)]]].
  - lra.
  - pose proof (py_min_le_l 1.0 ((Qsum (map suspicion_score ds) / float (len_or_1 ds)
                   + Qsum (map ta_confidence ts) / float (len_or_1 ts)) / 2 * 1.2)).
    lra.
  - pose proof (score_bounds suspicion_score ds _ _ Hds Hd). lra.
  - pose proof (score_bounds ta_confidence ts _ _ Hts Ha). lra.
Qed.

(** C6 (amended).  When every action probability is in (0,1], the theft
    probability is 0 exactly when both the disappearance list and the
    theft-action list are empty. *)
Theorem theft_probability_zero_iff :
  forall (detections : list FrameInfo) (actions : list Clip),
    probs_positive actions ->
    (theft_probability (analyze_theft_patterns detections actions) == 0 <->
     valuable_disappearances (analyze_theft_patterns detections actions) = [] /\
     theft_actions (analyze_theft_patterns detections actions) = []).
Proof.
  intros detections actions Hp.
  destruct (theft_report_fields detections actions) as (_ & -> & _).
  pose proof (disappearance_scores_bounded detections actions) as Hd.
  assert (Ha : forall x,
             In x (map ta_confidence
                     (theft_actions (analyze_theft_patterns detections actions))) ->
             0 < x).
  { intros x Hx. apply in_map_iff in Hx. destruct Hx as [t [<- Ht]].
    apply theft_action_source in Ht. destruct Ht as (c & a & Hc & Hin & _ & ->).
    apply (Hp c a Hc Hin). }
  set (ds := valuable_disappearances _) in *. set (ts := theft_actions _) in *.
  destruct (theft_probability_cases ds ts)
    as [(Eds & Ets & ->) | [(Hds & Hts & ->) | [(Hds & Ets & ->) | (Eds & Hts & ->)]]].
  - split; [auto | reflexivity].
  - pose proof (score_bounds suspicion_score ds _ _ Hds Hd).
    pose proof (score_pos ta_confidence ts Hts Ha).
    split; [|intros [E _]; congruence].
    intro E. exfalso.
    pose proof (Qhalf (Qsum (map suspicion_score ds) / float (len_or_1 ds)
                       + Qsum (map ta_confidence ts) / float (len_or_1 ts))).
    destruct (py_min_cases 1.0 ((Qsum (map suspicion_score ds) / float (len_or_1 ds)
                + Qsum (map ta_confidence ts) / float (len_or_1 ts)) / 2 * 1.2))
      as [[E' _] | [E' _]]; rewrite E' in E; lra.
  - pose proof (score_bounds suspicion_score ds _ _ Hds Hd).
    split; [|intros [E _]; congruence].
    intro E. exfalso. lra.
  - pose proof (score_pos ta_confidence ts Hts Ha).
    split; [|intros [_ E]; congruence].
    intro E. exfalso. lra.
Qed.

(** A theft-keyword prediction of probability 0 (which is in [0,1]) and no
    detections: the theft-action list is not empty, yet the probability
    is 0. *)

Lemma theft_probability_zero_with_theft_action :
  probs_in_unit steal_with_prob_0 /\
  theft_probability (analyze_theft_patterns [] steal_with_prob_0) == 0 /\
  theft_actions (analyze_theft_patterns [] steal_with_prob_0)
    = [ mkTheftAction "stealing" 0 (Some 0%Z) ] /\
  theft_actions (analyze_theft_patterns [] steal_with_prob_0) <> [].
Proof.
  split; [|repeat split; vm_compute; congruence].
  intros c a [<- | []] [<- | []]. cbn. lra.
Qed.

Lemma theft_probability_zero_iff_witness :
  probs_positive steal_with_prob_half /\
  (theft_probability (analyze_theft_patterns [] steal_with_prob_half) == 0 <->
   valuable_disappearances (analyze_theft_patterns [] steal_with_prob_half) = [] /\
   theft_actions (analyze_theft_patterns [] steal_with_prob_half) = []).
Proof.
  assert (Hp : probs_positive steal_with_prob_half).
  { intros c a [<- | []] [<- | []]. cbn. lra. }
  split; [exact Hp|].
  exact (theft_probability_zero_iff [] steal_with_prob_half Hp).
Defined.

(** ** The backpack scenario *)

Lemma no_theft_actions_collected detections actions :
  no_theft_action actions ->
  theft_actions (analyze_theft_patterns detections actions) = [].
Proof.
  intro Hn.
  destruct (theft_actions (analyze_theft_patterns detections actions)) as [|t ts] eqn:E;
    [reflexivity|].
  assert (Ht : In t (theft_actions (analyze_theft_patterns detections actions)))
    by (rewrite E; left; reflexivity).
  apply theft_action_source in Ht. destruct Ht as (c & a & Hc & Ha & Hk & _).
  rewrite (Hn c a Hc Ha) in Hk. discriminate.
Qed.

Lemma track_non_valuable (idx : Z) (objs : list Detection) :
  Forall non_valuable objs ->
  forall tl,
    fold_left
      (fun tl obj =>
         let l := lower (label obj) in
         if mem l valuable_labels then timeline_append tl l idx else tl)
      objs tl = tl.
Proof.
  induction 1 as [|o objs Ho _ IH]; intro tl; cbn [fold_left]; [reflexivity|].
  unfold non_valuable in Ho. rewrite Ho. apply IH.
Qed.

Lemma track_frame_non_valuable tl f :
  Forall non_valuable (objects f) -> track_frame tl f = tl.
Proof. intro H. unfold track_frame. apply track_non_valuable. exact H. Qed.

Lemma track_frame_one_backpack tl f :
  one_backpack (objects f) ->
  track_frame tl f = timeline_append tl "backpack" (frame_idx_of f).
Proof.
  intros (pre & bp & post & E & Hbp & Hpre & Hpost).
  unfold track_frame. rewrite E, fold_left_app. cbn [fold_left].
  rewrite (track_non_valuable _ pre Hpre), Hbp.
  change (mem "backpack" valuable_labels) with true. cbv iota.
  apply (track_non_valuable _ post Hpost).
Qed.

(** In the backpack scene the timeline has the one entry
    ["backpack": [0, 1]]. *)
Lemma backpack_scene_timeline detections :
  backpack_scene detections ->
  len detections = 10%Z /\ valuable_timeline detections = [("backpack", [0%Z; 1%Z])].
Proof.
  intros [Hlen Hf]. split; [unfold len; rewrite Hlen; reflexivity|].
  do 10 (destruct detections as [|? detections]; [discriminate|]).
  destruct detections; [|discriminate].
  unfold valuable_timeline. cbn [fold_left].
  pose proof (Hf 0%nat _ eq_refl) as [I0 B0].
  pose proof (Hf 1%nat _ eq_refl) as [I1 B1].
  pose proof (Hf 2%nat _ eq_refl) as [_ B2].
  pose proof (Hf 3%nat _ eq_refl) as [_ B3].
  pose proof (Hf 4%nat _ eq_refl) as [_ B4].
  pose proof (Hf 5%nat _ eq_refl) as [_ B5].
  pose proof (Hf 6%nat _ eq_refl) as [_ B6].
  pose proof (Hf 7%nat _ eq_refl) as [_ B7].
  pose proof (Hf 8%nat _ eq_refl) as [_ B8].
  pose proof (Hf 9%nat _ eq_refl) as [_ B9].
  cbn [Nat.ltb Nat.leb] in *.
  rewrite (track_frame_one_backpack _ _ B0), (track_frame_one_backpack _ _ B1).
  rewrite (track_frame_non_valuable _ _ B2), (track_frame_non_valuable _ _ B3),
    (track_frame_non_valuable _ _ B4), (track_frame_non_valuable _ _ B5),
    (track_frame_non_valuable _ _ B6), (track_frame_non_valuable _ _ B7),
    (track_frame_non_valuable _ _ B8), (track_frame_non_valuable _ _ B9).
  unfold frame_idx_of. rewrite I0, I1. reflexivity.
Qed.

(** C5 (amended).  Ten frames with a "backpack" in frames 0 and 1 only, and
    no theft-keyword action: exactly one disappearance candidate, for
    "backpack", first seen in frame 0 and last in frame 1, with duration
    ratio 0.1 and suspicion score 0.8.  The theft probability is the
    product 0.8 * 0.8 of doubles, which is 0.6400000000000001: the double
    next above 0.64, not 0.64. *)
Theorem backpack_scenario :
  forall (detections : list FrameInfo) (actions : list Clip),
    backpack_scene detections ->
    no_theft_action actions ->
    exists d : Disappearance,
      valuable_disappearances (analyze_theft_patterns detections actions) = [d] /\
      item d = "backpack" /\ first_seen d = 0%Z /\ last_seen d = 1%Z /\
      duration_ratio d == 0.1 /\
      suspicion_score d == 0.8 /\
      theft_actions (analyze_theft_patterns detections actions) = [] /\
      Binary64.theft_probability detections actions
        = PrimFloat.mul (Binary64.of_Q 0.8) (Binary64.of_Q 0.8) /\
      Binary64.theft_probability detections actions
        = Binary64.of_Q 0.6400000000000001 /\
      Binary64.theft_probability detections actions
        = PrimFloat.next_up (Binary64.of_Q 0.64) /\
      PrimFloat.eqb (Binary64.theft_probability detections actions)
        (Binary64.of_Q 0.64) = false.
Proof.
  intros detections actions Hs Hn.
  pose proof (no_theft_actions_collected detections actions Hn) as Ets.
  destruct (theft_report_fields detections actions) as (Eds & _ & _).
  destruct (backpack_scene_timeline detections Hs) as [Elen Etl].
  unfold Binary64.theft_probability.
  rewrite Ets, Eds, Elen, Etl.
  eexists. split; [vm_compute; reflexivity|].
  repeat split; vm_compute; reflexivity.
Qed.

Lemma backpack_in_frames_0_1_scene : backpack_scene backpack_in_frames_0_1.
Proof.
  split; [reflexivity|]. intros i f Hi.
  destruct i as [|[|[|[|[|[|[|[|[|[|i]]]]]]]]]]; cbn in Hi;
    try (destruct i; discriminate);
    inversion Hi; subst f; (split; [reflexivity|]); cbn [Nat.ltb Nat.leb objects].
  - exists [mkDetection "person" 0.9 (mkBBox 0 0 40 120)],
      (mkDetection "Backpack" 0.9 (mkBBox 0 0 40 60)), [].
    repeat split; repeat constructor.
  - exists [], (mkDetection "backpack" 0.7 (mkBBox 5 0 45 60)), [].
    repeat split; repeat constructor.
  - constructor.
  - constructor.
  - constructor.
  - repeat constructor.
  - constructor.
  - constructor.
  - constructor.
  - constructor.
Qed.

(** On the scene of the claim the probability is neither equal to the double
    0.64 nor at most it. *)
Lemma backpack_probability_is_not_0_64 :
  PrimFloat.eqb (Binary64.theft_probability backpack_in_frames_0_1 [])
    (Binary64.of_Q 0.64) = false /\
  PrimFloat.leb (Binary64.theft_probability backpack_in_frames_0_1 [])
    (Binary64.of_Q 0.64) = false /\
  PrimFloat.ltb (Binary64.of_Q 0.64)
    (Binary64.theft_probability backpack_in_frames_0_1 []) = true.
Proof. repeat split; vm_compute; reflexivity. Qed.

Lemma backpack_scenario_witness :
  backpack_scene backpack_in_frames_0_1 /\
  no_theft_action [] /\
  Binary64.theft_probability backpack_in_frames_0_1 []
    = Binary64.of_Q 0.6400000000000001.
Proof.
  assert (Hn : no_theft_action []) by (intros c a []).
  split; [exact backpack_in_frames_0_1_scene|]. split; [exact Hn|].
  destruct (backpack_scenario backpack_in_frames_0_1 [] backpack_in_frames_0_1_scene Hn)
    as (d & _ & _ & _ & _ & _ & _ & _ & _ & E & _).
  exact E.
Defined.

(** ** The theft indicator *)

(** C10.  The indicator the theft analysis contributes has type
    "theft_or_robbery", which the weight table does not list, so its weight
    is the default 0.5.  With action probabilities in [0,1], a report whose
    only indicator is that one has a weighted confidence of at most 0.5,
    and its [overall_severity] is "medium" or "low", never "high" or
    "critical". *)
Theorem theft_only_at_most_medium :
  forall (detections : list FrameInfo) (actions : list Clip) (ind : CrimeIndicator),
    probs_in_unit actions ->
    crime_indicators (generate_crime_report detections actions) = [ind] ->
    ind_type ind = "theft_or_robbery" ->
    weight_of "theft_or_robbery" == 0.5 /\
    ind_confidence ind
      == theft_probability (theft_analysis (generate_crime_report detections actions)) /\
    weighted_confidence ind <= 0.5 /\
    (overall_severity (generate_crime_report detections actions) = "medium" \/
     overall_severity (generate_crime_report detections actions) = "low") /\
    overall_severity (generate_crime_report detections actions) <> "high" /\
    overall_severity (generate_crime_report detections actions) <> "critical".
Proof.
  intros detections actions ind Hp Hinds Ht.
  pose proof (theft_probability_le_1 detections actions Hp) as Hle.
  unfold generate_crime_report in *.
  cbn [crime_indicators overall_severity theft_analysis] in *.
  rewrite Hinds.
  assert (Ec : ind_confidence ind
               = theft_probability (analyze_theft_patterns detections actions)).
  { unfold indicators_of in Hinds.
    destruct (wr_detected _); destruct (_ && _); destruct (_ && _); destruct (_ && _);
      cbn [app] in Hinds; inversion Hinds; subst ind; cbn [ind_type] in Ht;
      try discriminate Ht; reflexivity. }
  assert (Ew : weighted_confidence ind
               == theft_probability (analyze_theft_patterns detections actions) * 0.5).
  { unfold weighted_confidence. rewrite Ht, Ec. reflexivity. }
  split; [reflexivity|]. split; [rewrite Ec; reflexivity|].
  split; [lra|].
  unfold determine_overall_severity. cbn [map]. unfold max_list. cbn [fold_left].
  replace (Qltb 0.8 (weighted_confidence ind)) with false
    by (symmetry; apply Qltb_ge; lra).
  replace (Qltb 0.6 (weighted_confidence ind)) with false
    by (symmetry; apply Qltb_ge; lra).
  destruct (Qltb 0.4 (weighted_confidence ind));
    (split; [auto|]; split; discriminate).
Qed.

Lemma theft_only_at_most_medium_witness :
  probs_in_unit [] /\
  crime_indicators
    (generate_crime_report
       backpack_in_frames_0_1 [])
    = [ mkIndicator "theft_or_robbery" "medium" 0.64 ] /\
  (overall_severity
     (generate_crime_report
        backpack_in_frames_0_1 [])
     = "medium" \/
   overall_severity
     (generate_crime_report
        backpack_in_frames_0_1 [])
     = "low").
Proof.
  assert (Hp : probs_in_unit []) by (intros c a []).
  split; [exact Hp|]. split; [reflexivity|].
  exact (proj1 (proj2 (proj2 (proj2
           (theft_only_at_most_medium
              backpack_in_frames_0_1 []
              (mkIndicator "theft_or_robbery" "medium" 0.64) Hp eq_refl eq_refl))))).
Defined.

End TheftProps.

(* ================================================================== *)
(** * Weapon threat level *)

Module WeaponProps.
Import CrimePatternAnalyzer Spec Samples TheftProps.

Lemma filter_nonempty {A} (g : A -> bool) (l : list A) :
  nonempty (filter g l) = true <-> exists x, In x l /\ g x = true.
Proof.
  rewrite nonempty_true. split.
  - destruct (filter g l) as [|x xs] eqn:E; [congruence|]. intros _.
    exists x. apply filter_In. rewrite E. left. reflexivity.
  - intros [x Hx] E. apply filter_In in Hx. rewrite E in Hx. destruct Hx.
Qed.

Lemma frame_weapons_nonempty f : nonempty (frame_weapons f) = true <-> has_weapon f.
Proof. unfold frame_weapons, has_weapon. apply filter_nonempty. Qed.

Lemma frame_weapons_existsb f :
  nonempty (frame_weapons f) = existsb (fun o => _is_weapon (label o)) (objects f).
Proof.
  unfold frame_weapons. induction (objects f) as [|o os IH]; [reflexivity|].
  simpl. destruct (_is_weapon (label o)); [reflexivity | exact IH].
Qed.

(** One entry of [weapon_frames] per frame holding a weapon. *)
Lemma weapon_frames_count detections :
  len (flat_map frame_weapon_entry detections) = weapon_frame_count detections.
Proof.
  unfold weapon_frame_count, len. f_equal.
  induction detections as [|f fs IH]; [reflexivity|].
  cbn [flat_map filter]. rewrite length_app, IH.
  rewrite <- frame_weapons_existsb. unfold frame_weapon_entry.
  destruct (frame_weapons f); reflexivity.
Qed.

Lemma weapon_frames_nonempty detections :
  nonempty (flat_map frame_weapon_entry detections) = true <-> weapon_seen detections.
Proof.
  unfold weapon_seen. rewrite nonempty_true. split.
  - destruct (flat_map frame_weapon_entry detections) as [|e es] eqn:E; [congruence|].
    intros _.
    assert (He : In e (flat_map frame_weapon_entry detections))
      by (rewrite E; left; reflexivity).
    apply in_flat_map in He. destruct He as [f [Hf He]].
    exists f. split; [exact Hf|]. apply frame_weapons_nonempty.
    unfold frame_weapon_entry in He. destruct (frame_weapons f); [destruct He | reflexivity].
  - intros [f [Hf Hw]] E. apply frame_weapons_nonempty in Hw.
    assert (He : In (mkWeaponFrame (frame_idx_of f) (frame f) (len (frame_weapons f))
                       (len (frame_persons f))
                       (map (fun w => (label w, conf w)) (frame_weapons f)))
                    (flat_map frame_weapon_entry detections)).
    { apply in_flat_map. exists f. split; [exact Hf|].
      unfold frame_weapon_entry. destruct (frame_weapons f); [discriminate|].
      left. reflexivity. }
    rewrite E in He. destruct He.
Qed.

Lemma py_min_lt a b t : py_min a b < t <-> a < t \/ b < t.
Proof.
  destruct (py_min_cases a b) as [[E L] | [E L]]; rewrite E; split; intro H.
  - left. exact H.
  - destruct H; lra.
  - right. exact H.
  - destruct H; lra.
Qed.

(** The running minimum is below [t] exactly when the seed or the distance
    to one of the persons is. *)
Lemma fold_min_lt (w : BBox) (ps : list Detection) (t : Q) :
  forall m0,
    fold_left (fun m q => py_min m (_calculate_bbox_distance_sq w (bbox q))) ps m0 < t <->
    m0 < t \/ exists q, In q ps /\ _calculate_bbox_distance_sq w (bbox q) < t.
Proof.
  induction ps as [|p ps IH]; intro m0; cbn [fold_left].
  - split; [auto|]. intros [H | [q [[] _]]]. exact H.
  - rewrite IH, py_min_lt. split.
    + intros [[H | H] | [q [Hq H]]]; [auto | |].
      * right. exists p. split; [left; reflexivity | exact H].
      * right. exists q. split; [right; exact Hq | exact H].
    + intros [H | [q [[<- | Hq] H]]]; [auto | auto |].
      right. exists q. auto.
Qed.

Lemma min_distance_lt (w : Detection) (persons : list Detection) (t : Q) :
  (exists m, min_distance_sq w persons = Some m /\ m < t) <->
  exists p, In p persons /\ _calculate_bbox_distance_sq (bbox w) (bbox p) < t.
Proof.
  unfold min_distance_sq. destruct persons as [|p ps].
  - split; [intros [m [E _]]; discriminate | intros [p [[] _]]].
  - split.
    + intros [m [E H]]. inversion E; subst m. apply fold_min_lt in H.
      destruct H as [H | [q [Hq H]]].
      * exists p. split; [left; reflexivity | exact H].
      * exists q. split; [right; exact Hq | exact H].
    + intros [q [Hq H]]. eexists. split; [reflexivity|].
      apply fold_min_lt. destruct Hq as [<- | Hq]; [left; exact H|].
      right. exists q. auto.
Qed.

(** An entry of [person_weapon_proximity] below [t * t] is a weapon and a
    person of one frame that close. *)
Lemma proximity_below detections t :
  (exists px, In px (flat_map frame_proximity detections) /\
              distance_lt (px_distance_sq px) t = true) <->
  weapon_within detections t.
Proof.
  unfold weapon_within, distance_lt. split.
  - intros [px [Hpx Hlt]]. apply Qltb_lt in Hlt.
    apply in_flat_map in Hpx. destruct Hpx as [f [Hf Hpx]].
    unfold frame_proximity in Hpx. apply in_flat_map in Hpx.
    destruct Hpx as [w [Hw Hpx]].
    destruct (min_distance_sq w (frame_persons f)) as [m|] eqn:Em; [|destruct Hpx].
    destruct Hpx as [<- | []]. cbn [px_distance_sq] in Hlt.
    destruct (proj1 (min_distance_lt w (frame_persons f) (t * t))) as [p [Hp Hd]];
      [exists m; auto|].
    apply filter_In in Hw. apply filter_In in Hp.
    exists f, w, p. tauto.
  - intros (f & w & p & Hf & Hw & Hp & Hwl & Hpl & Hd).
    assert (Hw' : In w (frame_weapons f)) by (apply filter_In; auto).
    assert (Hp' : In p (frame_persons f)) by (apply filter_In; auto).
    destruct (proj2 (min_distance_lt w (frame_persons f) (t * t))) as [m [Em Hm]];
      [exists p; auto|].
    exists (mkProximity (frame_idx_of f) m (label w)). split.
    + apply in_flat_map. exists f. split; [exact Hf|].
      unfold frame_proximity. apply in_flat_map. exists w. split; [exact Hw'|].
      rewrite Em. left. reflexivity.
    + apply Qltb_lt. exact Hm.
Qed.

Lemma proximity_count_pos detections t :
  (len (filter (fun p => distance_lt (px_distance_sq p) t)
          (flat_map frame_proximity detections)) >? 0)%Z = true <->
  weapon_within detections t.
Proof.
  rewrite len_pos_iff, filter_nonempty. apply proximity_below.
Qed.

Lemma weapon_actions_fields detections actions :
  nonempty (weapon_actions (analyze_weapon_threat detections actions)) = true <->
  weapon_action_seen actions.
Proof.
  unfold analyze_weapon_threat, weapon_action_seen. cbn [weapon_actions].
  rewrite nonempty_true. split.
  - destruct (flat_map _ (clip_actions actions)) as [|x xs] eqn:E; [congruence|].
    intros _.
    assert (Hx : In x (x :: xs)) by (left; reflexivity).
    rewrite <- E in Hx. apply in_collected in Hx.
    destruct Hx as (c & a & Hc & Ha & Hx). exists c, a.
    destruct (any_in weapon_keywords (lower (act_label a))); [auto | destruct Hx].
  - intros (c & a & Hc & Ha & Hk) E.
    assert (Hx : In (mkWeaponAction (act_label a) (prob a) (clip_index c) (clip_type c))
                    (flat_map
                       (fun ca : Clip * Action =>
                          let (clip, action) := ca in
                          if any_in weapon_keywords (lower (act_label action)) then
                            [ {| wa_action := act_label action;
                                 wa_confidence := prob action;
                                 wa_clip_index := clip_index clip;
                                 wa_clip_type := clip_type clip |} ]
                          else [])
                       (clip_actions actions))).
    { apply in_collected. exists c, a. rewrite Hk. repeat split; auto.
      left. reflexivity. }
    rewrite E in Hx. destruct Hx.
Qed.

(** C2 (amended).  [threat_level] is "none" whenever no frame holds a weapon
    object, whatever the actions are.  When some frame does, it is
    "critical" if a weapon and a person of one frame are less than 300 apart
    or an action label has a weapon keyword; otherwise "high" if such a pair
    is less than 500 apart or more than 2 frames hold a weapon; otherwise
    "medium".  [detected] says whether some frame holds a weapon. *)
Theorem weapon_threat_level_rule :
  forall (detections : list FrameInfo) (actions : list Clip),
    (wr_detected (analyze_weapon_threat detections actions) = true
       <-> weapon_seen detections) /\
    (~ weapon_seen detections ->
       threat_level (analyze_weapon_threat detections actions) = "none") /\
    (weapon_seen detections ->
       (weapon_within detections 300 \/ weapon_action_seen actions ->
          threat_level (analyze_weapon_threat detections actions) = "critical") /\
       (~ (weapon_within detections 300 \/ weapon_action_seen actions) ->
        weapon_within detections 500 \/ (weapon_frame_count detections > 2)%Z ->
          threat_level (analyze_weapon_threat detections actions) = "high") /\
       (~ (weapon_within detections 300 \/ weapon_action_seen actions) ->
        ~ (weapon_within detections 500 \/ (weapon_frame_count detections > 2)%Z) ->
          threat_level (analyze_weapon_threat detections actions) = "medium")).
Proof.
  intros detections actions.
  pose proof (weapon_actions_fields detections actions) as HA.
  pose proof (proximity_count_pos detections 300) as HC.
  pose proof (proximity_count_pos detections 500) as HM.
  pose proof (weapon_frames_nonempty detections) as HW.
  unfold analyze_weapon_threat in *.
  cbn [threat_level wr_detected weapon_actions] in *.
  unfold _calculate_threat_level.
  rewrite len_zero_iff, (len_pos_iff (flat_map frame_weapon_entry detections)).
  rewrite (len_pos_iff (flat_map _ (clip_actions actions))).
  rewrite weapon_frames_count.
  split; [exact HW|].
  split.
  - intro Hn. destruct (nonempty (flat_map frame_weapon_entry detections));
      [exfalso; apply Hn, HW; reflexivity | reflexivity].
  - intro Hs. apply HW in Hs. rewrite Hs. cbn [negb].
    split; [|split].
    + intros [H | H].
      * apply HC in H. rewrite H. reflexivity.
      * apply HA in H. rewrite H, orb_true_r. reflexivity.
    + intros Hn [H | H].
      * destruct (_ || _) eqn:E.
        { exfalso. apply Hn. apply orb_true_iff in E. destruct E as [E | E];
            [left; apply HC | right; apply HA]; exact E. }
        apply HM in H. rewrite H. reflexivity.
      * destruct (_ || _) eqn:E.
        { exfalso. apply Hn. apply orb_true_iff in E. destruct E as [E | E];
            [left; apply HC | right; apply HA]; exact E. }
        apply Z.gt_lt, Z.gtb_lt in H. rewrite H, orb_true_r. reflexivity.
    + intros Hn Hn'.
      destruct (_ || _) eqn:E.
      { exfalso. apply Hn. apply orb_true_iff in E. destruct E as [E | E];
          [left; apply HC | right; apply HA]; exact E. }
      clear E.
      destruct (_ || _) eqn:E'; [|reflexivity].
      exfalso. apply Hn'. apply orb_true_iff in E'. destruct E' as [E' | E'].
      * left. apply HM. exact E'.
      * right. apply Z.lt_gt, Z.gtb_lt. exact E'.
Qed.

(** A weapon action ("shooting goal (soccer)" has the keyword "shoot") while
    the only frame holds a person and no weapon: the level is "none", not
    "critical". *)

Lemma weapon_action_without_weapon_is_none :
  weapon_action_seen shooting_clip /\
  weapon_frames (analyze_weapon_threat person_only shooting_clip) = [] /\
  weapon_actions (analyze_weapon_threat person_only shooting_clip)
    = [ mkWeaponAction "shooting goal (soccer)" 0.5 (Some 0%Z) (Some "middle") ] /\
  threat_level (analyze_weapon_threat person_only shooting_clip) = "none" /\
  threat_level (analyze_weapon_threat person_only shooting_clip) <> "critical".
Proof.
  split.
  - exists (mkClip (Some 0%Z) (Some "middle") [ mkAction "shooting goal (soccer)" 0.5 ]),
      (mkAction "shooting goal (soccer)" 0.5).
    repeat split; left; reflexivity.
  - repeat split; vm_compute; congruence.
Qed.

Lemma weapon_threat_level_rule_witness :
  weapon_seen knife_and_person /\
  weapon_within knife_and_person 300 /\
  threat_level (analyze_weapon_threat knife_and_person []) = "critical".
Proof.
  assert (Hs : weapon_seen knife_and_person).
  { eexists. split; [left; reflexivity|].
    eexists. split; [left; reflexivity | reflexivity]. }
  assert (Hw : weapon_within knife_and_person 300).
  { eexists. exists (mkDetection "knife" 0.5 (mkBBox 0 0 10 10)),
      (mkDetection "person" 0.9 (mkBBox 50 0 60 10)).
    split; [left; reflexivity|]. split; [left; reflexivity|].
    split; [right; left; reflexivity|]. repeat split. }
  split; [exact Hs|]. split; [exact Hw|].
  exact (proj1 (proj2 (proj2 (weapon_threat_level_rule
                                knife_and_person [])) Hs)
           (or_introl Hw)).
Defined.

End WeaponProps.

(* ================================================================== *)
(** * Motion analysis: guards and chase sequences *)

Module MotionProps.
Import MotionAnalyzer Models Spec Samples.

(** ** The insufficient-frames guards *)

(** One score per decodable frame after the first. *)
Lemma scan_loop_scores files :
  forall idx st,
    List.length (motion_scores (scan_loop files idx st)) =
    (List.length (motion_scores st) +
     match prev_frame st with
     | Some _ => decodable files
     | None => pred (decodable files)
     end)%nat.
Proof.
  unfold decodable.
  induction files as [|file files IH]; intros idx st; cbn [scan_loop filter].
  - cbn. destruct (prev_frame st); lia.
  - rewrite IH. destruct file as [current|]; cbn [scan_step].
    + destruct (prev_frame st) as [prev|]; cbn [motion_scores prev_frame List.length].
      * rewrite length_app. cbn [List.length]. lia.
      * lia.
    + reflexivity.
Qed.

Lemma decodable_le_length files : (decodable files <= List.length files)%nat.
Proof. unfold decodable. apply filter_length_le. Qed.

Lemma motion_analyzed_iff frames :
  analyzed (analyze_motion_patterns frames) = (2 <=? decodable (firstn 50 frames))%nat.
Proof.
  unfold analyze_motion_patterns.
  pose proof (scan_loop_scores (firstn 50 frames) 0
                {| motion_scores := []; sudden_movements := []; prev_frame := None |}) as L.
  cbn [motion_scores prev_frame List.length Nat.add] in L.
  pose proof (decodable_le_length (firstn 50 frames)) as D.
  rewrite length_firstn in D.
  destruct (len frames <? 2)%Z eqn:E.
  - apply Z.ltb_lt in E. unfold len in E. cbn [analyzed].
    symmetry. apply Nat.leb_gt. lia.
  - destruct (motion_scores (scan_loop (firstn 50 frames) 0 _)) as [|s0 ss];
      cbn [List.length analyzed] in *; symmetry.
    + apply Nat.leb_gt. lia.
    + apply Nat.leb_le. lia.
Qed.

(** C4 (amended).  With fewer than 8 frames [run_action_recognition] returns
    its empty, insufficient-frames result.  [analyze_motion_patterns]
    returns a result with [analyzed = False] (reason "Insufficient frames")
    for fewer than 2 frames, not 8: its result has [analyzed = True] exactly
    when at least two of the first 50 frames decode, so also for a list of
    fewer than 8 frames of which at least two decode. *)
Theorem insufficient_frames_results :
  forall frames : list FrameFile,
    (forall (Path : Type) (clip_loop : list Path -> list Clip) (paths : list Path),
       (len paths < 8)%Z -> run_action_recognition Path clip_loop paths = []) /\
    ((len frames < 2)%Z ->
       analyze_motion_patterns frames = NotAnalyzed "Insufficient frames") /\
    analyzed (analyze_motion_patterns frames) = (2 <=? decodable (firstn 50 frames))%nat /\
    ((len frames < 8)%Z -> (2 <= decodable frames)%nat ->
       analyzed (analyze_motion_patterns frames) = true).
Proof.
  intro frames. split; [|split; [|split]].
  - intros Path clip_loop paths H. unfold run_action_recognition.
    destruct (nonempty paths); [|reflexivity]. cbn [negb].
    apply Z.ltb_lt in H. rewrite H. reflexivity.
  - intro H. unfold analyze_motion_patterns. apply Z.ltb_lt in H. rewrite H. reflexivity.
  - apply motion_analyzed_iff.
  - intros H8 H. rewrite motion_analyzed_iff. apply Nat.leb_le.
    unfold len in H8. rewrite firstn_all2 by lia. exact H.
Qed.

(** Two readable frames (320 x 240, all black): fewer than 8, and the
    motion analysis ran. *)

Lemma motion_analyzed_with_two_frames :
  (len [Some black_frame; Some black_frame] < 8)%Z /\
  analyzed (analyze_motion_patterns [Some black_frame; Some black_frame]) = true /\
  analyzed (analyze_motion_patterns [Some black_frame; Some black_frame]) <> false.
Proof. repeat split; vm_compute; congruence. Qed.

Lemma insufficient_frames_results_witness :
  (len [Some black_frame] < 2)%Z /\
  analyze_motion_patterns [Some black_frame] = NotAnalyzed "Insufficient frames".
Proof.
  assert (H : (len [Some black_frame] < 2)%Z) by reflexivity.
  split; [exact H|].
  exact (proj1 (proj2 (insufficient_frames_results [Some black_frame])) H).
Defined.

(** ** Chase sequences *)

Section Chase.

Variable scores : list Q.

Lemma above_not_above i : above scores i -> not_above scores i -> False.
Proof.
  intros [v [E H]] [v' [E' H']]. rewrite E in E'. inversion E'; subst. lra.
Qed.

Lemma not_above_lt i : not_above scores i -> (i < List.length scores)%nat.
Proof.
  intros [v [E _]]. apply nth_error_Some. congruence.
Qed.

Lemma run_end_le s d : is_maximal_run scores s d -> (s + d <= List.length scores)%nat.
Proof.
  intros (_ & _ & _ & [E | E]); [lia|]. apply not_above_lt in E. lia.
Qed.

(** A maximal run that ends where the loop stands is the run in progress. *)
Lemma run_in_progress n st s d :
  chase_inv scores n st -> is_maximal_run scores s d -> (s + d = n)%nat ->
  in_chase st = true /\ s = chase_start st /\ d = chase_duration st.
Proof.
  intros I (Hd & Hab & Hs & He) Hn.
  destruct (in_chase st) eqn:Ein.
  - destruct (inv_in scores n st I Ein) as (Hcd & Hcn & Hcab & Hcs).
    split; [reflexivity|].
    assert (s = chase_start st); [|lia].
    destruct (Nat.lt_trichotomy s (chase_start st)) as [L | [L | L]]; [|exact L|].
    + exfalso. destruct Hcs as [Hcs | Hcs]; [lia|].
      apply (above_not_above (chase_start st - 1)); [|exact Hcs].
      apply Hab. lia.
    + exfalso. destruct Hs as [Hs | Hs]; [lia|].
      apply (above_not_above (s - 1)); [|exact Hs].
      apply Hcab. lia.
  - exfalso. destruct (inv_out scores n st I Ein) as [H0 | H0]; [lia|].
    apply (above_not_above (n - 1)); [|exact H0].
    apply Hab. lia.
Qed.

Lemma chase_entry_eq c :
  avg_intensity c
    = mean (slice scores (start_frame c) (start_frame c + duration_frames c)) ->
  c = chase_entry scores (start_frame c) (duration_frames c).
Proof.
  destruct c as [s d a]. cbn. intros ->. reflexivity.
Qed.

(** Closing the run in progress at position [n]. *)
Lemma flush_spec n st :
  chase_inv scores n st -> ends_run scores n ->
  (forall c, In c (flush scores st) <->
             records scores c /\ (start_frame c + duration_frames c <= n)%nat) /\
  NoDup (map start_frame (flush scores st)).
Proof.
  intros I He. unfold flush.
  destruct (in_chase st && (3 <=? chase_duration st)%nat) eqn:Eb.
  - apply andb_true_iff in Eb. destruct Eb as [Ein Ed]. apply Nat.leb_le in Ed.
    destruct (inv_in scores n st I Ein) as (Hcd & Hcn & Hcab & Hcs).
    assert (Hrun : is_maximal_run scores (chase_start st) (chase_duration st)).
    { repeat split; [exact Hcd | | exact Hcs | rewrite Hcn; exact He].
      intros i Hi. apply Hcab. lia. }
    split.
    + intro c. rewrite in_app_iff, (inv_seqs scores n st I). split.
      * intros [[Hr Hlt] | [<- | []]]; [split; [exact Hr | lia]|].
        cbn [chase_entry start_frame duration_frames avg_intensity].
        split; [|lia]. repeat split; solve [apply Hrun | exact Ed].
      * intros [Hr Hle].
        destruct (Nat.eq_dec (start_frame c + duration_frames c) n) as [E | E];
          [|left; split; [exact Hr | lia]].
        right. left.
        destruct (run_in_progress n st _ _ I (proj1 Hr) E) as (_ & Es & Edur).
        rewrite (chase_entry_eq c (proj2 (proj2 Hr))), Es, Edur. reflexivity.
    + rewrite map_app. apply NoDup_app.
      * apply (inv_nodup scores n st I).
      * cbn. constructor; [intros []|constructor].
      * intros s Hs [<- | []]. apply in_map_iff in Hs.
        destruct Hs as [c [Ec Hc]]. apply (inv_seqs scores n st I) in Hc.
        destruct Hc as [((_ & _ & _ & Hend) & _) Hlt].
        cbn [chase_entry start_frame] in Ec.
        pose proof (inv_bound scores n st I).
        destruct Hend as [Hend | Hend]; [lia|].
        apply (above_not_above (start_frame c + duration_frames c)); [|exact Hend].
        apply Hcab. lia.
  - split; [|apply (inv_nodup scores n st I)].
    intro c. rewrite (inv_seqs scores n st I). split.
    + intros [Hr Hlt]. split; [exact Hr | lia].
    + intros [Hr Hle]. split; [exact Hr|].
      destruct (Nat.eq_dec (start_frame c + duration_frames c) n) as [E | E]; [|lia].
      exfalso.
      destruct (run_in_progress n st _ _ I (proj1 Hr) E) as (Ein & _ & Edur).
      rewrite Ein in Eb. cbn [andb] in Eb. apply Nat.leb_gt in Eb.
      destruct Hr as (_ & H3 & _). lia.
Qed.

Lemma chase_inv_init :
  chase_inv scores 0
    {| chase_sequences := []; in_chase := false; chase_start := 0; chase_duration := 0 |}.
Proof.
  constructor; cbn.
  - lia.
  - intro c. split; [intros [] | intros [_ H]; lia].
  - constructor.
  - discriminate.
  - intros _. left. reflexivity.
Qed.

(** One iteration keeps the invariant. *)
Lemma chase_inv_step n st v :
  chase_inv scores n st -> nth_error scores n = Some v ->
  chase_inv scores (S n) (chase_step scores st n v).
Proof.
  intros I Ev.
  assert (Hn : (n < List.length scores)%nat) by (apply nth_error_Some; congruence).
  unfold chase_step. destruct (Qltb 35 v) eqn:Eq.
  - apply Qltb_lt in Eq.
    assert (Ha : above scores n) by (exists v; auto).
    assert (Hseqs : forall c,
               In c (chase_sequences st) <->
               records scores c /\ (start_frame c + duration_frames c < S n)%nat).
    { intro c. rewrite (inv_seqs scores n st I). split.
      - intros [Hr Hlt]. split; [exact Hr | lia].
      - intros [Hr Hlt]. split; [exact Hr|].
        destruct (Nat.eq_dec (start_frame c + duration_frames c) n) as [E | E]; [|lia].
        exfalso. destruct Hr as ((_ & _ & _ & Hend) & _). rewrite E in Hend.
        destruct Hend as [Hend | Hend]; [lia|].
        apply (above_not_above n Ha Hend). }
    destruct (in_chase st) eqn:Ein; cbn [negb]; constructor;
      cbn [chase_sequences in_chase chase_start chase_duration];
      try exact Hseqs; try apply (inv_nodup scores n st I); try lia; try discriminate.
    + intros _. destruct (inv_in scores n st I Ein) as (Hcd & Hcn & Hcab & Hcs).
      repeat split; [lia | lia | | exact Hcs].
      intros i Hi. destruct (Nat.eq_dec i n) as [-> | Hne]; [exact Ha|].
      apply Hcab. lia.
    + intros _. repeat split; [lia | lia | | apply (inv_out scores n st I Ein)].
      intros i Hi. replace i with n by lia. exact Ha.
  - apply Qltb_ge in Eq.
    assert (Hna : not_above scores n) by (exists v; auto).
    destruct (flush_spec n st I (or_intror Hna)) as [Hin Hnd].
    unfold flush in Hin, Hnd.
    constructor; cbn [chase_sequences in_chase chase_start chase_duration].
    + lia.
    + intro c. rewrite Hin. split; intros [Hr Hl]; (split; [exact Hr | lia]).
    + exact Hnd.
    + discriminate.
    + intros _. right. replace (S n - 1)%nat with n by lia. exact Hna.
Qed.

(** The loop keeps the invariant up to the end of the list. *)
Lemma chase_inv_loop rest :
  forall pre st,
    scores = pre ++ rest ->
    chase_inv scores (List.length pre) st ->
    chase_inv scores (List.length scores) (chase_loop scores rest (List.length pre) st).
Proof.
  induction rest as [|v rest IH]; intros pre st E I; cbn [chase_loop].
  - assert (L : List.length scores = List.length pre)
      by (rewrite E, app_nil_r; reflexivity).
    rewrite L. exact I.
  - assert (Ev : nth_error scores (List.length pre) = Some v).
    { rewrite E, nth_error_app2, Nat.sub_diag by lia. reflexivity. }
    specialize (IH (pre ++ [v]) (chase_step scores st (List.length pre) v)).
    rewrite length_app in IH. cbn [List.length] in IH. rewrite Nat.add_1_r in IH.
    apply IH.
    + rewrite <- app_assoc. exact E.
    + apply chase_inv_step; assumption.
Qed.

End Chase.

(** The slice the code takes is the list of the scores within the run. *)
Lemma firstn_skipn_run_scores (xs : list Q) :
  forall s d,
    (s + d <= List.length xs)%nat ->
    firstn d (skipn s xs) = run_scores xs s d.
Proof.
  unfold run_scores. induction xs as [|x xs IH]; intros s d H.
  - cbn [List.length] in H. assert (s = 0%nat) by lia. assert (d = 0%nat) by lia.
    subst. reflexivity.
  - destruct s as [|s].
    + destruct d as [|d]; [reflexivity|].
      cbn [skipn firstn seq map nth]. f_equal.
      specialize (IH 0%nat d). cbn [skipn] in IH. rewrite IH by (cbn in H; lia).
      rewrite <- seq_shift, map_map. reflexivity.
    + cbn [skipn]. rewrite IH by (cbn in H; lia).
      rewrite <- (seq_shift d s), map_map. reflexivity.
Qed.

Lemma slice_run_scores (xs : list Q) s d :
  (s + d <= List.length xs)%nat -> slice xs s (s + d) = run_scores xs s d.
Proof.
  intro H. unfold slice. replace (s + d - s)%nat with d by lia.
  apply firstn_skipn_run_scores. exact H.
Qed.

(** C8.  For every list of motion scores, the chase sequences returned are
    exactly the records of the maximal runs of at least 3 consecutive scores
    above 35, a run that reaches the end of the list included: each carries
    the run's start position, its length and the mean of the scores within
    the run (those at positions start, ..., start + length - 1), and no two
    sequences start at the same position, so there is one per run. *)
Theorem chase_sequences_are_maximal_runs :
  forall motion_scores : list Q,
    (forall c : ChaseSequence,
       In c (_detect_chase_sequences motion_scores) <->
       is_maximal_run motion_scores (start_frame c) (duration_frames c) /\
       (3 <= duration_frames c)%nat /\
       avg_intensity c
         = mean (run_scores motion_scores (start_frame c) (duration_frames c))) /\
    (forall s d : nat,
       is_maximal_run motion_scores s d -> (3 <= d)%nat ->
       In (mkChase s d (mean (run_scores motion_scores s d)))
          (_detect_chase_sequences motion_scores)) /\
    NoDup (map start_frame (_detect_chase_sequences motion_scores)).
Proof.
  intro motion_scores.
  pose proof (chase_inv_loop motion_scores motion_scores [] _ eq_refl
                (chase_inv_init motion_scores)) as I.
  cbn [List.length] in I.
  destruct (flush_spec motion_scores _ _ I (or_introl eq_refl)) as [Hin Hnd].
  assert (Hiff : forall c,
             In c (_detect_chase_sequences motion_scores) <->
             is_maximal_run motion_scores (start_frame c) (duration_frames c) /\
             (3 <= duration_frames c)%nat /\
             avg_intensity c
               = mean (run_scores motion_scores (start_frame c) (duration_frames c))).
  { intro c. unfold _detect_chase_sequences. cbv zeta.
    unfold flush in Hin. rewrite Hin. unfold records. split.
    - intros [(Hr & Hd & Ea) _]. split; [exact Hr|]. split; [exact Hd|].
      rewrite <- slice_run_scores by (apply run_end_le; exact Hr). exact Ea.
    - intros (Hr & Hd & Ea). pose proof (run_end_le motion_scores _ _ Hr) as Hle.
      split; [|exact Hle]. split; [exact Hr|]. split; [exact Hd|].
      rewrite slice_run_scores by exact Hle. exact Ea. }
  split; [exact Hiff|]. split; [|exact Hnd].
  intros s d Hr Hd. apply Hiff. repeat split; solve [apply Hr | exact Hd].
Qed.

(** Two runs, of 3 and of 4 scores: the second one, at positions 7 to 10,
    is recorded with the mean 60 of its four scores. *)
Lemma chase_sequences_are_maximal_runs_witness :
  is_maximal_run [36; 40; 50; 10; 36; 36; 35; 60; 60; 60; 60] 7 4 /\
  exists c,
    In c (_detect_chase_sequences [36; 40; 50; 10; 36; 36; 35; 60; 60; 60; 60]) /\
    start_frame c = 7%nat /\ duration_frames c = 4%nat /\
    run_scores [36; 40; 50; 10; 36; 36; 35; 60; 60; 60; 60] 7 4 = [60; 60; 60; 60] /\
    avg_intensity c == 60.
Proof.
  assert (Hr : is_maximal_run [36; 40; 50; 10; 36; 36; 35; 60; 60; 60; 60] 7 4).
  { split; [lia|]. split; [|split].
    - intros i Hi.
      assert (C : i = 7%nat \/ i = 8%nat \/ i = 9%nat \/ i = 10%nat) by lia.
      destruct C as [-> | [-> | [-> | ->]]]; eexists; (split; [reflexivity|]);
        reflexivity.
    - right. eexists. split; [reflexivity|]. discriminate.
    - left. reflexivity. }
  split; [exact Hr|].
  exists (mkChase 7 4
            (mean (run_scores [36; 40; 50; 10; 36; 36; 35; 60; 60; 60; 60] 7 4))).
  split.
  - apply (proj1 (proj2 (chase_sequences_are_maximal_runs
                           [36; 40; 50; 10; 36; 36; 35; 60; 60; 60; 60])) 7%nat 4%nat Hr).
    lia.
  - repeat split; reflexivity.
Defined.

End MotionProps.

(* ================================================================== *)
(** * Detection filter and non-maximum suppression *)

Module DetectionProps.
Import Models Spec Samples.

(** ** The confidence filter *)

Lemma filter_keeps_iff frame_objects min_confidence obj :
  In obj (_filter_detections_by_confidence frame_objects min_confidence) <->
  In obj frame_objects /\
  category_threshold (lower (label obj)) min_confidence <= conf obj.
Proof.
  unfold _filter_detections_by_confidence, passes_threshold.
  rewrite filter_In, Qleb_le. reflexivity.
Qed.

(** ** Intersection over union is symmetric *)


Lemma np_minimum_compat a a' b b' :
  a == a' -> b == b' -> np_minimum a b == np_minimum a' b'.
Proof.
  intros Ea Eb. unfold np_minimum.
  destruct (Qltb b a) eqn:E, (Qltb b' a') eqn:E';
    try apply Qltb_lt in E; try apply Qltb_ge in E;
    try apply Qltb_lt in E'; try apply Qltb_ge in E'; lra.
Qed.




Lemma intersection_nonneg bi bj : 0 <= intersection bi bj.
Proof.
  unfold intersection. cbv zeta. apply Qmult_le_0_compat;
    unfold np_maximum; destruct (Qltb 0.0 _) eqn:E;
    try apply Qltb_lt in E; lra.
Qed.



(** ** The suppression loop *)

Lemma insert_by_conf_in x y l : In x (insert_by_conf y l) <-> x = y \/ In x l.
Proof.
  induction l as [|z l IH]; cbn [insert_by_conf].
  - cbn. intuition congruence.
  - destruct (Qltb (conf z) (conf y)); cbn [In]; [rewrite IH|]; intuition congruence.
Qed.

Lemma argsort_descending_in x frame_objects :
  In x (argsort_descending frame_objects) <-> In x frame_objects.
Proof.
  unfold argsort_descending. rewrite <- in_rev.
  induction frame_objects as [|y l IH]; cbn [fold_right]; [reflexivity|].
  rewrite insert_by_conf_in, IH. cbn. intuition congruence.
Qed.

(** Whatever the loop keeps was in [order]. *)
Lemma nms_loop_incl thr order x : In x (nms_loop thr order) -> In x order.
Proof.
  funelim (nms_loop thr order); simp nms_loop; try (intros []; fail).
  intros [<- | Hx]; [left; reflexivity|]. right.
  match goal with IH : forall x, In x _ -> In x (filter _ _) |- _ => apply IH in Hx end.
  apply filter_In in Hx. apply Hx.
Qed.



Lemma apply_nms_incl frame_objects thr x :
  In x (_apply_nms frame_objects thr) -> In x frame_objects.
Proof.
  unfold _apply_nms. destruct (nonempty frame_objects); cbn [negb]; [|intros []].
  intro H. apply nms_loop_incl in H. apply argsort_descending_in. exact H.
Qed.


(** Five boxes of one frame: the second overlaps the first too much, the
    last two are degenerate. *)

Example postprocess_six_boxes :
  postprocess_frame six_boxes
  = [ mkDetection "person" 0.9 (mkBBox 1 1 11 11);
      mkDetection "dog" 0.3 (mkBBox 20 20 30 30);
      mkDetection "person" 0.2 (mkBBox 0 0 0 0) ].
Proof. reflexivity. Qed.

End DetectionProps.

(* ================================================================== *)
(** * Further properties of the crime analyzer *)

Module AnalyzerProps.
Import CrimePatternAnalyzer Spec Samples.
Import AggregatorProps TheftProps WeaponProps.

(** ** Shared facts *)

Lemma lower_ascii_idempotent c : lower_ascii (lower_ascii c) = lower_ascii c.
Proof. destruct c as [[] [] [] [] [] [] [] []]; reflexivity. Qed.

Lemma lower_idempotent s : lower (lower s) = lower s.
Proof.
  induction s as [|c s IH]; [reflexivity|].
  cbn [lower]. rewrite lower_ascii_idempotent, IH. reflexivity.
Qed.

Lemma mean_bounds lo hi xs :
  xs <> [] -> (forall x, In x xs -> lo <= x <= hi) -> lo <= mean xs <= hi.
Proof.
  intros Hne H. unfold mean.
  pose proof (Qlen_pos xs Hne) as P.
  pose proof (Qsum_bounds lo hi xs H) as [B1 B2].
  split.
  - apply Qle_shift_div_l; lra.
  - apply Qle_shift_div_r; lra.
Qed.

Lemma float_le a b : (a <= b)%Z -> float a <= float b.
Proof. intro H. unfold float. rewrite <- Zle_Qle. exact H. Qed.

Lemma float_lt a b : (a < b)%Z <-> float a < float b.
Proof. unfold float. rewrite <- Zlt_Qlt. reflexivity. Qed.

Lemma ratio_in_unit a b : (0 <= a <= b)%Z -> 0 <= float a / float (Z.max 1 b) <= 1.
Proof.
  intros [Ha Hb].
  assert (H1 : 1 <= float (Z.max 1 b)) by (apply (float_le 1); lia).
  assert (H0 : 0 <= float a) by (apply (float_le 0); exact Ha).
  assert (Hab : float a <= float (Z.max 1 b)) by (apply float_le; lia).
  split.
  - apply Qle_shift_div_l; lra.
  - apply Qle_shift_div_r; lra.
Qed.

Lemma len_filter_le {A} (g : A -> bool) (l : list A) : (0 <= len (filter g l) <= len l)%Z.
Proof. unfold len. pose proof (filter_length_le g l). lia. Qed.

(** The fields of the violence report, from the matches. *)
Lemma violence_report_fields actions detections :
  let r := analyze_violence_intensity actions detections in
  violent_actions r = sorted_by_intensity (violent_matches actions) /\
  vr_detected r = nonempty (violent_matches actions) /\
  violence_score r
    = _calculate_violence_score (violent_matches actions)
        (len (filter (fun f => (person_count_of (objects f) >=? 2)%Z) detections))
        (len detections).
Proof.
  cbv zeta. unfold analyze_violence_intensity, violent_matches.
  cbn [violent_actions vr_detected violence_score].
  rewrite len_pos_iff. repeat split.
Qed.

Lemma intensity_bounds l p :
  0 <= p -> 0 <= _calculate_violence_intensity l p <= Qmax 1 p.
Proof.
  intro Hp. unfold _calculate_violence_intensity.
  pose proof (Q.le_max_l 1 p). pose proof (Q.le_max_r 1 p).
  destruct (any_in extreme_violence (lower l));
    [|destruct (any_in high_violence (lower l));
      [|destruct (any_in medium_violence (lower l))]];
    try (match goal with |- context [py_min ?a ?b] =>
           destruct (py_min_cases a b) as [[E L] | [E L]]; rewrite E end);
    split; lra.
Qed.

Lemma violent_match_source actions v :
  In v (violent_matches actions) ->
  exists c a,
    In c actions /\ In a (top_actions c) /\
    any_in violence_keywords (lower (act_label a)) = true /\
    va_action v = act_label a /\ va_confidence v = prob a /\
    va_intensity v = _calculate_violence_intensity (lower (act_label a)) (prob a).
Proof.
  unfold violent_matches. intro H. apply in_collected in H.
  destruct H as (c & a & Hc & Ha & Hx). exists c, a.
  destruct (any_in violence_keywords (lower (act_label a))); [|destruct Hx].
  destruct Hx as [<- | []]. repeat split; assumption.
Qed.

(** X1.  The violence score.  With action probabilities in [0,1] the score
    lies in [0,1]; it is 0 when no prediction has a violence keyword, and at
    least 0.06 as soon as one has. *)
Theorem violence_score_range :
  forall (actions : list Clip) (detections : list FrameInfo),
    probs_in_unit actions ->
    0 <= violence_score (analyze_violence_intensity actions detections) <= 1 /\
    (vr_detected (analyze_violence_intensity actions detections) = false ->
       violence_score (analyze_violence_intensity actions detections) == 0) /\
    (vr_detected (analyze_violence_intensity actions detections) = true ->
       0.06 <= violence_score (analyze_violence_intensity actions detections)).
Proof.
  intros actions detections Hp.
  destruct (violence_report_fields actions detections) as (_ & -> & ->).
  set (vs := violent_matches actions).
  set (mp := len (filter _ detections)).
  unfold _calculate_violence_score.
  destruct (nonempty vs) eqn:Ene; cbn [negb].
  - assert (Hne : map va_intensity vs <> []).
    { destruct vs; [discriminate|]. discriminate. }
    assert (Hi : forall x, In x (map va_intensity vs) -> 0 <= x <= 1).
    { intros x Hx. apply in_map_iff in Hx. destruct Hx as [v [<- Hv]].
      apply violent_match_source in Hv.
      destruct Hv as (c & a & Hc & Ha & _ & _ & _ & ->).
      destruct (Hp c a Hc Ha) as [P0 P1].
      pose proof (intensity_bounds (lower (act_label a)) (prob a) P0) as [B0 B1].
      rewrite Q.max_l in B1 by exact P1. auto. }
    pose proof (mean_bounds 0 1 _ Hne Hi) as [M0 M1].
    assert (Hmp : 0 <= float mp / float (Z.max 1 (len detections)) <= 1)
      by (apply ratio_in_unit; apply len_filter_le).
    assert (Hk : 0.2 <= py_min 1.0 (float (len vs) * 0.2)).
    { assert (1 <= float (len vs)).
      { apply (float_le 1). destruct vs; [discriminate|]. unfold len. cbn. lia. }
      destruct (py_min_cases 1.0 (float (len vs) * 0.2)) as [[E L] | [E L]];
        rewrite E; lra. }
    set (s := mean (map va_intensity vs) * 0.5
              + py_min 1.0 (float (len vs) * 0.2) * 0.3
              + float mp / float (Z.max 1 (len detections)) * 0.2) in *.
    assert (Hs : 0.06 <= s) by (unfold s; lra).
    destruct (py_min_cases 1.0 s) as [[E L] | [E L]]; rewrite E;
      (split; [lra|]); (split; [discriminate | intros _; lra]).
  - split; [lra|]. split; [reflexivity | discriminate].
Qed.

Lemma five_chokes_in_unit : probs_in_unit five_chokes.
Proof.
  intros c a [<- | []] Ha. cbn [top_actions] in Ha.
  apply repeat_spec in Ha. subst a. cbn. lra.
Qed.

Lemma violence_score_range_witness :
  probs_in_unit five_chokes /\
  0 <= violence_score (analyze_violence_intensity five_chokes frames_9_of_19) <= 1.
Proof.
  split; [exact five_chokes_in_unit|].
  exact (proj1 (violence_score_range five_chokes frames_9_of_19 five_chokes_in_unit)).
Defined.

(** ** The indicator list *)

(** Where an indicator of a report comes from. *)
Lemma indicator_cases w v t s ind :
  In ind (indicators_of w v t s) ->
  (wr_detected w = true /\ ind = mkIndicator "weapon_threat" (threat_level w) 0.9) \/
  (vr_detected v = true /\ 0.5 < violence_score v /\
   ind = mkIndicator "violent_assault" (intensity_level v) (violence_score v)) \/
  (tr_detected t = true /\ 0.4 < theft_probability t /\
   ind = mkIndicator "theft_or_robbery"
           (if Qltb 0.7 (theft_probability t) then "high" else "medium")
           (theft_probability t)) \/
  (sr_detected s = true /\ 0.5 < sr_suspicion_score s /\
   ind = mkIndicator "suspicious_activity" "medium" (sr_suspicion_score s)).
Proof.
  unfold indicators_of. rewrite !in_app_iff. intros [H | [H | [H | H]]].
  - left. destruct (wr_detected w); [|destruct H].
    destruct H as [<- | []]. auto.
  - right. left. destruct (vr_detected v); cbn [andb] in H; [|destruct H].
    destruct (Qltb 0.5 (violence_score v)) eqn:E; [|destruct H].
    apply Qltb_lt in E. destruct H as [<- | []]. auto.
  - right. right. left. destruct (tr_detected t); cbn [andb] in H; [|destruct H].
    destruct (Qltb 0.4 (theft_probability t)) eqn:E; [|destruct H].
    apply Qltb_lt in E. destruct H as [<- | []]. auto.
  - right. right. right. destruct (sr_detected s); cbn [andb] in H; [|destruct H].
    destruct (Qltb 0.5 (sr_suspicion_score s)) eqn:E; [|destruct H].
    apply Qltb_lt in E. destruct H as [<- | []]. auto.
Qed.

Lemma theft_indicator_in w v t s :
  tr_detected t = true -> 0.4 < theft_probability t ->
  In (mkIndicator "theft_or_robbery"
        (if Qltb 0.7 (theft_probability t) then "high" else "medium")
        (theft_probability t))
     (indicators_of w v t s).
Proof.
  intros Hd Hp. unfold indicators_of. rewrite !in_app_iff.
  right. right. left. rewrite Hd. apply Qltb_lt in Hp. rewrite Hp.
  left. reflexivity.
Qed.

Lemma suspicious_indicator_in w v t s :
  sr_detected s = true -> 0.5 < sr_suspicion_score s ->
  In (mkIndicator "suspicious_activity" "medium" (sr_suspicion_score s))
     (indicators_of w v t s).
Proof.
  intros Hd Hp. unfold indicators_of. rewrite !in_app_iff.
  right. right. right. rewrite Hd. apply Qltb_lt in Hp. rewrite Hp.
  left. reflexivity.
Qed.

(** X2.  The violence indicator.  An indicator of type "violent_assault" in a
    report carries the violence score, which is above 0.5, and its severity
    is "extreme" or "high", never "moderate" or "low". *)
Theorem violent_indicator_severity :
  forall (detections : list FrameInfo) (actions : list Clip) (ind : CrimeIndicator),
    In ind (crime_indicators (generate_crime_report detections actions)) ->
    ind_type ind = "violent_assault" ->
    ind_confidence ind
      = violence_score (violence_analysis (generate_crime_report detections actions)) /\
    0.5 < ind_confidence ind /\
    (ind_severity ind = "extreme" \/ ind_severity ind = "high").
Proof.
  intros detections actions ind Hin Ht.
  unfold generate_crime_report in *. cbn [crime_indicators violence_analysis] in *.
  apply indicator_cases in Hin.
  destruct Hin as [[_ ->] | [(_ & Hs & ->) | [(_ & _ & ->) | (_ & _ & ->)]]];
    cbn [ind_type] in Ht; try discriminate Ht.
  cbn [ind_confidence ind_severity]. split; [reflexivity|]. split; [exact Hs|].
  unfold analyze_violence_intensity in *. cbn [intensity_level violence_score] in *.
  unfold _get_intensity_level.
  destruct (Qltb 0.6 _) eqn:E; [left; reflexivity|]. right.
  match goal with |- (if Qltb 0.35 ?x then _ else _) = _ =>
    replace (Qltb 0.35 x) with true; [reflexivity|] end.
  symmetry. apply Qltb_lt. lra.
Qed.

Lemma violent_indicator_severity_witness :
  In (mkIndicator "violent_assault" "extreme"
        (violence_score (analyze_violence_intensity five_chokes frames_9_of_19)))
     (crime_indicators (generate_crime_report frames_9_of_19 five_chokes)) /\
  0.5 < violence_score (analyze_violence_intensity five_chokes frames_9_of_19).
Proof.
  assert (H : In (mkIndicator "violent_assault" "extreme"
                    (violence_score (analyze_violence_intensity five_chokes frames_9_of_19)))
                 (crime_indicators (generate_crime_report frames_9_of_19 five_chokes))).
  { rewrite (proj1 report_with_max_085). left. reflexivity. }
  split; [exact H|].
  exact (proj1 (proj2 (violent_indicator_severity frames_9_of_19 five_chokes _ H eq_refl))).
Defined.

(** ** The sorted violent actions *)

Lemma insert_by_intensity_perm x l : Permutation (x :: l) (insert_by_intensity x l).
Proof.
  induction l as [|y l IH]; cbn [insert_by_intensity]; [reflexivity|].
  destruct (Qltb (va_intensity x) (va_intensity y)); [|reflexivity].
  rewrite perm_swap. apply perm_skip. exact IH.
Qed.

Lemma sorted_by_intensity_perm l : Permutation l (sorted_by_intensity l).
Proof.
  unfold sorted_by_intensity. induction l as [|x l IH]; cbn [fold_right]; [reflexivity|].
  rewrite <- insert_by_intensity_perm. apply perm_skip. exact IH.
Qed.

Lemma insert_by_intensity_sorted x l :
  Sorted (fun a b => va_intensity b <= va_intensity a) l ->
  Sorted (fun a b => va_intensity b <= va_intensity a) (insert_by_intensity x l).
Proof.
  induction 1 as [|y l Hl IH Hy]; cbn [insert_by_intensity].
  - repeat constructor.
  - destruct (Qltb (va_intensity x) (va_intensity y)) eqn:E.
    + apply Qltb_lt in E. constructor; [exact IH|].
      destruct l as [|z l]; cbn [insert_by_intensity].
      * constructor. lra.
      * inversion Hy; subst.
        destruct (Qltb (va_intensity x) (va_intensity z)); constructor; lra.
    + apply Qltb_ge in E. repeat constructor; assumption.
Qed.

Lemma sorted_by_intensity_sorted l :
  StronglySorted (fun a b => va_intensity b <= va_intensity a) (sorted_by_intensity l).
Proof.
  apply Sorted_StronglySorted.
  - intros a b c H1 H2. lra.
  - unfold sorted_by_intensity. induction l as [|x l IH]; cbn [fold_right].
    + constructor.
    + apply insert_by_intensity_sorted. exact IH.
Qed.

(** X3.  The violent actions of the report are the predictions that have a
    violence keyword, each once, reordered so that intensities never
    increase along the list; each intensity is that of the prediction's own
    label and probability. *)
Theorem violent_actions_sorted :
  forall (actions : list Clip) (detections : list FrameInfo),
    Permutation (violent_matches actions)
      (violent_actions (analyze_violence_intensity actions detections)) /\
    StronglySorted (fun a b => va_intensity b <= va_intensity a)
      (violent_actions (analyze_violence_intensity actions detections)) /\
    (forall v,
       In v (violent_actions (analyze_violence_intensity actions detections)) ->
       exists c a,
         In c actions /\ In a (top_actions c) /\
         any_in violence_keywords (lower (act_label a)) = true /\
         va_action v = act_label a /\ va_confidence v = prob a /\
         va_intensity v = _calculate_violence_intensity (act_label a) (prob a)).
Proof.
  intros actions detections.
  destruct (violence_report_fields actions detections) as (-> & _ & _).
  split; [apply sorted_by_intensity_perm|].
  split; [apply sorted_by_intensity_sorted|].
  intros v Hv.
  apply (Permutation_in _ (Permutation_sym (sorted_by_intensity_perm _))) in Hv.
  apply violent_match_source in Hv.
  destruct Hv as (c & a & Hc & Ha & Hk & E1 & E2 & E3).
  exists c, a. repeat split; try assumption.
  rewrite E3. unfold _calculate_violence_intensity. rewrite lower_idempotent.
  reflexivity.
Qed.

(** ** Suspicious behaviour *)

(** The patterns of the suspicion report, by the three checks. *)
Lemma suspicion_report_fields detections actions :
  let r := analyze_suspicious_behavior detections actions in
  sr_detected r = nonempty (patterns r) /\
  sr_suspicion_score r = py_min 1.0 (float (len (patterns r)) * 0.25).
Proof.
  cbv zeta. unfold analyze_suspicious_behavior. cbn [sr_detected patterns sr_suspicion_score].
  rewrite len_pos_iff. split; reflexivity.
Qed.

Lemma suspicion_score_above_half n :
  0.5 < py_min 1.0 (float n * 0.25) <-> (3 <= n)%Z.
Proof.
  split; intro H.
  - assert (L : float 2 < float n).
    { pose proof (py_min_le_r 1.0 (float n * 0.25)). unfold float at 1.
      change (inject_Z 2) with 2. lra. }
    apply float_lt in L. lia.
  - assert (L : float 3 <= float n) by (apply float_le; exact H).
    unfold float at 1 in L. change (inject_Z 3) with 3 in L.
    destruct (py_min_cases 1.0 (float n * 0.25)) as [[E _] | [E _]]; rewrite E; lra.
Qed.

(** X4.  The suspicion indicator.  A report carries an indicator of type
    "suspicious_activity" exactly when the suspicion analysis found at least
    three patterns. *)
Theorem suspicious_indicator_iff :
  forall (detections : list FrameInfo) (actions : list Clip),
    (exists ind,
       In ind (crime_indicators (generate_crime_report detections actions)) /\
       ind_type ind = "suspicious_activity") <->
    (3 <= len (patterns (analyze_suspicious_behavior detections actions)))%Z.
Proof.
  intros detections actions.
  unfold generate_crime_report. cbn [crime_indicators].
  destruct (suspicion_report_fields detections actions) as [Ed Es].
  split.
  - intros [ind [Hin Ht]]. apply indicator_cases in Hin.
    destruct Hin as [[_ ->] | [(_ & _ & ->) | [(_ & _ & ->) | (_ & Hs & _)]]];
      cbn [ind_type] in Ht; try discriminate Ht.
    rewrite Es in Hs. apply suspicion_score_above_half. exact Hs.
  - intro H. eexists. split.
    + apply suspicious_indicator_in.
      * rewrite Ed. destruct (patterns _); [|reflexivity]. cbn in H. lia.
      * rewrite Es. apply suspicion_score_above_half. exact H.
    + reflexivity.
Qed.

(** X5.  A report whose only indicator is "suspicious_activity" has a
    weighted confidence above 0.44 and at most 0.6, well inside the "medium"
    bucket, and its [overall_severity] is "medium".  (The weighted
    confidence is the product 0.75 * 0.60 or 1.0 * 0.60; the lower bound
    leaves room for the rounding of that product.) *)
Theorem suspicious_only_is_medium :
  forall (detections : list FrameInfo) (actions : list Clip) (ind : CrimeIndicator),
    crime_indicators (generate_crime_report detections actions) = [ind] ->
    ind_type ind = "suspicious_activity" ->
    0.44 < weighted_confidence ind <= 0.6 /\
    overall_severity (generate_crime_report detections actions) = "medium".
Proof.
  intros detections actions ind Hinds Ht.
  assert (Hin : In ind (crime_indicators (generate_crime_report detections actions)))
    by (rewrite Hinds; left; reflexivity).
  unfold generate_crime_report in *. cbn [crime_indicators overall_severity] in *.
  rewrite Hinds.
  destruct (suspicion_report_fields detections actions) as [_ Es].
  apply indicator_cases in Hin.
  destruct Hin as [[_ ->] | [(_ & _ & ->) | [(_ & _ & ->) | (_ & Hs & ->)]]];
    cbn [ind_type] in Ht; try discriminate Ht.
  rewrite Es in *.
  set (n := len (patterns (analyze_suspicious_behavior detections actions))) in *.
  assert (H3 : (3 <= n)%Z) by (apply suspicion_score_above_half; exact Hs).
  assert (L : float 3 <= float n) by (apply float_le; exact H3).
  unfold float at 1 in L. change (inject_Z 3) with 3 in L.
  assert (B : 0.75 <= py_min 1.0 (float n * 0.25) <= 1).
  { pose proof (py_min_le_l 1.0 (float n * 0.25)).
    destruct (py_min_cases 1.0 (float n * 0.25)) as [[E _] | [E _]]; rewrite E in *; lra. }
  assert (W : weighted_confidence
                (mkIndicator "suspicious_activity" "medium" (py_min 1.0 (float n * 0.25)))
              == py_min 1.0 (float n * 0.25) * 0.6).
  { unfold weighted_confidence. cbn [ind_confidence ind_type].
    change (weights_get severity_weights "suspicious_activity" 0.5) with 0.60. lra. }
  split; [lra|].
  unfold determine_overall_severity. cbn [map]. unfold max_list. cbn [fold_left].
  replace (Qltb 0.8 _) with false by (symmetry; apply Qltb_ge; lra).
  replace (Qltb 0.6 _) with false by (symmetry; apply Qltb_ge; lra).
  replace (Qltb 0.4 _) with true by (symmetry; apply Qltb_lt; lra).
  reflexivity.
Qed.

Lemma suspicious_only_is_medium_witness :
  crime_indicators (generate_crime_report [] three_suspicious_actions)
    = [ mkIndicator "suspicious_activity" "medium" 0.75 ] /\
  overall_severity (generate_crime_report [] three_suspicious_actions) = "medium".
Proof.
  split; [reflexivity|].
  exact (proj2 (suspicious_only_is_medium [] three_suspicious_actions
                  (mkIndicator "suspicious_activity" "medium" 0.75) eq_refl eq_refl)).
Defined.

(** X6.  Loitering.  A "possible_loitering" pattern is reported only for a
    non-empty detection list in which persons appear in more than 80% of
    the frames; its confidence is above 0.64 and at most 0.7. *)
Theorem loitering_pattern_bounds :
  forall (detections : list FrameInfo) (actions : list Clip) (c person_ratio : Q),
    In (PossibleLoitering c person_ratio)
       (patterns (analyze_suspicious_behavior detections actions)) ->
    detections <> [] /\
    person_ratio
      == float (len (filter (fun f => existsb is_person (objects f)) detections))
         / float (len detections) /\
    0.8 < person_ratio <= 1 /\
    0.64 < c <= 0.7.
Proof.
  intros detections actions c r0 Hin.
  unfold analyze_suspicious_behavior in Hin. cbn [patterns] in Hin.
  rewrite !in_app_iff in Hin. destruct Hin as [H | [H | H]].
  - set (pres := len (filter (fun f => existsb is_person (objects f)) detections)) in *.
    destruct (Qltb 0.8 (float pres / float (Z.max 1 (len detections)))) eqn:E;
      [|destruct H].
    destruct H as [H | []]. inversion H; subst c r0; clear H.
    apply Qltb_lt in E.
    pose proof (ratio_in_unit pres (len detections) (len_filter_le _ _)) as [R0 R1].
    assert (Hne : detections <> []).
    { intro E0. subst detections. revert E. vm_compute. discriminate. }
    split; [exact Hne|]. split.
    { replace (Z.max 1 (len detections)) with (len detections); [reflexivity|].
      destruct detections; [congruence|]. unfold len. cbn [List.length]. lia. }
    split; [split; assumption|].
    pose proof (py_min_le_l 0.7 (float pres / float (Z.max 1 (len detections)) * 0.8)).
    destruct (py_min_cases 0.7 (float pres / float (Z.max 1 (len detections)) * 0.8))
      as [[E' _] | [E' _]]; rewrite E' in *; lra.
  - apply in_collected in H. destruct H as (cl & a & _ & _ & H).
    destruct (any_in suspicious_keywords (lower (act_label a))); [|destruct H].
    destruct H as [H | []]. discriminate H.
  - destruct (Qltb _ _); [|destruct H]. destruct H as [H | []]. discriminate H.
Qed.

Lemma loitering_pattern_bounds_witness :
  In (PossibleLoitering 0.7 1)
     (patterns (analyze_suspicious_behavior person_only [])) /\
  0.8 < 1 <= 1.
Proof.
  assert (H : In (PossibleLoitering 0.7 1)
                 (patterns (analyze_suspicious_behavior person_only [])))
    by (left; reflexivity).
  split; [exact H|].
  exact (proj1 (proj2 (proj2 (loitering_pattern_bounds person_only [] 0.7 1 H)))).
Defined.

(** ** Consistency of the report *)

Lemma severity_safe_iff inds :
  determine_overall_severity inds = "safe" <-> inds = [].
Proof.
  destruct inds as [|ind0 inds]; [split; reflexivity|].
  unfold determine_overall_severity.
  destruct (Qltb 0.8 _); [split; discriminate|].
  destruct (Qltb 0.6 _); [split; discriminate|].
  destruct (Qltb 0.4 _); split; discriminate.
Qed.

Lemma severity_labels inds :
  In (determine_overall_severity inds) ["safe"; "low"; "medium"; "high"; "critical"].
Proof.
  destruct inds as [|ind0 inds]; [left; reflexivity|].
  unfold determine_overall_severity.
  destruct (Qltb 0.8 _); [cbn; tauto|].
  destruct (Qltb 0.6 _); [cbn; tauto|].
  destruct (Qltb 0.4 _); cbn; tauto.
Qed.

(** X7.  The report is consistent.  [crime_detected] holds exactly when the
    indicator list is not empty, which is exactly when [overall_severity] is
    not "safe" and the recommendation is not the "safe" one; the severity is
    one of the five labels; there are at most four indicators, of pairwise
    distinct types. *)
Theorem report_consistent :
  forall (detections : list FrameInfo) (actions : list Clip),
    (crime_detected (generate_crime_report detections actions) = true <->
     crime_indicators (generate_crime_report detections actions) <> []) /\
    (overall_severity (generate_crime_report detections actions) = "safe" <->
     crime_detected (generate_crime_report detections actions) = false) /\
    (recommendation (generate_crime_report detections actions) = Safe <->
     crime_detected (generate_crime_report detections actions) = false) /\
    In (overall_severity (generate_crime_report detections actions))
       ["safe"; "low"; "medium"; "high"; "critical"] /\
    (List.length (crime_indicators (generate_crime_report detections actions)) <= 4)%nat /\
    NoDup (map ind_type (crime_indicators (generate_crime_report detections actions))).
Proof.
  intros detections actions.
  unfold generate_crime_report.
  cbn [crime_detected crime_indicators overall_severity recommendation].
  set (inds := indicators_of _ _ _ _).
  rewrite len_pos_iff.
  assert (Hd : nonempty inds = false <-> inds = []) by apply nonempty_false.
  split; [apply nonempty_true|]. split; [rewrite Hd; apply severity_safe_iff|].
  split.
  { rewrite Hd, <- severity_safe_iff.
    pose proof (severity_labels inds) as L. cbn [In] in L.
    destruct L as [<- | [<- | [<- | [<- | [<- | []]]]]];
      split; intro H; try reflexivity; discriminate H. }
  split; [apply severity_labels|].
  unfold inds, indicators_of.
  destruct (wr_detected _); destruct (_ && _); destruct (_ && _); destruct (_ && _);
    cbn [app map List.length ind_type]; (split; [lia|]);
    repeat (constructor; [cbn [In]; intuition discriminate|]); constructor.
Qed.

(** ** Empty scenes *)

Lemma flat_map_nil {A B} (g : A -> list B) (l : list A) :
  (forall x, In x l -> g x = []) -> flat_map g l = [].
Proof.
  induction l as [|x l IH]; intro H; [reflexivity|].
  cbn [flat_map]. rewrite (H x) by (left; reflexivity).
  apply IH. intros y Hy. apply H. right. exact Hy.
Qed.

Lemma filter_nil {A} (g : A -> bool) (l : list A) :
  (forall x, In x l -> g x = false) -> filter g l = [].
Proof.
  induction l as [|x l IH]; intro H; [reflexivity|].
  cbn [filter]. rewrite (H x) by (left; reflexivity).
  apply IH. intros y Hy. apply H. right. exact Hy.
Qed.

Lemma timeline_of_nothing detections :
  nothing_detected detections -> valuable_timeline detections = [].
Proof.
  unfold valuable_timeline. intro H.
  assert (G : forall tl : Timeline, fold_left track_frame detections tl = tl);
    [|apply G].
  induction detections as [|f fs IH]; intro tl; [reflexivity|].
  cbn [fold_left].
  assert (E : track_frame tl f = tl).
  { unfold track_frame. rewrite (H f) by (left; reflexivity). reflexivity. }
  rewrite E. apply IH. intros g Hg. apply H. right. exact Hg.
Qed.

Lemma clip_actions_of_nothing actions :
  nothing_predicted actions -> clip_actions actions = [].
Proof.
  intro H. unfold clip_actions. apply flat_map_nil.
  intros c Hc. rewrite (H c Hc). reflexivity.
Qed.

(** X8.  Empty scenes.  When no frame shows any object and no clip holds any
    prediction, however many frames and clips there are, none of the four
    analyses detects anything, the report has no indicator, no crime is
    detected and the severity is "safe". *)
Theorem nothing_seen_is_safe :
  forall (detections : list FrameInfo) (actions : list Clip),
    nothing_detected detections ->
    nothing_predicted actions ->
    wr_detected (analyze_weapon_threat detections actions) = false /\
    vr_detected (analyze_violence_intensity actions detections) = false /\
    tr_detected (analyze_theft_patterns detections actions) = false /\
    sr_detected (analyze_suspicious_behavior detections actions) = false /\
    crime_indicators (generate_crime_report detections actions) = [] /\
    crime_detected (generate_crime_report detections actions) = false /\
    overall_severity (generate_crime_report detections actions) = "safe".
Proof.
  intros detections actions Hd Ha.
  pose proof (clip_actions_of_nothing actions Ha) as Eca.
  assert (Hw : wr_detected (analyze_weapon_threat detections actions) = false).
  { unfold analyze_weapon_threat. cbn [wr_detected].
    rewrite (flat_map_nil frame_weapon_entry detections); [reflexivity|].
    intros f Hf. unfold frame_weapon_entry, frame_weapons. rewrite (Hd f Hf).
    reflexivity. }
  assert (Hv : vr_detected (analyze_violence_intensity actions detections) = false).
  { destruct (violence_report_fields actions detections) as (_ & -> & _).
    unfold violent_matches. rewrite Eca. reflexivity. }
  assert (Ht : tr_detected (analyze_theft_patterns detections actions) = false).
  { destruct (theft_report_fields detections actions) as (E1 & _ & ->).
    rewrite E1, (timeline_of_nothing detections Hd).
    unfold analyze_theft_patterns. cbn [theft_actions]. rewrite Eca. reflexivity. }
  assert (Hs : sr_detected (analyze_suspicious_behavior detections actions) = false).
  { destruct (suspicion_report_fields detections actions) as [-> _].
    unfold analyze_suspicious_behavior. cbn [patterns]. rewrite Eca.
    rewrite (filter_nil (fun f => existsb is_person (objects f)) detections)
      by (intros f Hf; rewrite (Hd f Hf); reflexivity).
    rewrite (filter_nil (fun f => (person_count_of (objects f) >=? 3)%Z) detections)
      by (intros f Hf; rewrite (Hd f Hf); reflexivity).
    replace (Qltb 0.8 _) with false; [|symmetry; apply Qltb_ge].
    - replace (Qltb _ (float (len []))) with false; [reflexivity|].
      symmetry. apply Qltb_ge.
      assert (0 <= float (len detections)) by (apply (float_le 0); apply len_nonneg).
      change (float (len (@nil FrameInfo))) with 0. lra.
    - pose proof (ratio_in_unit 0 (len detections)
                    (conj (Z.le_refl 0) (len_nonneg detections))) as [_ R].
      change (len (@nil FrameInfo)) with 0%Z.
      assert (float 0 / float (Z.max 1 (len detections)) == 0).
      { unfold Qdiv. change (float 0) with 0. lra. }
      lra. }
  assert (Hi : crime_indicators (generate_crime_report detections actions) = []).
  { unfold generate_crime_report. cbn [crime_indicators]. unfold indicators_of.
    rewrite Hw, Hv, Ht, Hs. reflexivity. }
  repeat split; try assumption.
  - unfold generate_crime_report in *. cbn [crime_detected crime_indicators] in *.
    rewrite Hi. reflexivity.
  - unfold generate_crime_report in *. cbn [overall_severity crime_indicators] in *.
    rewrite Hi. reflexivity.
Qed.

Lemma nothing_seen_is_safe_witness :
  nothing_detected two_empty_frames /\
  nothing_predicted [mkClip (Some 0%Z) (Some "middle") []] /\
  overall_severity
    (generate_crime_report two_empty_frames [mkClip (Some 0%Z) (Some "middle") []])
    = "safe".
Proof.
  assert (Hd : nothing_detected two_empty_frames)
    by (intros f [<- | [<- | []]]; reflexivity).
  assert (Ha : nothing_predicted [mkClip (Some 0%Z) (Some "middle") []])
    by (intros c [<- | []]; reflexivity).
  split; [exact Hd|]. split; [exact Ha|].
  apply (nothing_seen_is_safe two_empty_frames _ Hd Ha).
Defined.

(** ** Confidences of the indicators *)

Lemma violence_score_le_1 actions detections :
  violence_score (analyze_violence_intensity actions detections) <= 1.
Proof.
  destruct (violence_report_fields actions detections) as (_ & _ & ->).
  unfold _calculate_violence_score. destruct (nonempty _); cbn [negb]; [|lra].
  match goal with |- py_min ?a ?b <= _ => pose proof (py_min_le_l a b) end. lra.
Qed.

Lemma suspicion_score_le_1 detections actions :
  sr_suspicion_score (analyze_suspicious_behavior detections actions) <= 1.
Proof.
  destruct (suspicion_report_fields detections actions) as [_ ->].
  match goal with |- py_min ?a ?b <= _ => pose proof (py_min_le_l a b) end. lra.
Qed.

(** X9.  With action probabilities in [0,1], every indicator of a report has
    a confidence above 0.4 and at most 1, and a weighted confidence above
    0.2 and at most 1. *)
Theorem indicator_confidence_range :
  forall (detections : list FrameInfo) (actions : list Clip) (ind : CrimeIndicator),
    probs_in_unit actions ->
    In ind (crime_indicators (generate_crime_report detections actions)) ->
    0.4 < ind_confidence ind <= 1 /\
    0.2 < weighted_confidence ind <= 1.
Proof.
  intros detections actions ind Hp Hin.
  pose proof (theft_probability_le_1 detections actions Hp) as Lt.
  pose proof (violence_score_le_1 actions detections) as Lv.
  pose proof (suspicion_score_le_1 detections actions) as Ls.
  unfold generate_crime_report in Hin. cbn [crime_indicators] in Hin.
  apply indicator_cases in Hin.
  destruct Hin as [[_ ->] | [(_ & H & ->) | [(_ & H & ->) | (_ & H & ->)]]];
    unfold weighted_confidence; cbn [ind_confidence ind_type].
  - change (weights_get severity_weights "weapon_threat" 0.5) with 1.0. lra.
  - change (weights_get severity_weights "violent_assault" 0.5) with 0.95. lra.
  - change (weights_get severity_weights "theft_or_robbery" 0.5) with 0.5. lra.
  - change (weights_get severity_weights "suspicious_activity" 0.5) with 0.60. lra.
Qed.

Lemma indicator_confidence_range_witness :
  probs_in_unit [] /\
  0.4 < 0.64 <= 1.
Proof.
  assert (Hp : probs_in_unit []) by (intros c a []).
  split; [exact Hp|].
  exact (proj1 (indicator_confidence_range backpack_in_frames_0_1 []
                  (mkIndicator "theft_or_robbery" "medium" 0.64) Hp
                  (or_introl eq_refl))).
Defined.

(** ** Weapon threat: alerts and monotonicity *)

(** The threat level, on the tests the source makes. *)
Lemma threat_level_tests detections actions :
  threat_level (analyze_weapon_threat detections actions) =
  if negb (nonempty (flat_map frame_weapon_entry detections)) then "none"
  else if (len (filter (fun p => distance_lt (px_distance_sq p) 300)
                  (flat_map frame_proximity detections)) >? 0)%Z
          || nonempty (weapon_actions (analyze_weapon_threat detections actions))
       then "critical"
  else if (len (filter (fun p => distance_lt (px_distance_sq p) 500)
                  (flat_map frame_proximity detections)) >? 0)%Z
          || (weapon_frame_count detections >? 2)%Z
       then "high"
  else "medium".
Proof.
  unfold analyze_weapon_threat. cbn [threat_level weapon_actions].
  unfold _calculate_threat_level.
  rewrite len_zero_iff, (len_pos_iff (flat_map _ (clip_actions actions))).
  rewrite weapon_frames_count. reflexivity.
Qed.

Lemma weapon_within_seen detections t : weapon_within detections t -> weapon_seen detections.
Proof.
  intros (f & w & p & Hf & Hw & _ & Hwl & _). exists f. split; [exact Hf|].
  exists w. auto.
Qed.

Lemma weapon_within_wider detections t t' :
  0 <= t -> t <= t' -> weapon_within detections t -> weapon_within detections t'.
Proof.
  intros H0 Ht (f & w & p & Hf & Hw & Hp & Hwl & Hpl & Hd).
  exists f, w, p. repeat split; try assumption.
  assert (t * t <= t' * t') by nra. lra.
Qed.

(** X10.  Proximity alerts.  Whenever the weapon report lists a proximity
    alert (a weapon within 200 of a person), the threat level is
    "critical". *)
Theorem proximity_alert_is_critical :
  forall (detections : list FrameInfo) (actions : list Clip),
    proximity_alerts (analyze_weapon_threat detections actions) <> [] ->
    weapon_within detections 200 /\
    (forall p, In p (proximity_alerts (analyze_weapon_threat detections actions)) ->
               px_distance_sq p < 200 * 200) /\
    threat_level (analyze_weapon_threat detections actions) = "critical".
Proof.
  intros detections actions Hne.
  assert (Hw : weapon_within detections 200).
  { apply proximity_below. apply filter_nonempty. apply nonempty_true. exact Hne. }
  split; [exact Hw|]. split.
  { intros p Hp. unfold analyze_weapon_threat in Hp. cbn [proximity_alerts] in Hp.
    apply filter_In in Hp. destruct Hp as [_ Hp]. apply Qltb_lt in Hp. exact Hp. }
  rewrite threat_level_tests.
  replace (nonempty (flat_map frame_weapon_entry detections)) with true
    by (symmetry; apply weapon_frames_nonempty; apply (weapon_within_seen _ _ Hw)).
  cbn [negb].
  replace (len (filter (fun p => distance_lt (px_distance_sq p) 300)
                  (flat_map frame_proximity detections)) >? 0)%Z with true;
    [reflexivity|].
  symmetry. apply proximity_count_pos.
  apply (weapon_within_wider detections 200 300); [lra | lra | exact Hw].
Qed.

Lemma proximity_alert_is_critical_witness :
  proximity_alerts (analyze_weapon_threat knife_and_person []) <> [] /\
  threat_level (analyze_weapon_threat knife_and_person []) = "critical".
Proof.
  assert (H : proximity_alerts (analyze_weapon_threat knife_and_person []) <> [])
    by (vm_compute; discriminate).
  split; [exact H|].
  exact (proj2 (proj2 (proximity_alert_is_critical knife_and_person [] H))).
Defined.

Lemma weapon_seen_app d d' : weapon_seen d -> weapon_seen (d ++ d').
Proof.
  intros [f [Hf H]]. exists f. split; [apply in_or_app; left; exact Hf | exact H].
Qed.

Lemma weapon_within_app d d' t : weapon_within d t -> weapon_within (d ++ d') t.
Proof.
  intros (f & w & p & Hf & H). exists f, w, p.
  split; [apply in_or_app; left; exact Hf | exact H].
Qed.

Lemma weapon_action_seen_app a a' : weapon_action_seen a -> weapon_action_seen (a ++ a').
Proof.
  intros (c & x & Hc & H). exists c, x.
  split; [apply in_or_app; left; exact Hc | exact H].
Qed.

Lemma weapon_frame_count_app d d' :
  (weapon_frame_count d <= weapon_frame_count (d ++ d'))%Z.
Proof.
  unfold weapon_frame_count, len. rewrite filter_app, length_app. lia.
Qed.

(** X11.  More evidence never lowers the threat level.  Appending frames to the
    detections and clips to the actions gives a threat level at least as
    high, in the order none < medium < high < critical. *)
Theorem threat_level_monotone :
  forall (detections more_detections : list FrameInfo) (actions more_actions : list Clip),
    (threat_rank (threat_level (analyze_weapon_threat detections actions))
     <= threat_rank
          (threat_level
             (analyze_weapon_threat (detections ++ more_detections)
                (actions ++ more_actions))))%nat.
Proof.
  intros d d' a a'.
  rewrite !threat_level_tests.
  pose proof (weapon_frames_nonempty d) as S1.
  pose proof (weapon_frames_nonempty (d ++ d')) as S2.
  pose proof (proximity_count_pos d 300) as C1.
  pose proof (proximity_count_pos (d ++ d') 300) as C2.
  pose proof (proximity_count_pos d 500) as M1.
  pose proof (proximity_count_pos (d ++ d') 500) as M2.
  pose proof (weapon_actions_fields d a) as A1.
  pose proof (weapon_actions_fields (d ++ d') (a ++ a')) as A2.
  pose proof (weapon_frame_count_app d d') as N.
  assert (IS : nonempty (flat_map frame_weapon_entry d) = true ->
               nonempty (flat_map frame_weapon_entry (d ++ d')) = true)
    by (intro H; apply S2, weapon_seen_app, S1, H).
  assert (IC : (len (filter (fun p => distance_lt (px_distance_sq p) 300)
                      (flat_map frame_proximity d)) >? 0)%Z = true ->
               (len (filter (fun p => distance_lt (px_distance_sq p) 300)
                      (flat_map frame_proximity (d ++ d'))) >? 0)%Z = true)
    by (intro H; apply C2, weapon_within_app, C1, H).
  assert (IM : (len (filter (fun p => distance_lt (px_distance_sq p) 500)
                      (flat_map frame_proximity d)) >? 0)%Z = true ->
               (len (filter (fun p => distance_lt (px_distance_sq p) 500)
                      (flat_map frame_proximity (d ++ d'))) >? 0)%Z = true)
    by (intro H; apply M2, weapon_within_app, M1, H).
  assert (IA : nonempty (weapon_actions (analyze_weapon_threat d a)) = true ->
               nonempty (weapon_actions (analyze_weapon_threat (d ++ d') (a ++ a'))) = true)
    by (intro H; apply A2, weapon_action_seen_app, A1, H).
  assert (IN : (weapon_frame_count d >? 2)%Z = true ->
               (weapon_frame_count (d ++ d') >? 2)%Z = true)
    by (intro H; apply Z.gtb_lt; apply Z.gtb_lt in H; lia).
  clear S1 S2 C1 C2 M1 M2 A1 A2 N.
  destruct (nonempty (flat_map frame_weapon_entry d));
    [rewrite (IS eq_refl) | cbn; lia].
  cbn [negb].
  destruct (len (filter (fun p => distance_lt (px_distance_sq p) 300)
                   (flat_map frame_proximity d)) >? 0)%Z;
    [rewrite (IC eq_refl); cbn; lia|].
  destruct (nonempty (weapon_actions (analyze_weapon_threat d a)));
    [rewrite (IA eq_refl), !orb_true_r; cbn; lia|].
  cbn [orb].
  destruct (len (filter (fun p => distance_lt (px_distance_sq p) 500)
                   (flat_map frame_proximity d)) >? 0)%Z.
  - rewrite (IM eq_refl). cbn [orb].
    destruct (_ || _); cbn; lia.
  - cbn [orb]. destruct (weapon_frame_count d >? 2)%Z.
    + rewrite (IN eq_refl), !orb_true_r. destruct (_ || _); cbn; lia.
    + destruct (_ || _); [cbn; lia|]. destruct (_ || _); cbn; lia.
Qed.

(** ** Disappearance candidates *)

Lemma timeline_append_keys tl l idx k :
  In k (map fst (timeline_append tl l idx)) <-> k = l \/ In k (map fst tl).
Proof.
  induction tl as [|[k0 fs] tl IH]; cbn [timeline_append map fst In].
  - intuition congruence.
  - destruct (String.eqb_spec k0 l) as [-> | Hne]; cbn [map fst In].
    + intuition congruence.
    + rewrite IH. intuition congruence.
Qed.

Lemma timeline_append_nodup tl l idx :
  NoDup (map fst tl) -> NoDup (map fst (timeline_append tl l idx)).
Proof.
  induction tl as [|[k0 fs] tl IH]; cbn [timeline_append map fst]; intro H.
  - repeat constructor. intros [].
  - inversion H as [|? ? Hk Htl]; subst.
    destruct (String.eqb_spec k0 l) as [-> | Hne]; cbn [map fst].
    + constructor; assumption.
    + constructor; [|apply IH; exact Htl].
      rewrite timeline_append_keys. intros [E | E]; [congruence | contradiction].
Qed.

Lemma track_frame_ok tl f : timeline_ok tl -> timeline_ok (track_frame tl f).
Proof.
  unfold track_frame. revert tl.
  induction (objects f) as [|o os IH]; intros tl H; cbn [fold_left]; [exact H|].
  apply IH. destruct (mem (lower (label o)) valuable_labels) eqn:E; [|exact H].
  destruct H as [Hn Hv]. split; [apply timeline_append_nodup; exact Hn|].
  intros k Hk. apply timeline_append_keys in Hk. destruct Hk as [-> | Hk]; auto.
Qed.

Lemma valuable_timeline_ok detections : timeline_ok (valuable_timeline detections).
Proof.
  unfold valuable_timeline.
  assert (G : forall tl, timeline_ok tl -> timeline_ok (fold_left track_frame detections tl)).
  { induction detections as [|f fs IH]; intros tl H; cbn [fold_left]; [exact H|].
    apply IH, track_frame_ok, H. }
  apply G. split; [constructor | intros k []].
Qed.

Lemma Zmin_list_le xs : forall x, (Zmin_list x xs <= x)%Z.
Proof.
  unfold Zmin_list. induction xs as [|y ys IH]; intro x; cbn [fold_left]; [lia|].
  specialize (IH (Z.min x y)). lia.
Qed.

Lemma Zmax_list_ge xs : forall x, (x <= Zmax_list x xs)%Z.
Proof.
  unfold Zmax_list. induction xs as [|y ys IH]; intro x; cbn [fold_left]; [lia|].
  specialize (IH (Z.max x y)). lia.
Qed.

(** What one timeline entry contributes. *)
Lemma disappearance_of_spec total k frames x :
  In x (disappearance_of total (k, frames)) ->
  disappearance_of total (k, frames) = [x] /\
  item x = k /\
  (7 <= total)%Z /\
  (first_seen x <= last_seen x)%Z /\
  0 <= duration_ratio x < 0.5 /\
  (suspicion_score x = 0.8 \/ suspicion_score x = 0.6).
Proof.
  unfold disappearance_of.
  destruct (Qltb (float (len frames)) (float total * 0.3)) eqn:E1; [|intros []].
  destruct (len frames >=? 2)%Z eqn:E2; cbn [andb]; [|intros []].
  destruct frames as [|f0 fs]; [intros []|].
  destruct (Qltb (float (Zmax_list f0 fs - Zmin_list f0 fs)) (float total * 0.5)) eqn:E3;
    [|intros []].
  intros [<- | []]. cbn [item first_seen last_seen duration_ratio suspicion_score].
  apply Qltb_lt in E1. apply Qltb_lt in E3. apply Z.geb_le in E2.
  pose proof (Zmin_list_le fs f0). pose proof (Zmax_list_ge fs f0).
  assert (T : (7 <= total)%Z).
  { assert (L2 : float 2 <= float (len (f0 :: fs))) by (apply float_le; exact E2).
    unfold float at 1 in L2. change (inject_Z 2) with 2 in L2.
    assert (L6 : float 6 < float total)
      by (unfold float at 1; change (inject_Z 6) with 6; lra).
    apply float_lt in L6. lia. }
  assert (P : 1 <= float total).
  { apply (float_le 1). lia. }
  assert (D0 : 0 <= float (Zmax_list f0 fs - Zmin_list f0 fs)).
  { apply (float_le 0). lia. }
  split; [reflexivity|]. split; [reflexivity|]. split; [exact T|].
  split; [lia|]. split.
  - split.
    + apply Qle_shift_div_l; lra.
    + apply Qlt_shift_div_r; lra.
  - destruct (Qltb _ _); auto.
Qed.

Lemma disappearance_items_nodup total tl :
  NoDup (map fst tl) -> NoDup (map item (flat_map (disappearance_of total) tl)).
Proof.
  induction tl as [|[k fs] tl IH]; cbn [flat_map map fst]; intro H; [constructor|].
  inversion H as [|? ? Hk Htl]; subst.
  rewrite map_app. apply NoDup_app.
  - destruct (disappearance_of total (k, fs)) as [|x xs] eqn:E; [constructor|].
    destruct (disappearance_of_spec total k fs x) as (E' & _);
      [rewrite E; left; reflexivity|].
    rewrite E in E'. inversion E'; subst. repeat constructor. intros [].
  - apply IH. exact Htl.
  - intros i Hi Hi'.
    apply in_map_iff in Hi. destruct Hi as [x [<- Hx]].
    apply disappearance_of_spec in Hx. destruct Hx as (_ & Ex & _).
    apply in_map_iff in Hi'. destruct Hi' as [y [Ey Hy]].
    apply in_flat_map in Hy. destruct Hy as [[k' fs'] [He Hy]].
    apply disappearance_of_spec in Hy. destruct Hy as (_ & Ey' & _).
    apply Hk. apply in_map_iff. exists (k', fs'). split; [|exact He].
    cbn [fst]. congruence.
Qed.

(** X12.  Disappearance candidates.  The candidates of a theft report name
    pairwise distinct valuables; each was first seen no later than last
    seen, has a duration ratio in [0, 0.5) and a suspicion score of 0.8 or
    0.6; and there is none unless the video has at least 7 frames. *)
Theorem disappearance_candidates_wellformed :
  forall (detections : list FrameInfo) (actions : list Clip),
    NoDup (map item (valuable_disappearances (analyze_theft_patterns detections actions))) /\
    forall x,
      In x (valuable_disappearances (analyze_theft_patterns detections actions)) ->
      mem (item x) valuable_labels = true /\
      (7 <= len detections)%Z /\
      (first_seen x <= last_seen x)%Z /\
      0 <= duration_ratio x < 0.5 /\
      (suspicion_score x = 0.8 \/ suspicion_score x = 0.6).
Proof.
  intros detections actions.
  destruct (theft_report_fields detections actions) as (-> & _ & _).
  destruct (valuable_timeline_ok detections) as [Hn Hv].
  split; [apply disappearance_items_nodup; exact Hn|].
  intros x Hx. apply in_flat_map in Hx. destruct Hx as [[k fs] [He Hx]].
  apply disappearance_of_spec in Hx. destruct Hx as (_ & Ei & H).
  split; [|exact H].
  rewrite Ei. apply Hv. apply in_map_iff. exists (k, fs). auto.
Qed.

(** X13.  Disappearance evidence alone.  When a theft report has candidates
    and no theft action, its probability lies strictly between 0.47 and
    0.65, and the crime report carries the theft indicator with severity
    "medium".  (The probability is a mean of scores 0.8 and 0.6, times 0.8;
    the bounds leave room for the rounding of those operations.) *)
Theorem disappearance_alone_is_medium :
  forall (detections : list FrameInfo) (actions : list Clip),
    valuable_disappearances (analyze_theft_patterns detections actions) <> [] ->
    theft_actions (analyze_theft_patterns detections actions) = [] ->
    0.47 < theft_probability (analyze_theft_patterns detections actions) < 0.65 /\
    In (mkIndicator "theft_or_robbery" "medium"
          (theft_probability (analyze_theft_patterns detections actions)))
       (crime_indicators (generate_crime_report detections actions)).
Proof.
  intros detections actions Hd Ha.
  pose proof (disappearance_scores_bounded detections actions) as Hb.
  destruct (theft_report_fields detections actions) as (_ & Ep & Et).
  assert (B : 0.47 < theft_probability (analyze_theft_patterns detections actions) < 0.65).
  { rewrite Ep.
    destruct (theft_probability_cases
                (valuable_disappearances (analyze_theft_patterns detections actions))
                (theft_actions (analyze_theft_patterns detections actions)))
      as [(E & _) | [(_ & E & _) | [(_ & _ & ->) | (E & _)]]]; try congruence.
    pose proof (score_bounds suspicion_score _ _ _ Hd Hb). lra. }
  split; [exact B|].
  unfold generate_crime_report. cbn [crime_indicators].
  pose proof (theft_indicator_in
                (analyze_weapon_threat detections actions)
                (analyze_violence_intensity actions detections)
                (analyze_theft_patterns detections actions)
                (analyze_suspicious_behavior detections actions)) as I.
  replace (Qltb 0.7 (theft_probability (analyze_theft_patterns detections actions)))
    with false in I by (symmetry; apply Qltb_ge; lra).
  apply I; [|lra].
  rewrite Et. apply nonempty_true in Hd. rewrite Hd. reflexivity.
Qed.

Lemma disappearance_alone_is_medium_witness :
  valuable_disappearances (analyze_theft_patterns backpack_in_frames_0_1 []) <> [] /\
  theft_actions (analyze_theft_patterns backpack_in_frames_0_1 []) = [] /\
  0.47 < theft_probability (analyze_theft_patterns backpack_in_frames_0_1 []) < 0.65.
Proof.
  assert (H : valuable_disappearances
                (analyze_theft_patterns backpack_in_frames_0_1 []) <> [])
    by (vm_compute; discriminate).
  split; [exact H|]. split; [reflexivity|].
  exact (proj1 (disappearance_alone_is_medium backpack_in_frames_0_1 [] H eq_refl)).
Defined.

End AnalyzerProps.

(* ================================================================== *)
(** * Bounds on the motion analysis *)

Module MotionBounds.
Import MotionAnalyzer Spec Samples.
Import MotionProps AnalyzerProps.

(** ** The motion score *)

Lemma fold_add_bounds {A} (f : A -> Z) (w : Z) (l : list A) :
  (forall x, In x l -> (0 <= f x <= w)%Z) ->
  forall acc, (acc <= fold_left Z.add (map f l) acc <= acc + len l * w)%Z.
Proof.
  induction l as [|x l IH]; intros H acc; cbn [map fold_left].
  - unfold len. cbn. lia.
  - assert (Hx : (0 <= f x <= w)%Z) by (apply H; left; reflexivity).
    specialize (IH (fun y Hy => H y (or_intror Hy)) (acc + f x)%Z).
    unfold len in *. cbn [List.length]. rewrite Nat2Z.inj_succ. nia.
Qed.

Lemma absdiff_shaped h w a b : shaped h w a -> shaped h w b -> shaped h w (absdiff a b).
Proof.
  intros [La Fa] [Lb Fb]. unfold absdiff. split.
  - rewrite length_map, length_combine. lia.
  - apply Forall_forall. intros row Hr. apply in_map_iff in Hr.
    destruct Hr as [[ra rb] [<- Hin]]. cbn [fst snd].
    rewrite length_map, length_combine.
    rewrite Forall_forall in Fa, Fb.
    rewrite (Fa ra (in_combine_l _ _ _ _ Hin)), (Fb rb (in_combine_r _ _ _ _ Hin)). lia.
Qed.

Lemma threshold_shaped h w img t m :
  shaped h w img -> shaped h w (threshold_binary img t m).
Proof.
  intros [L F]. unfold threshold_binary. split.
  - rewrite length_map. exact L.
  - apply Forall_map. eapply Forall_impl; [|exact F].
    intros row E. cbn beta. rewrite length_map. exact E.
Qed.

Lemma shaped_pixels h w img :
  (0 < h)%nat -> shaped h w img ->
  (len img * len (hd [] img))%Z = (Z.of_nat h * Z.of_nat w)%Z.
Proof.
  intros Hh [L F]. destruct img as [|r rs]; [cbn in L; lia|].
  inversion F as [|? ? Hr Hrs]. unfold len. cbn [hd]. rewrite L, Hr. reflexivity.
Qed.

Lemma motion_pixels_bounds h w img :
  shaped h w img ->
  (0 <= fold_left Z.add (map (fun row => len (filter (fun v => (v >? 0)%Z) row)) img) 0
     <= Z.of_nat h * Z.of_nat w)%Z.
Proof.
  intros [L F].
  assert (H : forall row, In row img ->
                (0 <= len (filter (fun v => (v >? 0)%Z) row) <= Z.of_nat w)%Z).
  { intros row Hr. rewrite Forall_forall in F.
    pose proof (len_filter_le (fun v => (v >? 0)%Z) row) as B.
    unfold len in *. rewrite <- (F row Hr). exact B. }
  pose proof (fold_add_bounds _ _ img H 0%Z) as B.
  unfold len in B at 3. rewrite L in B. lia.
Qed.

Lemma in_combine_same {A} (l : list A) x y : In (x, y) (combine l l) -> x = y.
Proof.
  induction l as [|a l IH]; cbn [combine In]; [intros []|].
  intros [E | H]; [congruence | auto].
Qed.

Lemma self_row_unchanged row :
  filter (fun v => (v >? 0)%Z)
    (map (fun v => if (v >? 25)%Z then 255%Z else 0%Z)
       (map (fun px : Z * Z => Z.abs (fst px - snd px)) (combine row row))) = [].
Proof.
  induction row as [|v row IH]; [reflexivity|].
  cbn [combine map fst snd]. rewrite Z.sub_diag. cbn [Z.abs Z.gtb Z.compare filter].
  exact IH.
Qed.

Lemma self_motion_pixels a :
  fold_left Z.add
    (map (fun row => len (filter (fun v => (v >? 0)%Z) row))
       (threshold_binary (absdiff a a) 25 255)) 0%Z = 0%Z.
Proof.
  assert (H : forall row, In row (threshold_binary (absdiff a a) 25 255) ->
                (0 <= len (filter (fun v => (v >? 0)%Z) row) <= 0)%Z).
  { intros row Hr. unfold threshold_binary, absdiff in Hr.
    apply in_map_iff in Hr. destruct Hr as [row' [<- Hr]].
    apply in_map_iff in Hr. destruct Hr as [[ra rb] [<- Hr]].
    apply in_combine_same in Hr. subst rb. cbn [fst snd].
    rewrite self_row_unchanged. cbn. lia. }
  pose proof (fold_add_bounds _ _ _ H 0%Z) as B. lia.
Qed.

Lemma motion_score_bounds h w a b :
  (0 < h)%nat -> (0 < w)%nat -> shaped h w a -> shaped h w b ->
  0 <= _calculate_motion_score a b <= 100.
Proof.
  intros Hh Hw Sa Sb. unfold _calculate_motion_score. cbv zeta.
  assert (St : shaped h w (threshold_binary (absdiff a b) 25 255))
    by (apply threshold_shaped, absdiff_shaped; assumption).
  rewrite (shaped_pixels h w _ Hh St).
  pose proof (motion_pixels_bounds h w _ St) as [B0 B1].
  set (mp := fold_left Z.add _ 0%Z) in *.
  assert (T : 0 < float (Z.of_nat h * Z.of_nat w)) by (apply (proj1 (float_lt 0 _)); apply Z.mul_pos_pos; lia).
  assert (M0 : 0 <= float mp) by (apply (float_le 0); exact B0).
  assert (M1 : float mp <= float (Z.of_nat h * Z.of_nat w)) by (apply float_le; exact B1).
  assert (R0 : 0 <= float mp / float (Z.of_nat h * Z.of_nat w))
    by (apply Qle_shift_div_l; lra).
  assert (R1 : float mp / float (Z.of_nat h * Z.of_nat w) <= 1)
    by (apply Qle_shift_div_r; lra).
  lra.
Qed.

(** X14.  The motion score is a percentage.  For two frames of the same
    non-empty shape the motion score lies between 0 and 100, and the score
    of a frame against itself is 0. *)
Theorem motion_score_range :
  forall (h w : nat) (prev_frame current_frame : Image),
    (0 < h)%nat -> (0 < w)%nat ->
    shaped h w prev_frame -> shaped h w current_frame ->
    0 <= _calculate_motion_score prev_frame current_frame <= 100 /\
    _calculate_motion_score current_frame current_frame == 0.
Proof.
  intros h w prev cur Hh Hw Sp Sc. split.
  - apply (motion_score_bounds h w); assumption.
  - unfold _calculate_motion_score. cbv zeta. rewrite self_motion_pixels.
    unfold Qdiv. change (float 0) with 0. rewrite Qmult_0_l, Qmult_0_l. reflexivity.
Qed.

Lemma dark_2x2_shaped : shaped 2 2 dark_2x2.
Proof. split; [reflexivity|]. repeat constructor. Qed.

Lemma bright_2x2_shaped : shaped 2 2 bright_2x2.
Proof. split; [reflexivity|]. repeat constructor. Qed.

Lemma motion_score_range_witness :
  (0 < 2)%nat /\ shaped 2 2 dark_2x2 /\ shaped 2 2 bright_2x2 /\
  0 <= _calculate_motion_score dark_2x2 bright_2x2 <= 100.
Proof.
  split; [lia|]. split; [exact dark_2x2_shaped|]. split; [exact bright_2x2_shaped|].
  exact (proj1 (motion_score_range 2 2 dark_2x2 bright_2x2
                  (Nat.lt_0_succ 1) (Nat.lt_0_succ 1) dark_2x2_shaped bright_2x2_shaped)).
Defined.

(** ** The frame loop *)

(** X15.  Only the first 50 frames are read.  Frames after the 50th never
    change the result of the motion analysis. *)
Theorem motion_reads_first_50_frames :
  forall frames extra : list FrameFile,
    (50 <= len frames)%Z ->
    analyze_motion_patterns (frames ++ extra) = analyze_motion_patterns frames.
Proof.
  intros frames extra H. unfold analyze_motion_patterns, len in *.
  rewrite length_app, firstn_app.
  replace (50 - List.length frames)%nat with 0%nat by lia.
  cbn [firstn]. rewrite app_nil_r.
  replace (Z.of_nat (List.length frames + List.length extra) <? 2)%Z with false
    by (symmetry; apply Z.ltb_ge; lia).
  replace (Z.of_nat (List.length frames) <? 2)%Z with false
    by (symmetry; apply Z.ltb_ge; lia).
  reflexivity.
Qed.

Lemma motion_reads_first_50_frames_witness :
  (50 <= len (repeat (Some dark_2x2) 50))%Z /\
  analyze_motion_patterns (repeat (Some dark_2x2) 50 ++ [Some bright_2x2])
    = analyze_motion_patterns (repeat (Some dark_2x2) 50).
Proof.
  assert (H : (50 <= len (repeat (Some dark_2x2) 50))%Z) by (vm_compute; discriminate).
  split; [exact H|].
  exact (motion_reads_first_50_frames (repeat (Some dark_2x2) 50) [Some bright_2x2] H).
Defined.

(** What the frame loop adds to the scores and to the sudden movements. *)
Lemma scan_loop_sudden files :
  forall idx st,
    exists scores' sudden',
      motion_scores (scan_loop files idx st) = motion_scores st ++ scores' /\
      sudden_movements (scan_loop files idx st) = sudden_movements st ++ sudden' /\
      (List.length sudden' <= List.length scores')%nat /\
      Forall (fun m =>
                50 < motion_intensity m /\ In (motion_intensity m) scores' /\
                (idx + match prev_frame st with Some _ => 0 | None => 1 end
                   <= sm_frame_index m < idx + List.length files)%nat)
             sudden'.
Proof.
  induction files as [|file files IH]; intros idx st; cbn [scan_loop].
  - exists [], []. rewrite !app_nil_r. repeat split; constructor.
  - destruct (IH (S idx) (scan_step st idx file)) as (sc & su & E1 & E2 & L & F).
    rewrite E1, E2. clear E1 E2.
    destruct file as [cur|]; cbn [scan_step] in *.
    + destruct (prev_frame st) as [prev|] eqn:Ep;
        cbn [motion_scores sudden_movements prev_frame] in *.
      * destruct (Qltb sudden_movement_threshold (_calculate_motion_score prev cur)) eqn:Es.
        -- exists (_calculate_motion_score prev cur :: sc),
                  ({| sm_frame_index := idx;
                      motion_intensity := _calculate_motion_score prev cur |} :: su).
           rewrite <- !app_assoc. cbn [app List.length].
           split; [reflexivity|]. split; [reflexivity|]. split; [lia|].
           constructor.
           ++ cbn [motion_intensity sm_frame_index]. apply Qltb_lt in Es.
              unfold sudden_movement_threshold in Es.
              split; [lra|]. split; [left; reflexivity | lia].
           ++ eapply Forall_impl; [|exact F]. cbn beta.
              intros m (H1 & H2 & H3). split; [exact H1|]. split; [right; exact H2 | lia].
        -- exists (_calculate_motion_score prev cur :: sc), su.
           rewrite <- !app_assoc. cbn [app List.length].
           split; [reflexivity|]. split; [reflexivity|]. split; [lia|].
           eapply Forall_impl; [|exact F]. cbn beta.
           intros m (H1 & H2 & H3). split; [exact H1|]. split; [right; exact H2 | lia].
      * exists sc, su. cbn [List.length].
        split; [reflexivity|]. split; [reflexivity|]. split; [exact L|].
        eapply Forall_impl; [|exact F]. cbn beta.
        intros m (H1 & H2 & H3). split; [exact H1|]. split; [exact H2 | lia].
    + exists sc, su. cbn [List.length].
      split; [reflexivity|]. split; [reflexivity|]. split; [exact L|].
      eapply Forall_impl; [|exact F]. cbn beta.
      intros m (H1 & H2 & H3). split; [exact H1|]. split; [exact H2|].
      destruct (prev_frame st); lia.
Qed.

(** A property of the score of any two decoded frames holds of every score
    the loop records. *)
Lemma scan_loop_forall (G : Image -> Prop) (P : Q -> Prop) :
  (forall a b, G a -> G b -> P (_calculate_motion_score a b)) ->
  forall files idx st,
    Forall (fun file => match file with Some img => G img | None => True end) files ->
    match prev_frame st with Some p => G p | None => True end ->
    Forall P (motion_scores st) ->
    Forall P (motion_scores (scan_loop files idx st)).
Proof.
  intro HP. induction files as [|file files IH]; intros idx st HF Hp Hs; cbn [scan_loop];
    [exact Hs|].
  inversion HF as [|? ? Hfile Hrest]; subst. apply IH; [exact Hrest | |].
  - destruct file as [cur|]; cbn [scan_step]; [|exact Hp].
    destruct (prev_frame st); cbn [prev_frame]; exact Hfile.
  - destruct file as [cur|]; cbn [scan_step]; [|exact Hs].
    destruct (prev_frame st) as [prev|] eqn:Ep; cbn [motion_scores]; [|exact Hs].
    apply Forall_app. split; [exact Hs|]. constructor; [|constructor].
    apply HP; assumption.
Qed.

(** The fields of the result, from the state the frame loop ends in. *)
Lemma analyzed_fields frames stats :
  analyze_motion_patterns frames = Analyzed stats ->
  let st :=
    scan_loop (firstn 50 frames) 0
      {| motion_scores := []; sudden_movements := []; prev_frame := None |} in
  (exists s0 ss, motion_scores st = s0 :: ss /\ max_motion stats = max_list s0 ss) /\
  average_motion stats = mean (motion_scores st) /\
  motion_variance stats = variance (motion_scores st) /\
  ms_sudden_movements stats = sudden_movements st /\
  ms_chase_sequences stats = _detect_chase_sequences (motion_scores st) /\
  frames_analyzed stats = len (motion_scores st).
Proof.
  unfold analyze_motion_patterns. destruct (len frames <? 2)%Z; [discriminate|].
  cbv zeta.
  destruct (motion_scores (scan_loop (firstn 50 frames) 0 _)) as [|s0 ss] eqn:E;
    [discriminate|].
  intro H. inversion H; subst; clear H.
  cbn [max_motion average_motion motion_variance ms_sudden_movements
       ms_chase_sequences frames_analyzed].
  split; [exists s0, ss; split; reflexivity|]. repeat split.
Qed.

Lemma Qsum_nonneg xs : (forall x, In x xs -> 0 <= x) -> 0 <= Qsum xs.
Proof.
  induction xs as [|x xs IH]; intro H.
  - change (Qsum []) with 0. lra.
  - rewrite Qsum_cons.
    assert (0 <= x) by (apply H; left; reflexivity).
    assert (0 <= Qsum xs) by (apply IH; intros y Hy; apply H; right; exact Hy).
    lra.
Qed.

Lemma Qsum_gt lo xs : xs <> [] -> (forall x, In x xs -> lo < x) -> lo * Qlen xs < Qsum xs.
Proof.
  induction xs as [|x xs IH]; [congruence|]. intros _ H.
  rewrite Qsum_cons, Qlen_cons.
  assert (lo < x) by (apply H; left; reflexivity).
  destruct xs as [|y ys].
  - change (Qlen (@nil Q)) with 0. change (Qsum []) with 0. lra.
  - assert (lo * Qlen (y :: ys) < Qsum (y :: ys)).
    { apply IH; [discriminate|]. intros z Hz. apply H. right. exact Hz. }
    lra.
Qed.

Lemma mean_gt lo xs : xs <> [] -> (forall x, In x xs -> lo < x) -> lo < mean xs.
Proof.
  intros Hne H. unfold mean. pose proof (Qlen_pos xs Hne). pose proof (Qsum_gt lo xs Hne H).
  apply Qlt_shift_div_l; lra.
Qed.

Lemma variance_nonneg xs : xs <> [] -> 0 <= variance xs.
Proof.
  intro Hne. unfold variance. cbv zeta. unfold mean at 1.
  assert (P : 1 <= Qlen (map (fun x => (x - mean xs) * (x - mean xs)) xs)).
  { apply Qlen_pos. destruct xs; [congruence | discriminate]. }
  apply Qle_shift_div_l; [lra|]. rewrite Qmult_0_l.
  apply Qsum_nonneg. intros y Hy. apply in_map_iff in Hy.
  destruct Hy as [x [<- _]]. set (d := x - mean xs).
  destruct (Qlt_le_dec d 0) as [N | N].
  - setoid_replace (d * d) with ((- d) * (- d)) by ring.
    apply Qmult_le_0_compat; lra.
  - apply Qmult_le_0_compat; exact N.
Qed.

(** X16.  The statistics of an analysis that ran.  [frames_analyzed] is one
    less than the number of the first 50 frames that decode, so between 1
    and 49; the variance is not negative; there are at most
    [frames_analyzed] sudden movements, each with an intensity above 50 and
    at most the maximum and a frame index between 1 and 49. *)
Theorem motion_stats_bounds :
  forall (frames : list FrameFile) (stats : MotionStats),
    analyze_motion_patterns frames = Analyzed stats ->
    frames_analyzed stats = (Z.of_nat (decodable (firstn 50 frames)) - 1)%Z /\
    (1 <= frames_analyzed stats <= 49)%Z /\
    0 <= motion_variance stats /\
    (len (ms_sudden_movements stats) <= frames_analyzed stats)%Z /\
    forall m, In m (ms_sudden_movements stats) ->
      50 < motion_intensity m <= max_motion stats /\
      (1 <= sm_frame_index m <= 49)%nat.
Proof.
  intros frames stats H.
  destruct (analyzed_fields frames stats H)
    as ((s0 & ss & Es & Emax) & Eavg & Evar & Esud & _ & Efa).
  pose proof (scan_loop_scores (firstn 50 frames) 0
                {| motion_scores := []; sudden_movements := []; prev_frame := None |}) as L.
  destruct (scan_loop_sudden (firstn 50 frames) 0
              {| motion_scores := []; sudden_movements := []; prev_frame := None |})
    as (sc & su & E1 & E2 & Lsu & F).
  cbn [motion_scores sudden_movements prev_frame List.length Nat.add app] in *.
  pose proof (decodable_le_length (firstn 50 frames)) as D.
  pose proof (length_firstn 50 frames) as Lf.
  assert (Hle : forall x, In x (s0 :: ss) -> x <= max_list s0 ss).
  { intros x [<- | Hx]; [apply max_list_ge_seed | apply max_list_ge; exact Hx]. }
  assert (Hfa : frames_analyzed stats = Z.of_nat (List.length sc)).
  { rewrite Efa, E1. reflexivity. }
  rewrite E1 in L, Es. rewrite Es in L. cbn [List.length] in L.
  split; [rewrite Hfa, Es; cbn [List.length]; lia|].
  split; [rewrite Hfa, Es; cbn [List.length]; lia|].
  split; [rewrite Evar, E1, Es; apply variance_nonneg; discriminate|].
  split; [rewrite Esud, E2, Hfa; unfold len; lia|].
  intros m Hm. rewrite Esud, E2 in Hm. rewrite Forall_forall in F.
  destruct (F m Hm) as (H1 & H2 & H3). rewrite Es in H2.
  split; [split; [exact H1 | rewrite Emax; apply Hle; exact H2] | lia].
Qed.

Lemma motion_stats_bounds_witness :
  exists stats,
    analyze_motion_patterns [Some dark_2x2; Some bright_2x2] = Analyzed stats /\
    frames_analyzed stats = 1%Z /\
    len (ms_sudden_movements stats) = 1%Z /\
    (1 <= frames_analyzed stats <= 49)%Z.
Proof.
  eexists. split; [reflexivity|]. split; [reflexivity|]. split; [reflexivity|].
  exact (proj1 (proj2 (motion_stats_bounds [Some dark_2x2; Some bright_2x2] _ eq_refl))).
Defined.

Lemma in_firstn {A} n (l : list A) x : In x (firstn n l) -> In x l.
Proof.
  intro H. rewrite <- (firstn_skipn n l). apply in_or_app. left. exact H.
Qed.

(** X17.  Scores of resized frames.  When every frame that decodes has the
    same non-empty shape (the loop resizes each one to 320 x 240), the
    average and the maximum motion of an analysis that ran lie between 0 and
    100, and so does the intensity of every sudden movement. *)
Theorem motion_stats_are_percentages :
  forall (h w : nat) (frames : list FrameFile) (stats : MotionStats),
    (0 < h)%nat -> (0 < w)%nat -> frames_shaped h w frames ->
    analyze_motion_patterns frames = Analyzed stats ->
    0 <= average_motion stats <= 100 /\
    0 <= max_motion stats <= 100 /\
    forall m, In m (ms_sudden_movements stats) -> motion_intensity m <= 100.
Proof.
  intros h w frames stats Hh Hw Hs H.
  destruct (analyzed_fields frames stats H)
    as ((s0 & ss & Es & Emax) & Eavg & _ & Esud & _ & _).
  destruct (scan_loop_sudden (firstn 50 frames) 0
              {| motion_scores := []; sudden_movements := []; prev_frame := None |})
    as (sc & su & E1 & E2 & _ & F).
  cbn [motion_scores sudden_movements app] in E1, E2.
  assert (B : Forall (fun s => 0 <= s <= 100)
                (motion_scores
                   (scan_loop (firstn 50 frames) 0
                      {| motion_scores := []; sudden_movements := [];
                         prev_frame := None |}))).
  { apply (scan_loop_forall (shaped h w)).
    - intros a b Sa Sb. apply (motion_score_bounds h w); assumption.
    - apply Forall_forall. intros file Hf. apply in_firstn in Hf.
      unfold frames_shaped in Hs. rewrite Forall_forall in Hs. apply Hs. exact Hf.
    - exact I.
    - constructor. }
  rewrite Es in B. rewrite Forall_forall in B.
  assert (Bmax : 0 <= max_list s0 ss <= 100) by (apply B, max_list_in).
  split.
  { rewrite Eavg, Es. apply mean_bounds; [discriminate | exact B]. }
  split; [rewrite Emax; exact Bmax|].
  intros m Hm. rewrite Esud, E2 in Hm. rewrite Forall_forall in F.
  destruct (F m Hm) as (_ & Hin & _).
  rewrite <- E1, Es in Hin. apply B. exact Hin.
Qed.

Lemma motion_stats_are_percentages_witness :
  exists stats,
    frames_shaped 2 2 [Some dark_2x2; None; Some bright_2x2] /\
    analyze_motion_patterns [Some dark_2x2; None; Some bright_2x2] = Analyzed stats /\
    0 <= max_motion stats <= 100.
Proof.
  assert (S : frames_shaped 2 2 [Some dark_2x2; None; Some bright_2x2]).
  { repeat constructor. }
  eexists. split; [exact S|]. split; [reflexivity|].
  exact (proj1 (proj2 (motion_stats_are_percentages 2 2
                         [Some dark_2x2; None; Some bright_2x2] _
                         (Nat.lt_0_succ 1) (Nat.lt_0_succ 1) S eq_refl))).
Defined.

(** ** Chase sequences *)

Lemma detect_chase_iff scores c :
  In c (_detect_chase_sequences scores) <-> records scores c.
Proof.
  pose proof (chase_inv_loop scores scores [] _ eq_refl (chase_inv_init scores)) as I.
  cbn [List.length] in I.
  destruct (flush_spec scores _ _ I (or_introl eq_refl)) as [Hin _].
  unfold _detect_chase_sequences. cbv zeta.
  unfold flush in Hin. rewrite Hin. split; [tauto|].
  intro Hr. split; [exact Hr|]. apply run_end_le. apply Hr.
Qed.

Lemma slice_in {A} (xs : list A) a d x :
  In x (slice xs a (a + d)) ->
  exists i, (a <= i < a + d)%nat /\ nth_error xs i = Some x.
Proof.
  unfold slice. replace (a + d - a)%nat with d by lia.
  intro H. apply In_nth_error in H. destruct H as [n H].
  rewrite nth_error_firstn in H. destruct (n <? d)%nat eqn:E; [|discriminate].
  apply Nat.ltb_lt in E. rewrite nth_error_skipn in H.
  exists (a + n)%nat. split; [lia | exact H].
Qed.

Lemma slice_length {A} (xs : list A) a d :
  (a + d <= List.length xs)%nat -> List.length (slice xs a (a + d)) = d.
Proof.
  intro H. unfold slice. rewrite length_firstn, length_skipn. lia.
Qed.

(** X18.  What a chase sequence is.  Every chase sequence lasts at least 3
    scores, lies within the list of scores and has an average intensity
    above 35; and of two sequences, the earlier one ends before the score
    just before the later one starts, so sequences never overlap or touch. *)
Theorem chase_sequences_bounds :
  forall (motion_scores : list Q) (c : ChaseSequence),
    In c (_detect_chase_sequences motion_scores) ->
    (3 <= duration_frames c)%nat /\
    (start_frame c + duration_frames c <= List.length motion_scores)%nat /\
    35 < avg_intensity c /\
    forall c', In c' (_detect_chase_sequences motion_scores) ->
      (start_frame c < start_frame c')%nat ->
      (start_frame c + duration_frames c < start_frame c')%nat.
Proof.
  intros scores c Hc. apply detect_chase_iff in Hc.
  destruct Hc as (Hrun & Hd & Eavg).
  pose proof (run_end_le scores _ _ Hrun) as Hend.
  split; [exact Hd|]. split; [exact Hend|]. split.
  - rewrite Eavg. apply mean_gt.
    + intro E. pose proof (slice_length scores _ _ Hend) as L.
      rewrite E in L. cbn in L. lia.
    + intros x Hx. apply slice_in in Hx. destruct Hx as [i [Hi Ex]].
      destruct Hrun as (_ & Hab & _). destruct (Hab i Hi) as [v [Ev Hv]].
      rewrite Ex in Ev. inversion Ev; subst. exact Hv.
  - intros c' Hc' Hlt. apply detect_chase_iff in Hc'.
    destruct Hc' as ((_ & _ & Hs' & _) & _).
    destruct Hs' as [E0 | Hna]; [lia|].
    destruct (Nat.lt_ge_cases (start_frame c + duration_frames c) (start_frame c'))
      as [L | L]; [exact L|].
    exfalso. apply (above_not_above scores (start_frame c' - 1)); [|exact Hna].
    destruct Hrun as (_ & Hab & _). apply Hab. lia.
Qed.

Lemma chase_sequences_bounds_witness :
  In (mkChase 0 3 (mean (slice [36; 40; 50; 10] 0 3))) (_detect_chase_sequences [36; 40; 50; 10]) /\
  35 < mean (slice [36; 40; 50; 10] 0 3).
Proof.
  assert (H : In (mkChase 0 3 (mean (slice [36; 40; 50; 10] 0 3)))
                (_detect_chase_sequences [36; 40; 50; 10]))
    by (left; reflexivity).
  split; [exact H|].
  exact (proj1 (proj2 (proj2 (chase_sequences_bounds [36; 40; 50; 10] _ H)))).
Defined.

End MotionBounds.

(* ================================================================== *)
(** * Further properties of the detection post-processing *)

Module DetectionBounds.
Import Models Spec Samples.
Import DetectionProps AnalyzerProps.

(** ** Thresholds of the confidence filter *)

Lemma category_threshold_le l mc : category_threshold l mc <= 0.30.
Proof.
  unfold category_threshold.
  destruct (mem l critical_labels); [lra|].
  destruct (mem l valuable_items); [lra|].
  destruct (mem l vehicle_items); [lra|].
  destruct (mem l damage_related); [lra|].
  apply py_min_le_l.
Qed.

Lemma category_threshold_ge l mc : 0.10 <= mc -> 0.10 <= category_threshold l mc.
Proof.
  intro H. unfold category_threshold.
  destruct (mem l critical_labels); [lra|].
  destruct (mem l valuable_items); [lra|].
  destruct (mem l vehicle_items); [lra|].
  destruct (mem l damage_related); [lra|].
  destruct (py_min_cases 0.30 mc) as [[-> _] | [-> _]]; lra.
Qed.

Lemma category_threshold_high l mc :
  0.30 <= mc -> category_threshold l mc = category_threshold l 0.30.
Proof.
  intro H. unfold category_threshold.
  destruct (mem l critical_labels); [reflexivity|].
  destruct (mem l valuable_items); [reflexivity|].
  destruct (mem l vehicle_items); [reflexivity|].
  destruct (mem l damage_related); [reflexivity|].
  unfold py_min. apply Qltb_ge in H. rewrite H. reflexivity.
Qed.

Lemma filter_conf_ge frame_objects min_confidence obj :
  0.10 <= min_confidence ->
  In obj (_filter_detections_by_confidence frame_objects min_confidence) ->
  0.10 <= conf obj.
Proof.
  intros Hmc Hin. apply filter_keeps_iff in Hin. destruct Hin as [_ Hc].
  pose proof (category_threshold_ge (lower (label obj)) min_confidence Hmc). lra.
Qed.

(** X19.  The thresholds of the confidence filter.  Whatever its label, an
    object of confidence 0.30 or more is kept; with [min_confidence] at
    least 0.10 nothing below confidence 0.10 is kept; and every
    [min_confidence] of 0.30 or more gives the same result as 0.30. *)
Theorem filter_threshold_range :
  forall (frame_objects : list Detection) (min_confidence : Q),
    (forall obj, In obj frame_objects -> 0.30 <= conf obj ->
       In obj (_filter_detections_by_confidence frame_objects min_confidence)) /\
    (0.10 <= min_confidence ->
       forall obj, In obj (_filter_detections_by_confidence frame_objects min_confidence) ->
         0.10 <= conf obj) /\
    (0.30 <= min_confidence ->
       _filter_detections_by_confidence frame_objects min_confidence
       = _filter_detections_by_confidence frame_objects 0.30).
Proof.
  intros objs mc. split; [|split].
  - intros obj Hin Hc. apply filter_keeps_iff. split; [exact Hin|].
    pose proof (category_threshold_le (lower (label obj)) mc). lra.
  - intros Hmc obj Hin. apply (filter_conf_ge objs mc); assumption.
  - intro Hmc. unfold _filter_detections_by_confidence. apply filter_ext.
    intro obj. unfold passes_threshold.
    rewrite (category_threshold_high _ _ Hmc). reflexivity.
Qed.

(** ** Order and completeness of the suppression *)

Lemma sorted_app {A} (R : A -> A -> Prop) l1 l2 :
  StronglySorted R l1 -> StronglySorted R l2 ->
  (forall x y, In x l1 -> In y l2 -> R x y) ->
  StronglySorted R (l1 ++ l2).
Proof.
  induction 1 as [|a l Hl IH Ha]; intros H2 H; cbn [app]; [exact H2|].
  constructor.
  - apply IH; [exact H2|]. intros x y Hx Hy. apply H; [right; exact Hx | exact Hy].
  - apply Forall_app. split; [exact Ha|].
    apply Forall_forall. intros y Hy. apply H; [left; reflexivity | exact Hy].
Qed.

Lemma sorted_rev {A} (R : A -> A -> Prop) l :
  StronglySorted R l -> StronglySorted (fun a b => R b a) (rev l).
Proof.
  induction 1 as [|a l Hl IH Ha]; cbn [rev]; [constructor|].
  apply sorted_app; [exact IH | repeat constructor|].
  intros x y Hx [<- | []]. apply in_rev in Hx.
  rewrite Forall_forall in Ha. apply Ha, Hx.
Qed.

Lemma sorted_filter {A} (R : A -> A -> Prop) (g : A -> bool) l :
  StronglySorted R l -> StronglySorted R (filter g l).
Proof.
  induction 1 as [|a l Hl IH Ha]; cbn [filter]; [constructor|].
  destruct (g a); [|exact IH]. constructor; [exact IH|].
  apply Forall_forall. intros x Hx. apply filter_In in Hx.
  rewrite Forall_forall in Ha. apply Ha, Hx.
Qed.

Lemma insert_by_conf_sorted x l :
  StronglySorted (fun a b => conf a <= conf b) l ->
  StronglySorted (fun a b => conf a <= conf b) (insert_by_conf x l).
Proof.
  induction 1 as [|y l Hl IH Hy]; cbn [insert_by_conf]; [repeat constructor|].
  rewrite Forall_forall in Hy.
  destruct (Qltb (conf y) (conf x)) eqn:E.
  - apply Qltb_lt in E. constructor; [exact IH|].
    apply Forall_forall. intros z Hz. apply insert_by_conf_in in Hz.
    destruct Hz as [-> | Hz]; [lra | apply Hy, Hz].
  - apply Qltb_ge in E. constructor; [constructor; [exact Hl | apply Forall_forall; exact Hy]|].
    constructor; [exact E|].
    apply Forall_forall. intros z Hz. specialize (Hy z Hz). lra.
Qed.

Lemma argsort_descending_sorted frame_objects :
  StronglySorted (fun a b => conf b <= conf a) (argsort_descending frame_objects).
Proof.
  unfold argsort_descending.
  apply (sorted_rev (fun a b => conf a <= conf b)).
  induction frame_objects as [|x l IH]; cbn [fold_right]; [constructor|].
  apply insert_by_conf_sorted. exact IH.
Qed.

Lemma nms_loop_sorted thr order :
  StronglySorted (fun a b => conf b <= conf a) order ->
  StronglySorted (fun a b => conf b <= conf a) (nms_loop thr order).
Proof.
  funelim (nms_loop thr order); simp nms_loop; try (intros _; constructor; fail).
  intro Hs. inversion Hs as [|? ? Hrest Hi]; subst.
  constructor.
  - match goal with IH : StronglySorted _ (filter _ _) -> _ |- _ => apply IH end.
    apply sorted_filter. exact Hrest.
  - apply Forall_forall. intros x Hx. apply nms_loop_incl in Hx.
    apply filter_In in Hx. rewrite Forall_forall in Hi. apply Hi, Hx.
Qed.

Lemma nms_loop_complete thr order :
  StronglySorted (fun a b => conf b <= conf a) order ->
  forall o, In o order ->
    In o (nms_loop thr order) \/
    exists k, In k (nms_loop thr order) /\ conf o <= conf k /\
              iou_within thr (bbox k) (bbox o) = false.
Proof.
  funelim (nms_loop thr order); simp nms_loop; try (intros _ o []; fail).
  intros Hs o Ho. inversion Hs as [|? ? Hrest Hi]; subst.
  destruct Ho as [<- | Ho]; [left; left; reflexivity|].
  rewrite Forall_forall in Hi.
  destruct (iou_within iou_threshold (bbox i) (bbox o)) eqn:E.
  - match goal with
    | IH : StronglySorted _ (filter _ _) -> _ |- _ =>
        destruct (IH (sorted_filter _ _ _ Hrest) o) as [Hk | (k & Hk & Hc & Hi')]
    end.
    + apply filter_In. split; [exact Ho | exact E].
    + left. right. exact Hk.
    + right. exists k. split; [right; exact Hk|]. split; assumption.
  - right. exists i. split; [left; reflexivity|]. split; [apply Hi, Ho | exact E].
Qed.

Lemma iou_within_false thr k o :
  iou_within thr (bbox k) (bbox o) = false <-> overlap_beyond thr k o.
Proof.
  unfold iou_within, overlap_beyond. destruct (iou (bbox k) (bbox o)) as [v|].
  - apply Qleb_gt.
  - tauto.
Qed.

(** X20.  The kept boxes come best first.  The result of the suppression is
    in descending order of confidence; for a non-empty input it is not
    empty, and its first box has the largest confidence of the input. *)
Theorem nms_keeps_best_first :
  forall (frame_objects : list Detection) (iou_threshold : Q),
    StronglySorted (fun a b => conf b <= conf a) (_apply_nms frame_objects iou_threshold) /\
    (frame_objects <> [] ->
     exists top rest,
       _apply_nms frame_objects iou_threshold = top :: rest /\
       In top frame_objects /\
       forall o, In o frame_objects -> conf o <= conf top).
Proof.
  intros objs thr. unfold _apply_nms.
  pose proof (argsort_descending_sorted objs) as Hs.
  split.
  - destruct (nonempty objs); cbn [negb]; [|constructor].
    apply nms_loop_sorted. exact Hs.
  - intro Hne. apply nonempty_true in Hne. rewrite Hne. cbn [negb].
    apply nonempty_true in Hne.
    destruct (argsort_descending objs) as [|top order] eqn:E.
    + exfalso. destruct objs as [|o objs]; [congruence|].
      assert (Hin : In o (argsort_descending (o :: objs)))
        by (apply argsort_descending_in; left; reflexivity).
      rewrite E in Hin. destruct Hin.
    + simp nms_loop. eexists. eexists. split; [reflexivity|].
      assert (Hin : forall o, In o objs <-> In o (top :: order))
        by (intro o; rewrite <- E; symmetry; apply argsort_descending_in).
      split; [apply Hin; left; reflexivity|].
      intros o Ho. apply Hin in Ho. inversion Hs as [|? ? _ Htop]; subst.
      destruct Ho as [<- | Ho]; [lra|].
      rewrite Forall_forall in Htop. apply Htop, Ho.
Qed.

Lemma nms_keeps_best_first_witness :
  six_boxes <> [] /\
  exists top rest,
    _apply_nms six_boxes 0.45 = top :: rest /\
    In top six_boxes /\
    forall o, In o six_boxes -> conf o <= conf top.
Proof.
  assert (H : six_boxes <> []) by discriminate.
  split; [exact H|].
  exact (proj2 (nms_keeps_best_first six_boxes 0.45) H).
Defined.

(** X21.  Nothing is dropped without cause.  Every input box that the
    suppression does not keep overlaps, beyond the threshold, a kept box of
    at least its confidence. *)
Theorem nms_suppressed_by_kept :
  forall (frame_objects : list Detection) (iou_threshold : Q) (o : Detection),
    In o frame_objects ->
    In o (_apply_nms frame_objects iou_threshold) \/
    exists k,
      In k (_apply_nms frame_objects iou_threshold) /\
      conf o <= conf k /\
      overlap_beyond iou_threshold k o.
Proof.
  intros objs thr o Ho. unfold _apply_nms.
  assert (Hne : nonempty objs = true) by (destruct objs; [destruct Ho | reflexivity]).
  rewrite Hne. cbn [negb].
  apply argsort_descending_in in Ho.
  destruct (nms_loop_complete thr _ (argsort_descending_sorted objs) o Ho)
    as [Hk | (k & Hk & Hc & Hi)]; [left; exact Hk|].
  right. exists k. split; [exact Hk|]. split; [exact Hc|].
  apply iou_within_false. exact Hi.
Qed.

Lemma nms_suppressed_by_kept_witness :
  In (mkDetection "person" 0.5 (mkBBox 0 0 10 10)) six_boxes /\
  (In (mkDetection "person" 0.5 (mkBBox 0 0 10 10)) (_apply_nms six_boxes 0.45) \/
   exists k,
     In k (_apply_nms six_boxes 0.45) /\
     0.5 <= conf k /\
     overlap_beyond 0.45 k (mkDetection "person" 0.5 (mkBBox 0 0 10 10))).
Proof.
  assert (H : In (mkDetection "person" 0.5 (mkBBox 0 0 10 10)) six_boxes)
    by (left; reflexivity).
  split; [exact H|].
  exact (nms_suppressed_by_kept six_boxes 0.45 _ H).
Defined.

(** ** Labels play no part in the suppression *)

Lemma insert_by_conf_relabel f x l :
  insert_by_conf (relabel f x) (map (relabel f) l) = map (relabel f) (insert_by_conf x l).
Proof.
  induction l as [|y l IH]; cbn [map insert_by_conf]; [reflexivity|].
  cbn [relabel conf]. destruct (Qltb (conf y) (conf x)); cbn [map].
  - f_equal. exact IH.
  - reflexivity.
Qed.

Lemma argsort_descending_relabel f l :
  argsort_descending (map (relabel f) l) = map (relabel f) (argsort_descending l).
Proof.
  unfold argsort_descending. rewrite map_rev. f_equal.
  induction l as [|x l IH]; cbn [map fold_right]; [reflexivity|].
  rewrite IH. apply insert_by_conf_relabel.
Qed.

Lemma filter_map_relabel f (g : BBox -> bool) l :
  filter (fun j => g (bbox j)) (map (relabel f) l)
  = map (relabel f) (filter (fun j => g (bbox j)) l).
Proof.
  induction l as [|x l IH]; cbn [map filter]; [reflexivity|].
  cbn [relabel bbox]. destruct (g (bbox x)); cbn [map]; rewrite IH; reflexivity.
Qed.

Lemma nms_loop_relabel f thr order :
  nms_loop thr (map (relabel f) order) = map (relabel f) (nms_loop thr order).
Proof.
  funelim (nms_loop thr order); cbn [map]; simp nms_loop; [reflexivity|].
  cbn [map]. f_equal. cbn [relabel bbox].
  rewrite (filter_map_relabel f (iou_within iou_threshold (bbox i))).
  match goal with IH : forall f, _ |- _ => apply IH end.
Qed.

(** X22.  The suppression is blind to labels.  Replacing the labels of the
    input replaces the labels of the result and changes nothing else: which
    boxes are kept depends on confidences and boxes only, so a box can be
    suppressed by a box of another class. *)
Theorem nms_ignores_labels :
  forall (f : string -> string) (frame_objects : list Detection) (iou_threshold : Q),
    _apply_nms (map (relabel f) frame_objects) iou_threshold
    = map (relabel f) (_apply_nms frame_objects iou_threshold).
Proof.
  intros f objs thr. unfold _apply_nms.
  destruct objs as [|o objs]; [reflexivity|].
  cbn [map nonempty negb].
  change (relabel f o :: map (relabel f) objs) with (map (relabel f) (o :: objs)).
  rewrite argsort_descending_relabel. apply nms_loop_relabel.
Qed.

(** ** [run_detection_model] *)

Lemma detection_loop_nth preds :
  forall frame_idx i name boxes,
    nth_error preds i = Some (name, boxes) ->
    nth_error (detection_loop preds frame_idx) i
    = Some {| frame := Some name;
              frame_index := Some (frame_idx + Z.of_nat i)%Z;
              objects := match boxes with
                         | Some frame_objects => postprocess_frame frame_objects
                         | None => []
                         end |}.
Proof.
  induction preds as [|[n b] preds IH]; intros k i name boxes H.
  - destruct i; discriminate.
  - destruct i as [|i]; cbn [nth_error detection_loop] in *.
    + inversion H; subst. rewrite Z.add_0_r. reflexivity.
    + rewrite (IH _ _ _ _ H).
      replace (k + 1 + Z.of_nat i)%Z with (k + Z.of_nat (S i))%Z by lia. reflexivity.
Qed.

Lemma detection_loop_length preds :
  forall frame_idx, List.length (detection_loop preds frame_idx) = List.length preds.
Proof.
  induction preds as [|[n b] preds IH]; intro k; cbn [detection_loop List.length];
    [reflexivity|].
  rewrite IH. reflexivity.
Qed.

(** X23.  One entry per frame.  [run_detection_model] returns one entry per
    frame, in order; the entry of the frame at position [i] carries its name
    and [frame_index = i]; it has no objects when processing the frame
    failed, and otherwise only detected objects of confidence at least 0.10
    that passed the filter. *)
Theorem detection_entries_follow_frames :
  forall (preds : list Prediction),
    List.length (run_detection_model preds) = List.length preds /\
    forall i name boxes,
      nth_error preds i = Some (name, boxes) ->
      exists f,
        nth_error (run_detection_model preds) i = Some f /\
        frame f = Some name /\
        frame_idx_of f = Z.of_nat i /\
        match boxes with
        | None => objects f = []
        | Some frame_objects =>
            forall obj, In obj (objects f) ->
              In obj frame_objects /\ 0.10 <= conf obj
        end.
Proof.
  intro preds. unfold run_detection_model.
  split; [apply detection_loop_length|].
  intros i name boxes H. eexists. split; [apply detection_loop_nth; exact H|].
  cbn [frame frame_index objects frame_idx_of]. split; [reflexivity|].
  split; [reflexivity|].
  destruct boxes as [objs|]; [|reflexivity].
  intros obj Hobj. unfold postprocess_frame in Hobj.
  apply apply_nms_incl in Hobj.
  split; [apply filter_keeps_iff in Hobj; apply Hobj|].
  apply (filter_conf_ge objs 0.45); [lra | exact Hobj].
Qed.

End DetectionBounds.

(* ================================================================== *)
(** * The clips of the action recognition *)

Module ClipProps.
Import ClipSchedule.
Import AnalyzerProps.

Lemma clip_length_short n : (n <= 50)%Z -> clip_length n = n.
Proof. intro H. unfold clip_length, max_frames. lia. Qed.

Lemma clip_length_long n : (50 < n)%Z -> clip_length n = 50%Z.
Proof. intro H. unfold clip_length, max_frames. lia. Qed.

Lemma stride_long n : (50 < n)%Z -> stride n = 25%Z.
Proof. intro H. unfold stride. rewrite (clip_length_long n H). reflexivity. Qed.

Lemma actual_clips_short n : (8 <= n <= 50)%Z -> actual_clips n = 1%Z.
Proof.
  intro H. unfold actual_clips, num_clips.
  rewrite (clip_length_short n) by lia.
  rewrite Z.sub_diag, Z.div_0_l; [reflexivity|].
  unfold stride. lia.
Qed.

Lemma actual_clips_long n :
  (50 < n)%Z -> actual_clips n = Z.min 5 ((n - 50) / 25 + 1).
Proof.
  intro H. unfold actual_clips, num_clips.
  rewrite (clip_length_long n H), (stride_long n H).
  assert (0 <= (n - 50) / 25)%Z by (apply Z.div_pos; lia). lia.
Qed.

(** One iteration on a long video: no adjustment, no [break]. *)
Lemma clip_bounds_long n clip_idx :
  (50 < n)%Z -> (0 <= clip_idx)%Z -> (25 * clip_idx + 50 <= n)%Z ->
  clip_bounds n clip_idx = Some (25 * clip_idx, 25 * clip_idx + 50)%Z.
Proof.
  intros Hn H0 H. unfold clip_bounds.
  rewrite (clip_length_long n Hn), (stride_long n Hn). cbv zeta.
  replace (clip_idx * 25)%Z with (25 * clip_idx)%Z by lia.
  replace (Z.min (25 * clip_idx + 50) n) with (25 * clip_idx + 50)%Z by lia.
  replace (25 * clip_idx + 50 - 25 * clip_idx <? 50)%Z with false
    by (symmetry; apply Z.ltb_ge; lia).
  rewrite andb_false_r.
  replace (25 * clip_idx >=? n)%Z with false by (symmetry; rewrite Z.geb_leb; apply Z.leb_gt; lia).
  reflexivity.
Qed.

Lemma schedule_from_long n :
  (50 < n)%Z ->
  forall count clip_idx,
    (0 <= clip_idx)%Z ->
    (25 * (clip_idx + Z.of_nat count - 1) + 50 <= n)%Z ->
    schedule_from n clip_idx count
    = map (fun k => (25 * (clip_idx + Z.of_nat k), 25 * (clip_idx + Z.of_nat k) + 50)%Z)
        (seq 0 count).
Proof.
  intros Hn. induction count as [|count IH]; intros clip_idx H0 H; [reflexivity|].
  cbn [schedule_from]. rewrite (clip_bounds_long n clip_idx Hn H0) by lia.
  cbn [seq map]. rewrite Z.add_0_r. f_equal.
  rewrite IH by lia. rewrite <- seq_shift, map_map.
  apply map_ext. intro k. rewrite Nat2Z.inj_succ.
  replace (clip_idx + 1 + Z.of_nat k)%Z with (clip_idx + Z.succ (Z.of_nat k))%Z by lia.
  reflexivity.
Qed.

Lemma clip_schedule_short n : (8 <= n <= 50)%Z -> clip_schedule n = [(0, n)%Z].
Proof.
  intro H. unfold clip_schedule. rewrite (actual_clips_short n H).
  change (Z.to_nat 1) with 1%nat. cbn [schedule_from]. unfold clip_bounds.
  rewrite (clip_length_short n) by lia. cbv zeta. rewrite Z.mul_0_l, Z.add_0_l.
  rewrite Z.min_id, Z.eqb_refl, Z.sub_0_r, Z.ltb_irrefl. cbn [andb].
  replace (0 >=? n)%Z with false by (symmetry; rewrite Z.geb_leb; apply Z.leb_gt; lia).
  reflexivity.
Qed.

Lemma clip_schedule_long n :
  (50 < n)%Z ->
  clip_schedule n
  = map (fun k => (25 * Z.of_nat k, 25 * Z.of_nat k + 50)%Z)
      (seq 0 (Z.to_nat (Z.min 5 ((n - 50) / 25 + 1)))).
Proof.
  intro H. unfold clip_schedule. rewrite (actual_clips_long n H).
  assert (D0 : (0 <= (n - 50) / 25)%Z) by (apply Z.div_pos; lia).
  assert (D1 : (25 * ((n - 50) / 25) <= n - 50)%Z) by (apply Z.mul_div_le; lia).
  rewrite (schedule_from_long n H) by lia.
  apply map_ext. intro k. rewrite Z.add_0_l. reflexivity.
Qed.

(** X24.  The clips that are cut.  A video of 8 to 50 frames gives one clip
    that holds every frame.  A longer video gives clips of exactly 50 frames
    that start every 25 frames, as many as fit, at most 5.  So every clip
    lies within the video and has [min(50, n)] frames, and frames from index
    150 on are in no clip. *)
Theorem clip_schedule_spec :
  forall n : Z,
    (8 <= n)%Z ->
    ((n <= 50)%Z -> clip_schedule n = [(0, n)%Z]) /\
    ((50 < n)%Z ->
       clip_schedule n
       = map (fun k => (25 * Z.of_nat k, 25 * Z.of_nat k + 50)%Z)
           (seq 0 (Z.to_nat (Z.min 5 ((n - 50) / 25 + 1))))) /\
    (1 <= len (clip_schedule n) <= 5)%Z /\
    forall start_idx end_idx,
      In (start_idx, end_idx) (clip_schedule n) ->
      (0 <= start_idx)%Z /\ (end_idx - start_idx = Z.min 50 n)%Z /\
      (end_idx <= n)%Z /\ (end_idx <= 150)%Z.
Proof.
  intros n H8.
  split; [intro H; apply clip_schedule_short; lia|].
  split; [apply clip_schedule_long|].
  destruct (Z_le_gt_dec n 50) as [Hs | Hl].
  - rewrite (clip_schedule_short n) by lia. split; [cbn; lia|].
    intros s e [E | []]. inversion E; subst. lia.
  - rewrite (clip_schedule_long n) by lia.
    assert (D0 : (0 <= (n - 50) / 25)%Z) by (apply Z.div_pos; lia).
    assert (D1 : (25 * ((n - 50) / 25) <= n - 50)%Z) by (apply Z.mul_div_le; lia).
    split; [unfold len; rewrite length_map, length_seq; lia|].
    intros s e Hin. apply in_map_iff in Hin. destruct Hin as [k [E Hk]].
    apply in_seq in Hk. cbv beta in E. apply pair_equal_spec in E.
    destruct E as [<- <-]. lia.
Qed.

Lemma clip_schedule_spec_witness :
  (8 <= 130)%Z /\
  clip_schedule 130
  = map (fun k => (25 * Z.of_nat k, 25 * Z.of_nat k + 50)%Z)
      (seq 0 (Z.to_nat (Z.min 5 ((130 - 50) / 25 + 1)))) /\
  clip_schedule 130 = [(0, 50); (25, 75); (50, 100); (75, 125)]%Z.
Proof.
  assert (H : (8 <= 130)%Z) by lia.
  split; [exact H|]. split; [|reflexivity].
  apply (proj1 (proj2 (clip_schedule_spec 130 H))). lia.
Defined.

(** X25.  The clip types.  With the (at most 5) clips the schedule gives, a
    single clip is of type "middle"; of two or more clips the first is
    "beginning", the last is "end", and every clip between them is
    "middle". *)
Theorem clip_types :
  forall actual_clips : Z,
    (1 <= actual_clips <= 5)%Z ->
    clip_type_of 0 actual_clips
      = (if (actual_clips =? 1)%Z then "middle" else "beginning") /\
    ((2 <= actual_clips)%Z -> clip_type_of (actual_clips - 1) actual_clips = "end") /\
    forall clip_idx,
      (0 < clip_idx < actual_clips - 1)%Z -> clip_type_of clip_idx actual_clips = "middle".
Proof.
  intros c H.
  assert (C : c = 1%Z \/ c = 2%Z \/ c = 3%Z \/ c = 4%Z \/ c = 5%Z) by lia.
  destruct C as [-> | [-> | [-> | [-> | ->]]]];
    (split; [reflexivity|]); (split; [intro; try reflexivity; lia|]);
    intros k Hk.
  - lia.
  - lia.
  - assert (k = 1%Z) by lia. subst. reflexivity.
  - assert (C : k = 1%Z \/ k = 2%Z) by lia. destruct C as [-> | ->]; reflexivity.
  - assert (C : k = 1%Z \/ k = 2%Z \/ k = 3%Z) by lia.
    destruct C as [-> | [-> | ->]]; reflexivity.
Qed.

Lemma clip_types_witness :
  (1 <= 5 <= 5)%Z /\
  clip_type_of 0 5 = "beginning" /\
  clip_type_of 1 5 = "middle" /\
  clip_type_of 3 5 = "middle" /\
  clip_type_of 4 5 = "end".
Proof.
  assert (H : (1 <= 5 <= 5)%Z) by lia.
  split; [exact H|].
  destruct (clip_types 5 H) as (H0 & Hend & Hmid).
  split; [exact H0|]. split; [apply Hmid; lia|]. split; [apply Hmid; lia|].
  apply Hend. lia.
Defined.

End ClipProps.

(* ================================================================== *)
(** * The event evaluator *)

Module EventProps.
Import CrimePatternAnalyzer Utils Spec Samples.
Import AggregatorProps WeaponProps AnalyzerProps.

(** ** Counting objects by label *)

Lemma counts_incr_get counts l k :
  counts_get (counts_incr counts l) k 0
  = (counts_get counts k 0 + (if String.eqb l k then 1 else 0))%Z.
Proof.
  induction counts as [|[k0 n] rest IH]; cbn [counts_incr counts_get].
  - destruct (String.eqb l k); reflexivity.
  - destruct (String.eqb_spec k0 l) as [-> | Hne]; cbn [counts_get].
    + destruct (String.eqb l k); lia.
    + destruct (String.eqb_spec k0 k) as [-> | Hne'].
      * destruct (String.eqb_spec l k) as [-> | _]; [congruence | lia].
      * exact IH.
Qed.

Lemma counts_incr_keys counts l k :
  In k (map fst (counts_incr counts l)) <-> k = l \/ In k (map fst counts).
Proof.
  induction counts as [|[k0 n] rest IH]; cbn [counts_incr map fst In].
  - intuition congruence.
  - destruct (String.eqb_spec k0 l) as [-> | Hne]; cbn [map fst In].
    + intuition congruence.
    + rewrite IH. intuition congruence.
Qed.

Lemma counts_incr_nodup counts l :
  NoDup (map fst counts) -> NoDup (map fst (counts_incr counts l)).
Proof.
  induction counts as [|[k0 n] rest IH]; cbn [counts_incr map fst]; intro H.
  - repeat constructor. intros [].
  - inversion H as [|? ? Hk Hrest]; subst.
    destruct (String.eqb_spec k0 l) as [-> | Hne]; cbn [map fst].
    + constructor; assumption.
    + constructor; [|apply IH; exact Hrest].
      rewrite counts_incr_keys. intros [E | E]; [congruence | contradiction].
Qed.

Lemma fold_add_shift l : forall a, fold_left Z.add l a = (a + fold_left Z.add l 0)%Z.
Proof.
  induction l as [|x l IH]; intro a; cbn [fold_left]; [lia|].
  rewrite (IH (a + x)%Z), (IH (0 + x)%Z). lia.
Qed.

Lemma counts_incr_total counts l :
  fold_left Z.add (map snd (counts_incr counts l)) 0%Z
  = (fold_left Z.add (map snd counts) 0 + 1)%Z.
Proof.
  induction counts as [|[k0 n] rest IH]; cbn [counts_incr map snd fold_left];
    [reflexivity|].
  destruct (String.eqb k0 l); cbn [map snd fold_left].
  - rewrite (fold_add_shift _ (0 + (n + 1))%Z), (fold_add_shift _ (0 + n)%Z). lia.
  - rewrite (fold_add_shift _ (0 + n)%Z), IH, (fold_add_shift (map snd rest) (0 + n)%Z).
    lia.
Qed.

Lemma count_fold objects :
  forall counts,
    let result :=
      fold_left (fun counts obj => counts_incr counts (lower (label obj))) objects counts in
    (NoDup (map fst counts) -> NoDup (map fst result)) /\
    (forall l, counts_get result l 0
               = (counts_get counts l 0
                  + len (filter (fun o => String.eqb (lower (label o)) l) objects))%Z) /\
    (forall l, In l (map fst result) <->
               In l (map fst counts) \/ exists o, In o objects /\ lower (label o) = l) /\
    fold_left Z.add (map snd result) 0%Z
    = (fold_left Z.add (map snd counts) 0 + len objects)%Z.
Proof.
  induction objects as [|obj objects IH]; intro counts; cbn [fold_left].
  - cbv zeta. unfold len. cbn [filter List.length Z.of_nat].
    split; [auto|]. split; [intro; lia|]. split; [|lia].
    intro l. split; [auto|]. intros [H | [o [[] _]]]. exact H.
  - destruct (IH (counts_incr counts (lower (label obj)))) as (H1 & H2 & H3 & H4).
    cbv zeta in *. split; [|split; [|split]].
    + intro H. apply H1, counts_incr_nodup, H.
    + intro l. rewrite H2, counts_incr_get. cbn [filter].
      destruct (String.eqb (lower (label obj)) l); unfold len; cbn [List.length]; lia.
    + intro l. rewrite H3, counts_incr_keys. split.
      * intros [[E | H] | [o [Ho E]]].
        -- right. exists obj. split; [left; reflexivity | congruence].
        -- left. exact H.
        -- right. exists o. split; [right; exact Ho | exact E].
      * intros [H | [o [[<- | Ho] E]]].
        -- left. right. exact H.
        -- left. left. congruence.
        -- right. exists o. split; assumption.
    + rewrite H4, counts_incr_total. unfold len. cbn [List.length]. lia.
Qed.

Lemma count_get objects l :
  counts_get (_count_objects_by_label objects) l 0
  = len (filter (fun o => String.eqb (lower (label o)) l) objects).
Proof.
  unfold _count_objects_by_label.
  destruct (count_fold objects []) as (_ & H & _). cbv zeta in H. rewrite H. reflexivity.
Qed.

Lemma count_keys objects l :
  In l (map fst (_count_objects_by_label objects)) <->
  exists o, In o objects /\ lower (label o) = l.
Proof.
  unfold _count_objects_by_label.
  destruct (count_fold objects []) as (_ & _ & H & _). cbv zeta in H. rewrite H.
  cbn [map In]. tauto.
Qed.

(** X26.  Counting by label.  [_count_objects_by_label] has one entry per
    lower-cased label that occurs; the count of a label is the number of
    objects that carry it (0 for a label that does not occur), and the
    counts add up to the number of objects. *)
Theorem count_objects_spec :
  forall objects : list Detection,
    NoDup (map fst (_count_objects_by_label objects)) /\
    (forall l, counts_get (_count_objects_by_label objects) l 0
               = len (filter (fun o => String.eqb (lower (label o)) l) objects)) /\
    (forall l, In l (map fst (_count_objects_by_label objects)) <->
               exists o, In o objects /\ lower (label o) = l) /\
    fold_left Z.add (map snd (_count_objects_by_label objects)) 0%Z = len objects.
Proof.
  intro objects. split; [|split; [|split]].
  - unfold _count_objects_by_label.
    destruct (count_fold objects []) as (H & _). apply H. constructor.
  - apply count_get.
  - apply count_keys.
  - unfold _count_objects_by_label.
    destruct (count_fold objects []) as (_ & _ & _ & H). cbv zeta in H. rewrite H.
    reflexivity.
Qed.

(** ** Where an event comes from *)

Lemma labels_in_nonempty objects labels :
  nonempty (labels_in (_count_objects_by_label objects) labels) = true <->
  exists o, In o objects /\ mem (lower (label o)) labels = true.
Proof.
  unfold labels_in. rewrite filter_nonempty. split.
  - intros [l [Hl Hm]]. apply count_keys in Hl. destruct Hl as [o [Ho <-]]. eauto.
  - intros [o [Ho Hm]]. exists (lower (label o)).
    split; [apply count_keys; eauto | exact Hm].
Qed.

Lemma frame_events_cases f e :
  In e (frame_events f) ->
  ev_source e = "object_detection" /\
  ((ev_type e = "weapon_like_object_detected" /\
    (exists o, In o (objects f) /\ mem (lower (label o)) WEAPON_LABELS = true) /\
    ((ev_confidence e = 0.9 /\ ev_severity e = "critical") \/
     (ev_confidence e = 0.7 /\ ev_severity e = "high"))) \/
   (ev_type e = "valuable_items_with_multiple_persons" /\
    ev_confidence e = 0.6 /\ ev_severity e = "medium") \/
   (ev_type e = "crowd_activity" /\
    0 < ev_confidence e <= 0.8 /\ In (ev_severity e) ["low"; "medium"])).
Proof.
  unfold frame_events. cbv zeta. rewrite !in_app_iff. intros [H | [H | H]].
  - destruct (nonempty (labels_in _ WEAPON_LABELS)) eqn:E; [|destruct H].
    destruct H as [<- | []]. cbn [ev_source ev_type ev_confidence ev_severity].
    split; [reflexivity|]. left. split; [reflexivity|].
    split; [apply labels_in_nonempty; exact E|].
    destruct (_ >? 0)%Z; auto.
  - destruct (_ && _); [|destruct H].
    destruct H as [<- | []]. cbn [ev_source ev_type ev_confidence ev_severity].
    split; [reflexivity|]. right. left. auto.
  - destruct (_ >=? 3)%Z eqn:E; [|destruct H].
    destruct H as [<- | []]. cbn [ev_source ev_type ev_confidence ev_severity].
    split; [reflexivity|]. right. right. split; [reflexivity|].
    apply Z.geb_le in E.
    assert (P : 3 <= float (counts_get (_count_objects_by_label (objects f)) PERSON_LABEL 0))
      by (apply (float_le 3); exact E).
    split.
    + destruct (py_min_cases 0.8
                  (0.4 + float (counts_get (_count_objects_by_label (objects f))
                                  PERSON_LABEL 0) * 0.05))
        as [[-> _] | [-> L]]; lra.
    + destruct (_ <? 7)%Z; cbn; auto.
Qed.

Lemma frame_weapon_event f :
  (exists o, In o (objects f) /\ mem (lower (label o)) WEAPON_LABELS = true) ->
  exists e, In e (frame_events f) /\ ev_type e = "weapon_like_object_detected".
Proof.
  intro H. apply labels_in_nonempty in H. unfold frame_events. cbv zeta. rewrite H.
  eexists. split; [apply in_or_app; left; left; reflexivity | reflexivity].
Qed.

Lemma temporal_events_cases total wf vf e :
  In e (temporal_events total wf vf) ->
  ev_source e = "temporal_analysis" /\
  ((In (ev_type e) ["weapon_persistent_presence"; "weapon_detected"] /\ wf <> [] /\
    In (ev_confidence e) [0.90; 0.75] /\ ev_severity e = "critical") \/
   (ev_type e = "valuable_items_sudden_change" /\
    ev_confidence e = 0.65 /\ ev_severity e = "medium")).
Proof.
  unfold temporal_events. rewrite in_app_iff. intros [H | H].
  - destruct (len wf >=? 1)%Z eqn:E; [|destruct H].
    destruct H as [<- | []]. cbn [ev_source ev_type ev_confidence ev_severity].
    split; [reflexivity|]. left.
    assert (Hne : wf <> []) by (intros ->; discriminate).
    destruct (len wf >=? 2)%Z; cbn [In]; auto 6.
  - destruct vf as [|v0 vs]; [destruct H|]. cbv zeta in H.
    destruct (Qltb _ _); [|destruct H].
    destruct H as [<- | []]. cbn [ev_source ev_type ev_confidence ev_severity].
    split; [reflexivity|]. right. auto.
Qed.

Lemma action_events_cases clip act e :
  In e (action_events clip act) ->
  ev_source e = "action_recognition" /\
  (if ae_is_crime_relevant act then 0.001 else 0.08) <= ae_prob act /\
  (exists keywords,
     In (ev_type e, keywords) ACTION_KEYWORDS /\
     any_in keywords (lower (ae_label act)) = true) /\
  ev_confidence e = ae_prob act /\
  ev_severity e = action_severity (ev_type e) (ae_prob act).
Proof.
  unfold action_events. cbv zeta.
  destruct (Qltb (ae_prob act) _) eqn:E; [intros []|]. apply Qltb_ge in E.
  intro H. apply in_flat_map in H. destruct H as [[et kws] [Hin H]].
  destruct (any_in kws (lower (ae_label act))) eqn:Ea; [|destruct H].
  destruct H as [<- | []]. cbn [ev_source ev_type ev_confidence ev_severity].
  split; [reflexivity|]. split; [exact E|]. split; [exists kws; auto|]. auto.
Qed.

Lemma action_event_exists clip act event_type keywords :
  (if ae_is_crime_relevant act then 0.001 else 0.08) <= ae_prob act ->
  In (event_type, keywords) ACTION_KEYWORDS ->
  any_in keywords (lower (ae_label act)) = true ->
  exists e, In e (action_events clip act) /\ ev_type e = event_type.
Proof.
  intros Hp Hin Ha. unfold action_events. cbv zeta.
  apply Qltb_ge in Hp. rewrite Hp.
  eexists. split.
  - apply in_flat_map. exists (event_type, keywords). split; [exact Hin|].
    rewrite Ha. left. reflexivity.
  - reflexivity.
Qed.

(** The three places an event of the list before the correlation step
    comes from. *)
Lemma before_cases detections actions e :
  In e (events_before_correlation detections actions) <->
  (exists f, In f detections /\ In e (frame_events f)) \/
  In e (temporal_events (len detections)
          (flat_map weapon_frame_of detections) (flat_map valuable_frame_of detections)) \/
  (exists clip act,
     In clip actions /\ In act (ce_top_actions clip) /\ In e (action_events clip act)).
Proof.
  unfold events_before_correlation. rewrite !in_app_iff, !in_flat_map.
  split.
  - intros [H | [H | [clip [Hc H]]]]; [left; exact H | right; left; exact H|].
    apply in_flat_map in H. destruct H as [act [Ha H]].
    right. right. exists clip, act. auto.
  - intros [H | [H | [clip [act (Hc & Ha & H)]]]]; [left; exact H | right; left; exact H|].
    right. right. exists clip. split; [exact Hc|].
    apply in_flat_map. exists act. auto.
Qed.

Lemma weapon_frames_seen detections :
  flat_map weapon_frame_of detections <> [] -> weapon_object_seen detections.
Proof.
  intro H. destruct (flat_map weapon_frame_of detections) as [|x xs] eqn:E; [congruence|].
  assert (Hx : In x (flat_map weapon_frame_of detections)) by (rewrite E; left; reflexivity).
  apply in_flat_map in Hx. destruct Hx as [f [Hf Hx]].
  unfold weapon_frame_of in Hx.
  destruct (nonempty (labels_in _ WEAPON_LABELS)) eqn:En; [|destruct Hx].
  apply labels_in_nonempty in En. destruct En as [o [Ho Hm]].
  exists f, o. auto.
Qed.

(** The type of an action event decides the two tests of the correlation
    step. *)
Lemma action_type_tests t keywords :
  In (t, keywords) ACTION_KEYWORDS ->
  (contains "weapon" t = true <-> t = "possible_weapon_incident") /\
  (contains "assault" t || contains "fight" t = true <-> t = "possible_assault_or_fight") /\
  ~ In t ["armed_conflict_detected"; "weapon_like_object_detected";
          "weapon_detected"; "weapon_persistent_presence"].
Proof.
  unfold ACTION_KEYWORDS. cbn [In]. intro H.
  repeat (destruct H as [H | H];
          [ apply pair_equal_spec in H; destruct H as [<- _];
            (split; [|split]);
            [ split; intro X; try reflexivity; try (vm_compute in X; discriminate X);
              discriminate X
            | split; intro X; try reflexivity; try (vm_compute in X; discriminate X);
              discriminate X
            | cbn [In]; intros [X | [X | [X | [X | []]]]]; discriminate X ]
          | ]).
  destruct H.
Qed.

Lemma weapon_events_iff detections actions :
  (exists e, In e (events_before_correlation detections actions) /\
             is_weapon_event e = true) <->
  weapon_object_seen detections \/ action_reported "possible_weapon_incident" actions.
Proof.
  split.
  - intros [e [He Hw]]. unfold is_weapon_event in Hw. apply before_cases in He.
    destruct He as [[f [Hf He]] | [He | [clip [act (Hc & Ha & He)]]]].
    + apply frame_events_cases in He.
      destruct He as (_ & [(_ & [o [Ho Hm]] & _) | [(Et & _) | (Et & _)]]).
      * left. exists f, o. auto.
      * rewrite Et in Hw. vm_compute in Hw. discriminate Hw.
      * rewrite Et in Hw. vm_compute in Hw. discriminate Hw.
    + apply temporal_events_cases in He.
      destruct He as (_ & [(_ & Hne & _) | (Et & _)]).
      * left. apply weapon_frames_seen. exact Hne.
      * rewrite Et in Hw. vm_compute in Hw. discriminate Hw.
    + apply action_events_cases in He.
      destruct He as (_ & Hp & [kws [Hin Hany]] & _).
      apply (action_type_tests _ _ Hin) in Hw. rewrite Hw in Hin.
      right. exists clip, act, kws. auto.
  - intros [[f [o (Hf & Ho & Hm)]] | [clip [act [kws (Hc & Ha & Hp & Hin & Hany)]]]].
    + destruct (frame_weapon_event f) as [e [He Et]]; [exists o; auto|].
      exists e. split; [apply before_cases; left; exists f; auto|].
      unfold is_weapon_event. rewrite Et. reflexivity.
    + destruct (action_event_exists clip act _ _ Hp Hin Hany) as [e [He Et]].
      exists e. split; [apply before_cases; right; right; exists clip, act; auto|].
      unfold is_weapon_event. rewrite Et. reflexivity.
Qed.

Lemma fight_events_iff detections actions :
  (exists e, In e (events_before_correlation detections actions) /\
             is_fight_event e = true) <->
  action_reported "possible_assault_or_fight" actions.
Proof.
  split.
  - intros [e [He Hw]]. unfold is_fight_event in Hw. apply before_cases in He.
    destruct He as [[f [Hf He]] | [He | [clip [act (Hc & Ha & He)]]]].
    + apply frame_events_cases in He.
      destruct He as (_ & [(Et & _) | [(Et & _) | (Et & _)]]);
        rewrite Et in Hw; vm_compute in Hw; discriminate Hw.
    + apply temporal_events_cases in He.
      destruct He as (_ & [([Et | [Et | []]] & _) | (Et & _)]);
        first [rewrite <- Et in Hw | rewrite Et in Hw]; vm_compute in Hw; discriminate Hw.
    + apply action_events_cases in He.
      destruct He as (_ & Hp & [kws [Hin Hany]] & _).
      apply (action_type_tests _ _ Hin) in Hw. rewrite Hw in Hin.
      exists clip, act, kws. auto.
  - intros [clip [act [kws (Hc & Ha & Hp & Hin & Hany)]]].
    destruct (action_event_exists clip act _ _ Hp Hin Hany) as [e [He Et]].
    exists e. split; [apply before_cases; right; right; exists clip, act; auto|].
    unfold is_fight_event. rewrite Et. reflexivity.
Qed.

(** The types of the events before the correlation step. *)
Lemma before_types detections actions e :
  In e (events_before_correlation detections actions) ->
  ev_type e <> "armed_conflict_detected" /\
  (In (ev_type e) ["weapon_like_object_detected"; "weapon_detected";
                   "weapon_persistent_presence"] ->
   weapon_object_seen detections).
Proof.
  intro He. apply before_cases in He.
  destruct He as [[f [Hf He]] | [He | [clip [act (Hc & Ha & He)]]]].
  - apply frame_events_cases in He.
    destruct He as (_ & [(Et & [o [Ho Hm]] & _) | [(Et & _) | (Et & _)]]); rewrite Et;
      (split; [discriminate|]).
    + intros _. exists f, o. auto.
    + cbn [In]. intros [X | [X | [X | []]]]; discriminate X.
    + cbn [In]. intros [X | [X | [X | []]]]; discriminate X.
  - apply temporal_events_cases in He.
    destruct He as (_ & [([Et | [Et | []]] & Hne & _) | (Et & _)]);
      first [rewrite <- Et | rewrite Et]; (split; [discriminate|]).
    + intros _. apply weapon_frames_seen. exact Hne.
    + intros _. apply weapon_frames_seen. exact Hne.
    + cbn [In]. intros [X | [X | [X | []]]]; discriminate X.
  - apply action_events_cases in He.
    destruct He as (_ & _ & [kws [Hin _]] & _).
    destruct (action_type_tests _ _ Hin) as (_ & _ & Hn).
    split.
    + intro X. apply Hn. left. symmetry. exact X.
    + intro X. exfalso. apply Hn. right. exact X.
Qed.

(** X27.  The armed-conflict event.  The result holds an event of type
    "armed_conflict_detected" exactly when a weapon was reported (an object
    with a weapon label in some frame, or a weapon-incident action) and an
    assault-or-fight action was reported; such an event is the last one of
    the result, so there is at most one. *)
Theorem armed_conflict_iff :
  forall (detections : list FrameInfo) (actions : list ClipEntry),
    ((exists e, In e (evaluate_unlawful_events detections actions) /\
                ev_type e = "armed_conflict_detected") <->
     (weapon_object_seen detections \/
      action_reported "possible_weapon_incident" actions) /\
     action_reported "possible_assault_or_fight" actions) /\
    (forall i e,
       nth_error (evaluate_unlawful_events detections actions) i = Some e ->
       ev_type e = "armed_conflict_detected" ->
       S i = List.length (evaluate_unlawful_events detections actions)).
Proof.
  intros detections actions.
  pose proof (weapon_events_iff detections actions) as Hw.
  pose proof (fight_events_iff detections actions) as Hf.
  pose proof (before_types detections actions) as Ht.
  unfold evaluate_unlawful_events. cbv zeta.
  set (events := events_before_correlation detections actions) in *.
  rewrite <- Hw, <- Hf, <- !filter_nonempty.
  destruct (nonempty (filter is_weapon_event events)
            && nonempty (filter is_fight_event events)) eqn:E.
  - apply andb_true_iff in E. split.
    + split; [intros _; exact E|]. intros _.
      eexists. split; [apply in_or_app; right; left; reflexivity | reflexivity].
    + intros i e Hi Et.
      destruct (Nat.lt_ge_cases i (List.length events)) as [L | L].
      * exfalso. rewrite nth_error_app1 in Hi by exact L.
        apply nth_error_In in Hi. apply (proj1 (Ht e Hi)). exact Et.
      * rewrite nth_error_app2 in Hi by exact L.
        rewrite length_app. cbn [List.length].
        destruct (i - List.length events)%nat as [|k] eqn:Ek; [lia|].
        destruct k; discriminate Hi.
  - split.
    + split.
      * intros [e [He Et]]. exfalso. apply (proj1 (Ht e He)). exact Et.
      * intros [H1 H2]. rewrite H1, H2 in E. discriminate E.
    + intros i e Hi Et. exfalso.
      apply nth_error_In in Hi. apply (proj1 (Ht e Hi)). exact Et.
Qed.

Lemma armed_conflict_iff_witness :
  exists e,
    In e (evaluate_unlawful_events knife_and_person punching_entry) /\
    ev_type e = "armed_conflict_detected".
Proof.
  apply (proj1 (armed_conflict_iff knife_and_person punching_entry)). split.
  - left. eexists. eexists. split; [left; reflexivity|].
    split; [left; reflexivity | reflexivity].
  - eexists. eexists. eexists. split; [left; reflexivity|].
    split; [left; reflexivity|]. split; [cbn; lra|].
    split; [right; right; left; reflexivity | reflexivity].
Defined.

(** ** Weapon events and the crime report *)

Lemma mem_weapon_is_weapon l :
  mem l WEAPON_LABELS = true -> any_in weapon_labels l = true.
Proof.
  unfold mem, WEAPON_LABELS. cbn [existsb]. rewrite !orb_true_iff. intro H.
  repeat (destruct H as [H | H]; [apply String.eqb_eq in H; subst; reflexivity|]).
  discriminate H.
Qed.

Lemma weapon_object_is_weapon detections :
  weapon_object_seen detections -> weapon_seen detections.
Proof.
  intros [f [o (Hf & Ho & Hm)]]. exists f. split; [exact Hf|].
  exists o. split; [exact Ho|]. unfold _is_weapon. apply mem_weapon_is_weapon, Hm.
Qed.

Lemma weapon_seen_is_critical detections clips :
  weapon_seen detections ->
  wr_detected (analyze_weapon_threat detections clips) = true /\
  overall_severity (generate_crime_report detections clips) = "critical".
Proof.
  intro H.
  assert (Hw : wr_detected (analyze_weapon_threat detections clips) = true).
  { unfold analyze_weapon_threat. cbn [wr_detected]. rewrite len_pos_iff.
    apply weapon_frames_nonempty. exact H. }
  split; [exact Hw|].
  unfold generate_crime_report. cbn [overall_severity].
  destruct (weapon_indicator_first _
              (analyze_violence_intensity clips detections)
              (analyze_theft_patterns detections clips)
              (analyze_suspicious_behavior detections clips) Hw) as [rest ->].
  unfold determine_overall_severity.
  set (w := weighted_confidence _).
  pose proof (max_list_ge_seed (map weighted_confidence rest) w) as G.
  assert (E : w == 0.9) by reflexivity.
  replace (Qltb 0.8 (max_list w (map weighted_confidence rest))) with true;
    [reflexivity|].
  symmetry. apply Qltb_lt. lra.
Qed.

(** X28.  The two analyses agree on weapons.  Whenever the event list holds
    a weapon event that stems from the detections ("weapon_like_object_detected",
    "weapon_detected" or "weapon_persistent_presence"), the crime report of
    the same detections has a detected weapon threat and the overall severity
    "critical", whatever the action predictions are. *)
Theorem weapon_event_means_critical :
  forall (detections : list FrameInfo) (actions : list ClipEntry) (clips : list Clip)
         (e : Event),
    In e (evaluate_unlawful_events detections actions) ->
    In (ev_type e) ["weapon_like_object_detected"; "weapon_detected";
                    "weapon_persistent_presence"] ->
    wr_detected (weapon_threat_analysis (generate_crime_report detections clips)) = true /\
    overall_severity (generate_crime_report detections clips) = "critical".
Proof.
  intros detections actions clips e He Ht.
  assert (Hs : weapon_object_seen detections).
  { unfold evaluate_unlawful_events in He. cbv zeta in He.
    destruct (_ && _) in He.
    - apply in_app_or in He. destruct He as [He | [<- | []]].
      + apply (before_types detections actions e He). exact Ht.
      + cbn [ev_type In] in Ht. destruct Ht as [X | [X | [X | []]]]; discriminate X.
    - apply (before_types detections actions e He). exact Ht. }
  apply weapon_object_is_weapon in Hs.
  exact (weapon_seen_is_critical detections clips Hs).
Qed.

Lemma weapon_event_means_critical_witness :
  exists e,
    In e (evaluate_unlawful_events knife_and_person []) /\
    In (ev_type e) ["weapon_like_object_detected"; "weapon_detected";
                    "weapon_persistent_presence"] /\
    overall_severity (generate_crime_report knife_and_person shooting_clip) = "critical".
Proof.
  eexists. split; [left; reflexivity|]. split; [left; reflexivity|].
  exact (proj2 (weapon_event_means_critical knife_and_person [] shooting_clip _
                  (or_introl eq_refl) (or_introl eq_refl))).
Defined.

(** ** Confidence and severity of the events *)

Lemma action_severity_labels t p :
  In (action_severity t p) ["low"; "medium"; "high"; "critical"].
Proof.
  unfold action_severity.
  destruct (_ || _); [destruct (Qltb _ _); cbn; auto 6|].
  destruct (_ || _); [destruct (Qltb _ _); cbn; auto 6|].
  destruct (_ || _); destruct (Qltb _ _); cbn; auto 6.
Qed.

(** X29.  Confidence and severity of an event.  When no prediction has a
    probability above 1, every event has a confidence above 0 and at most 1,
    and one of the severities "low", "medium", "high" and "critical". *)
Theorem event_confidence_and_severity :
  forall (detections : list FrameInfo) (actions : list ClipEntry) (e : Event),
    probs_at_most_1 actions ->
    In e (evaluate_unlawful_events detections actions) ->
    0 < ev_confidence e <= 1 /\
    In (ev_severity e) ["low"; "medium"; "high"; "critical"].
Proof.
  intros detections actions e Hp He.
  assert (Hb : In e (events_before_correlation detections actions) ->
               0 < ev_confidence e <= 1 /\
               In (ev_severity e) ["low"; "medium"; "high"; "critical"]).
  { clear He. intro He. apply before_cases in He.
    destruct He as [[f [Hf He]] | [He | [clip [act (Hc & Ha & He)]]]].
    - apply frame_events_cases in He.
      destruct He as (_ & [(_ & _ & [[-> ->] | [-> ->]])
                          | [(_ & -> & ->) | (_ & Hc & [<- | [<- | []]])]]);
        (split; [lra | cbn; auto 6]).
    - apply temporal_events_cases in He.
      destruct He as (_ & [(_ & _ & [<- | [<- | []]] & ->) | (_ & -> & ->)]);
        (split; [lra | cbn; auto 6]).
    - apply action_events_cases in He.
      destruct He as (_ & Hmin & _ & -> & ->).
      split; [|apply action_severity_labels].
      specialize (Hp clip act Hc Ha).
      destruct (ae_is_crime_relevant act); lra. }
  unfold evaluate_unlawful_events in He. cbv zeta in He.
  destruct (_ && _) in He; [|exact (Hb He)].
  apply in_app_or in He. destruct He as [He | [<- | []]]; [exact (Hb He)|].
  cbn [ev_confidence ev_severity]. split; [lra | cbn; auto 6].
Qed.

Lemma event_confidence_and_severity_witness :
  exists e,
    probs_at_most_1 punching_entry /\
    In e (evaluate_unlawful_events knife_and_person punching_entry) /\
    0 < ev_confidence e <= 1.
Proof.
  assert (Hp : probs_at_most_1 punching_entry).
  { intros clip act [<- | []] [<- | []]. cbn. lra. }
  eexists. split; [exact Hp|]. split; [left; reflexivity|].
  exact (proj1 (event_confidence_and_severity knife_and_person punching_entry _ Hp
                  (or_introl eq_refl))).
Defined.

(** ** The suggested sections *)

Lemma mem_In s l : mem s l = true <-> In s l.
Proof.
  unfold mem. rewrite existsb_exists. split.
  - intros [x [Hx E]]. apply String.eqb_eq in E. subst. exact Hx.
  - intro H. exists s. split; [exact H | apply String.eqb_refl].
Qed.

Lemma unique_from_spec suggestions :
  forall seen,
    NoDup (map fst (unique_from seen suggestions)) /\
    (forall s, In s (map fst (unique_from seen suggestions)) <->
               In s (map fst suggestions) /\ ~ In s seen).
Proof.
  induction suggestions as [|[key reason] rest IH]; intro seen; cbn [unique_from map fst].
  - split; [constructor|]. intro s. cbn. tauto.
  - destruct (mem key seen) eqn:E.
    + apply mem_In in E. destruct (IH seen) as [Hn Hi]. split; [exact Hn|].
      intro s. rewrite Hi. cbn [In]. split; [tauto|].
      intros [[<- | H] Hs]; [contradiction | tauto].
    + assert (Hk : ~ In key seen) by (intro H; apply mem_In in H; congruence).
      destruct (IH (key :: seen)) as [Hn Hi]. cbn [map fst]. split.
      * constructor; [|exact Hn]. rewrite Hi. cbn [In]. tauto.
      * intro s. cbn [In]. rewrite Hi. cbn [In].
        destruct (string_dec key s) as [<- | Hne]; tauto.
Qed.

(** X30.  The suggested sections.  [_get_ipc_suggestions] lists every section
    that some indicator calls for, each once.  For the indicators of a crime
    report these are IPC 307 and 506 when there is a weapon-threat indicator,
    IPC 323 and 325 for a violent-assault indicator, and IPC 379 and 392 for a
    theft indicator; no other section (so never IPC 427) is suggested. *)
Theorem ipc_suggestions_spec :
  forall (indicators : list CrimeIndicator)
         (detections : list FrameInfo) (actions : list Clip),
    NoDup (map fst (_get_ipc_suggestions indicators)) /\
    (forall s, In s (map fst (_get_ipc_suggestions indicators)) <->
               exists ind, In ind indicators /\ In s (map fst (ipc_for (ind_type ind)))) /\
    (forall s,
       In s (map fst (_get_ipc_suggestions
                        (crime_indicators (generate_crime_report detections actions)))) <->
       (In s ["IPC 307"; "IPC 506"] /\
        In "weapon_threat"
           (map ind_type (crime_indicators (generate_crime_report detections actions)))) \/
       (In s ["IPC 323"; "IPC 325"] /\
        In "violent_assault"
           (map ind_type (crime_indicators (generate_crime_report detections actions)))) \/
       (In s ["IPC 379"; "IPC 392"] /\
        In "theft_or_robbery"
           (map ind_type (crime_indicators (generate_crime_report detections actions))))).
Proof.
  assert (G : forall indicators s,
            In s (map fst (_get_ipc_suggestions indicators)) <->
            exists ind, In ind indicators /\ In s (map fst (ipc_for (ind_type ind)))).
  { intros indicators s. unfold _get_ipc_suggestions.
    destruct (unique_from_spec
                (flat_map (fun indicator => ipc_for (ind_type indicator)) indicators) [])
      as [_ Hi].
    rewrite Hi. cbn [In]. rewrite in_map_iff. split.
    - intros [[sg [<- Hsg]] _]. apply in_flat_map in Hsg. destruct Hsg as [ind [Hind Hsg]].
      exists ind. split; [exact Hind|]. apply in_map. exact Hsg.
    - intros [ind [Hind Hs]]. split; [|tauto].
      apply in_map_iff in Hs. destruct Hs as [sg [<- Hsg]].
      exists sg. split; [reflexivity|]. apply in_flat_map. exists ind. auto. }
  intros indicators detections actions. split; [|split].
  - unfold _get_ipc_suggestions. apply unique_from_spec.
  - apply G.
  - intro s. rewrite G. unfold generate_crime_report. cbn [crime_indicators]. split.
    + intros [ind [Hind Hs]]. pose proof (in_map ind_type _ _ Hind) as Hty.
      apply indicator_cases in Hind.
      destruct Hind as [(_ & ->) | [(_ & _ & ->) | [(_ & _ & ->) | (_ & _ & ->)]]];
        cbn [ind_type] in Hs, Hty.
      * left. split; [exact Hs | exact Hty].
      * right. left. split; [exact Hs | exact Hty].
      * right. right. split; [exact Hs | exact Hty].
      * destruct Hs.
    + intros [[Hs Hty] | [[Hs Hty] | [Hs Hty]]];
        apply in_map_iff in Hty; destruct Hty as [ind [Et Hind]];
        exists ind; (split; [exact Hind|]); rewrite Et; exact Hs.
Qed.

End EventProps.

(* ================================================================== *)
(** * The detection post-processing against the threshold table and the
      intersection over union *)

Module DetectionRefinement.
Import Models Spec Samples.
Import ViolenceProps DetectionProps DetectionBounds EventProps.

(** ** The thresholds *)



(** ** The intersection over union *)










End DetectionRefinement.
